(** * hrdashboard: the aggregation engine of [src/lib/notion.ts] and the
      role folds of the presentation tabs.

    JavaScript numbers are embedded as exact rationals ([Q]): scores are
    finite numbers (the data model gives the range 0..10), so there is no
    NaN or infinity among them and comparisons are the order of [Q].
    Array lengths and counters are [nat]. Strings are [string]; a string is
    falsy exactly when it is empty. *)

From Stdlib Require Import String Ascii.
From Stdlib Require Import ZArith QArith Qminmax Qabs Qround List Bool Lia Arith.
From Stdlib Require Import Lqa Permutation Sorted.
Import ListNotations.

Local Open Scope Q_scope.

(** ** Candidate records

    [interface Candidate], with the fields that the engine and the role
    folds read. A date that is missing is the empty string. *)

Record Candidate := mkCandidate {
  id : string;
  name : string;
  dateAdded : string;
  status : string;
  source : string;
  jobRole : string;
  role : string;
  aiScore : Q;
  humanScore : Q;
  passedAiFilter : bool;
  passedHumanFilter : bool
}.

(** ** JavaScript primitives used by the engine

    The numbers of the code are doubles and each operation rounds its
    result; here they are rationals and the operations are exact.
    Comparisons, maxima, minima and counts are the same in both; what
    only exact sums and quotients satisfy (an average between the minimum
    and the maximum, a sum that does not depend on the order, percentages
    that add up to exactly 100) is not among the properties stated. *)

(** Truthiness of a string: every string but the empty one. *)
Definition truthy (s : string) : bool :=
  match s with
  | EmptyString => false
  | String _ _ => true
  end.

(** [a || b] on strings. *)
Definition str_or (a b : string) : string := if truthy a then a else b.

(** [a > b], [a < b], [a >= b], [a <= b] and [a === b] on numbers. *)
Definition num_gt (a b : Q) : bool :=
  match a ?= b with Gt => true | _ => false end.
Definition num_lt (a b : Q) : bool :=
  match a ?= b with Lt => true | _ => false end.
Definition num_ge (a b : Q) : bool := negb (num_lt a b).
Definition num_le (a b : Q) : bool := negb (num_gt a b).
Definition strict_eq (a b : Q) : bool :=
  match a ?= b with Eq => true | _ => false end.

(** [xs.reduce((sum, d) => sum + d, 0)] *)
Definition sumOf (xs : list Q) : Q := fold_left Qplus xs 0.

(** [Math.max(...xs)] and [Math.min(...xs)] for a non-empty argument list
    [x :: xs]; every call site is guarded by a length test. *)
Definition Math_max (x : Q) (xs : list Q) : Q := fold_left Qmax xs x.
Definition Math_min (x : Q) (xs : list Q) : Q := fold_left Qmin xs x.

(** [Math.abs] *)
Definition Math_abs (d : Q) : Q := Qabs d.

(** A counter, and the length of an array, as a number. *)
Definition num (n : nat) : Q := inject_Z (Z.of_nat n).
Definition len {A} (xs : list A) : Q := num (length xs).

(** ** [calculateScoreDiscrepancy] *)

Module Summary.
(** The object literal returned by [calculateScoreDiscrepancy]. The key
    [discrepancies] is present in one of the two literals only. *)
Record t := mk {
  averageDiscrepancy : Q;
  maxDiscrepancy : Q;
  minDiscrepancy : Q;
  totalCandidates : nat;
  aiHigherCount : nat;
  humanHigherCount : nat;
  equalScoresCount : nat;
  discrepancies : option (list Q)
}.
End Summary.

(** [candidate.aiScore > 0 && candidate.humanScore > 0] *)
Definition bothScores (c : Candidate) : bool :=
  num_gt (aiScore c) 0 && num_gt (humanScore c) 0.

Definition discrepancy (c : Candidate) : Q := aiScore c - humanScore c.

Definition calculateScoreDiscrepancy (candidates : list Candidate) : Summary.t :=
  let validCandidates := filter bothScores candidates in
  match validCandidates with
  | [] =>
      Summary.mk 0 0 0 0%nat 0%nat 0%nat 0%nat None
  | c :: cs =>
      let discrepancies := map discrepancy validCandidates in
      let aiHigherCount := length (filter (fun d => num_gt d 0) discrepancies) in
      let humanHigherCount := length (filter (fun d => num_lt d 0) discrepancies) in
      let equalScoresCount := length (filter (fun d => strict_eq d 0) discrepancies) in
      Summary.mk
        (sumOf discrepancies / len discrepancies)
        (Math_max (discrepancy c) (map discrepancy cs))
        (Math_min (discrepancy c) (map discrepancy cs))
        (length validCandidates)
        aiHigherCount
        humanHigherCount
        equalScoresCount
        (Some (map Math_abs discrepancies))
  end.

(** ** The [Date] object

    A valid [Date] is its time value: milliseconds since the epoch, an
    integer. The definitions below are the abstract operations of
    ECMA-262 (section "Date Objects") that the methods used by
    [calculateWeeklyTrends] are specified with. In the section
    [LocalZone] the offset of local time, [LocalTZA], is one number: the
    methods as they are in a zone without clock changes. The methods in
    the zone of any host, whose offset depends on the time, are those of
    [Host] below. [TimeClip] is not modelled: all time values stay far
    from its bound of 8.64e15. *)

Module JSDate.
Local Open Scope Z_scope.

Definition msPerDay : Z := 86400000.
Definition msPerHour : Z := 3600000.
Definition msPerMinute : Z := 60000.
Definition msPerSecond : Z := 1000.

Definition Day (t : Z) : Z := t / msPerDay.
Definition TimeWithinDay (t : Z) : Z := t mod msPerDay.

Definition DaysInYear (y : Z) : Z :=
  if negb (y mod 4 =? 0) then 365
  else if negb (y mod 100 =? 0) then 366
  else if negb (y mod 400 =? 0) then 365
  else 366.

Definition DayFromYear (y : Z) : Z :=
  365 * (y - 1970) + (y - 1969) / 4 - (y - 1901) / 100 + (y - 1601) / 400.

Definition TimeFromYear (y : Z) : Z := msPerDay * DayFromYear y.

(** The largest [y] with [TimeFromYear y <= t]: an estimate from the
    400-year cycle of 146097 days, off by at most one year. *)
Definition YearFromTime (t : Z) : Z :=
  let y := 1970 + (Day t * 400) / 146097 in
  if TimeFromYear (y + 1) <=? t then y + 1
  else if TimeFromYear y <=? t then y
  else y - 1.

Definition InLeapYear (t : Z) : Z :=
  if DaysInYear (YearFromTime t) =? 366 then 1 else 0.

Definition DayWithinYear (t : Z) : Z := Day t - DayFromYear (YearFromTime t).

Definition MonthFromTime (t : Z) : Z :=
  let d := DayWithinYear t in
  let leap := InLeapYear t in
  if d <? 31 then 0
  else if d <? 59 + leap then 1
  else if d <? 90 + leap then 2
  else if d <? 120 + leap then 3
  else if d <? 151 + leap then 4
  else if d <? 181 + leap then 5
  else if d <? 212 + leap then 6
  else if d <? 243 + leap then 7
  else if d <? 273 + leap then 8
  else if d <? 304 + leap then 9
  else if d <? 334 + leap then 10
  else 11.

Definition DateFromTime (t : Z) : Z :=
  let d := DayWithinYear t in
  let leap := InLeapYear t in
  match MonthFromTime t with
  | 0 => d + 1
  | 1 => d - 30
  | 2 => d - 58 - leap
  | 3 => d - 89 - leap
  | 4 => d - 119 - leap
  | 5 => d - 150 - leap
  | 6 => d - 180 - leap
  | 7 => d - 211 - leap
  | 8 => d - 242 - leap
  | 9 => d - 272 - leap
  | 10 => d - 303 - leap
  | _ => d - 333 - leap
  end.

(** 0 is Sunday, 1 is Monday, ..., 6 is Saturday. *)
Definition WeekDay (t : Z) : Z := (Day t + 4) mod 7.

Definition HourFromTime (t : Z) : Z := (t / msPerHour) mod 24.
Definition MinFromTime (t : Z) : Z := (t / msPerMinute) mod 60.
Definition SecFromTime (t : Z) : Z := (t / msPerSecond) mod 60.
Definition msFromTime (t : Z) : Z := t mod msPerSecond.

Definition MakeTime (hour min sec ms : Z) : Z :=
  hour * msPerHour + min * msPerMinute + sec * msPerSecond + ms.

(** Day number of the first day of month [mn] (0..11) of year [ym]. *)
Definition DayOfMonthStart (ym mn : Z) : Z :=
  let leap := if DaysInYear ym =? 366 then 1 else 0 in
  DayFromYear ym +
  match mn with
  | 0 => 0
  | 1 => 31
  | 2 => 59 + leap
  | 3 => 90 + leap
  | 4 => 120 + leap
  | 5 => 151 + leap
  | 6 => 181 + leap
  | 7 => 212 + leap
  | 8 => 243 + leap
  | 9 => 273 + leap
  | 10 => 304 + leap
  | _ => 334 + leap
  end.

(** [MakeDay]: the day number of the first of the month, plus [date - 1];
    a [date] outside the month carries into the neighbouring months. *)
Definition MakeDay (year month date : Z) : Z :=
  let ym := year + month / 12 in
  let mn := month mod 12 in
  DayOfMonthStart ym mn + date - 1.

Definition MakeDate (day time : Z) : Z := day * msPerDay + time.

Section LocalZone.
Variable LocalTZA : Z.

Definition LocalTime (t : Z) : Z := t + LocalTZA.
Definition UTC (t : Z) : Z := t - LocalTZA.

(** [Date.prototype.getDate], [getDay], [getHours], [getMinutes],
    [getSeconds], [getMilliseconds] *)
Definition getDate (t : Z) : Z := DateFromTime (LocalTime t).
Definition getDay (t : Z) : Z := WeekDay (LocalTime t).
Definition getHours (t : Z) : Z := HourFromTime (LocalTime t).
Definition getMinutes (t : Z) : Z := MinFromTime (LocalTime t).
Definition getSeconds (t : Z) : Z := SecFromTime (LocalTime t).
Definition getMilliseconds (t : Z) : Z := msFromTime (LocalTime t).

(** [Date.prototype.setDate(date)]: the new time value. *)
Definition setDate (t date : Z) : Z :=
  let local := LocalTime t in
  UTC (MakeDate (MakeDay (YearFromTime local) (MonthFromTime local) date)
                (TimeWithinDay local)).

(** [Date.prototype.setHours(hour, min, sec, ms)]: the new time value. *)
Definition setHours (t hour min sec ms : Z) : Z :=
  let local := LocalTime t in
  UTC (MakeDate (Day local) (MakeTime hour min sec ms)).
End LocalZone.

(** [n] written with [w] decimal digits, zero padded. *)
Definition digit (n : Z) : ascii := ascii_of_nat (48 + Z.to_nat n).
Fixpoint pad (w : nat) (n : Z) : string :=
  match w with
  | O => EmptyString
  | S w' => append (pad w' (n / 10)) (String (digit (n mod 10)) EmptyString)
  end.

(** [d.toISOString().split('T')[0]]: the UTC calendar date, [YYYY-MM-DD];
    years outside 0..9999 are written with a sign and six digits. *)
Definition isoDate (t : Z) : string :=
  let y := YearFromTime t in
  let year :=
    if (0 <=? y) && (y <=? 9999) then pad 4 y
    else append (if y <? 0 then "-"%string else "+"%string) (pad 6 (Z.abs y)) in
  append year
    (append "-"%string (append (pad 2 (MonthFromTime t + 1))
       (append "-"%string (pad 2 (DateFromTime t))))).
End JSDate.

(** ** [calculateWeeklyTrends]

    [new Date()] is the argument [today]; the time-zone offset is
    [LocalTZA]. [new Date(candidate.dateAdded)] parses a string: [Date_parse]
    stands for [Date.parse], with [None] for the time value NaN of an
    invalid date. *)

Module Bucket.
(** One element of [weekBuckets]. The two arrays are filled in place by
    the assignment loop. *)
Record t := mk {
  weekKey : string;
  weekStart : Z;
  weekEnd : Z;
  allCandidates : list Candidate;
  scoredCandidates : list Candidate
}.
End Bucket.

Module Trend.
(** One element of the returned [weeklyMetrics]. *)
Record t := mk {
  week : string;
  date : Z;
  totalCandidates : nat;
  scoredCandidates : nat;
  averageDiscrepancy : Q;
  averageAbsoluteDiscrepancy : Q;
  aiHigherCount : nat;
  humanHigherCount : nat;
  equalCount : nat;
  maxDiscrepancy : Q;
  minDiscrepancy : Q;
  aiAccuracy : Q
}.
End Trend.

(** The body of the loop [for (let i = 3; i >= 0; i--)]: the bucket pushed
    for offset [i]. *)
Definition weekBucket (LocalTZA today i : Z) : Bucket.t :=
  let weekStart := today in
  let weekStart :=
    JSDate.setDate LocalTZA weekStart (JSDate.getDate LocalTZA today - (i * 7))%Z in
  let dayOfWeek := JSDate.getDay LocalTZA weekStart in
  let diff :=
    (JSDate.getDate LocalTZA weekStart - dayOfWeek
       + (if dayOfWeek =? 0 then -6 else 1))%Z in
  let weekStart := JSDate.setDate LocalTZA weekStart diff in
  let weekStart := JSDate.setHours LocalTZA weekStart 0 0 0 0 in
  let weekEnd := weekStart in
  let weekEnd :=
    JSDate.setDate LocalTZA weekEnd (JSDate.getDate LocalTZA weekStart + 6)%Z in
  let weekEnd := JSDate.setHours LocalTZA weekEnd 23 59 59 999 in
  Bucket.mk (JSDate.isoDate weekStart) weekStart weekEnd [] [].

Definition weekBuckets (LocalTZA today : Z) : list Bucket.t :=
  map (weekBucket LocalTZA today) [3; 2; 1; 0]%Z.

(** [candidateDate >= bucket.weekStart && candidateDate <= bucket.weekEnd] *)
Definition inBucket (candidateDate : Z) (bucket : Bucket.t) : bool :=
  (Bucket.weekStart bucket <=? candidateDate)%Z
  && (candidateDate <=? Bucket.weekEnd bucket)%Z.

(** The two [push] calls on the bucket that was found. *)
Definition pushCandidate (candidate : Candidate) (bucket : Bucket.t) : Bucket.t :=
  Bucket.mk
    (Bucket.weekKey bucket) (Bucket.weekStart bucket) (Bucket.weekEnd bucket)
    (Bucket.allCandidates bucket ++ [candidate])
    (if bothScores candidate
     then Bucket.scoredCandidates bucket ++ [candidate]
     else Bucket.scoredCandidates bucket).

(** [weekBuckets.find(...)] followed by the update of the bucket found:
    the first bucket whose window holds the date is changed in place, and
    nothing is when there is none. *)
Fixpoint pushToFound (candidateDate : Z) (candidate : Candidate)
    (buckets : list Bucket.t) : list Bucket.t :=
  match buckets with
  | [] => []
  | bucket :: rest =>
      if inBucket candidateDate bucket
      then pushCandidate candidate bucket :: rest
      else bucket :: pushToFound candidateDate candidate rest
  end.

(** One call of the [forEach] callback. *)
Definition assignCandidate (Date_parse : string -> option Z)
    (buckets : list Bucket.t) (candidate : Candidate) : list Bucket.t :=
  match Date_parse (dateAdded candidate) with
  | None => buckets
  | Some candidateDate => pushToFound candidateDate candidate buckets
  end.

(** The buckets after the assignment loop. *)
Definition assignedBuckets (LocalTZA : Z) (Date_parse : string -> option Z)
    (today : Z) (candidates : list Candidate) : list Bucket.t :=
  let allCandidates := filter (fun candidate => truthy (dateAdded candidate)) candidates in
  fold_left (assignCandidate Date_parse) allCandidates (weekBuckets LocalTZA today).

(** The callback of [weekBuckets.map]. *)
Definition weekMetrics (bucket : Bucket.t) : Trend.t :=
  let allCandidates := Bucket.allCandidates bucket in
  let scoredCandidates := Bucket.scoredCandidates bucket in
  let discrepancies := map discrepancy scoredCandidates in
  let absDiscrepancies := map Math_abs discrepancies in
  Trend.mk
    (Bucket.weekKey bucket)
    (Bucket.weekStart bucket)
    (length allCandidates)
    (length scoredCandidates)
    (match discrepancies with
     | [] => 0
     | _ :: _ => sumOf discrepancies / len discrepancies
     end)
    (match absDiscrepancies with
     | [] => 0
     | _ :: _ => sumOf absDiscrepancies / len absDiscrepancies
     end)
    (length (filter (fun d => num_gt d 0) discrepancies))
    (length (filter (fun d => num_lt d 0) discrepancies))
    (length (filter (fun d => strict_eq d 0) discrepancies))
    (match discrepancies with
     | [] => 0
     | d :: ds => Math_max d ds
     end)
    (match discrepancies with
     | [] => 0
     | d :: ds => Math_min d ds
     end)
    (match discrepancies with
     | [] => 0
     | _ :: _ =>
         len (filter (fun d => num_le (Math_abs d) 1) discrepancies)
           / len discrepancies * 100
     end).

Definition calculateWeeklyTrends (LocalTZA : Z) (Date_parse : string -> option Z)
    (today : Z) (candidates : list Candidate) : list Trend.t :=
  map weekMetrics (assignedBuckets LocalTZA Date_parse today candidates).

(** ** Plain objects used as maps

    An object built by [acc[key] = ...] is an association list in insertion
    order, which is the order [Object.values] and [Object.entries] follow
    for keys that are not array indices. The list holds the own keys of
    the object: [get] does not see what an object literal inherits from
    [Object.prototype], and what depends on it is stated for keys that are
    not [inherited] (defined below). *)

Module Obj.
Definition t (V : Type) : Type := list (string * V).

(** [o[k]]; [None] is [undefined]. *)
Fixpoint get {V} (k : string) (o : t V) : option V :=
  match o with
  | [] => None
  | (k', v) :: o' => if String.eqb k k' then Some v else get k o'
  end.

(** [o[k] = v]: an existing key keeps its place, a new one goes last. *)
Fixpoint set {V} (k : string) (v : V) (o : t V) : t V :=
  match o with
  | [] => [(k, v)]
  | (k', v') :: o' =>
      if String.eqb k k' then (k', v) :: o' else (k', v') :: set k v o'
  end.

Definition values {V} (o : t V) : list V := map snd o.
Definition entries {V} (o : t V) : list (string * V) := o.

(** [o[k] = (o[k] || 0) + 1] on counters. *)
Definition bump (k : string) (o : t nat) : t nat :=
  set k (match get k o with Some n => n | None => O end + 1)%nat o.
End Obj.

(** [xs.sort(compare)]: a stable sort; [a] stays before [b] unless
    [compare a b > 0]. *)
Fixpoint sort_insert {A} (compare : A -> A -> Q) (x : A) (xs : list A) : list A :=
  match xs with
  | [] => [x]
  | y :: ys =>
      if num_gt (compare x y) 0 then y :: sort_insert compare x ys
      else x :: y :: ys
  end.

Definition sort {A} (compare : A -> A -> Q) (xs : list A) : list A :=
  fold_right (sort_insert compare) [] xs.

(** [candidate.jobRole || candidate.role || 'No Role'] *)
Definition getRoleName (candidate : Candidate) : string :=
  str_or (str_or (jobRole candidate) (role candidate)) "No Role".

(** ** [RolePerformanceTab]: [roleAnalysis] and [roleData] *)

Module RolePerformanceTab.
(** The accumulator object of one role. *)
Record RoleAcc := mkAcc {
  role : string;
  totalCandidates : nat;
  withBothScores : nat;
  aiProcessedCount : nat;
  humanProcessedCount : nat;
  avgAiScore : Q;
  avgHumanScore : Q;
  avgDiscrepancy : Q;
  aiScoreSum : Q;
  humanScoreSum : Q;
  discrepancySum : Q;
  sources : Obj.t nat;
  statuses : Obj.t nat
}.

Definition newAcc (role : string) : RoleAcc :=
  mkAcc role 0 0 0 0 0 0 0 0 0 0 [] [].

(** [acc[role].totalCandidates++] *)
Definition countCandidate (r : RoleAcc) : RoleAcc :=
  mkAcc (role r) (totalCandidates r + 1) (withBothScores r)
    (aiProcessedCount r) (humanProcessedCount r)
    (avgAiScore r) (avgHumanScore r) (avgDiscrepancy r)
    (aiScoreSum r) (humanScoreSum r) (discrepancySum r)
    (sources r) (statuses r).

Definition trackSource (source : string) (r : RoleAcc) : RoleAcc :=
  mkAcc (role r) (totalCandidates r) (withBothScores r)
    (aiProcessedCount r) (humanProcessedCount r)
    (avgAiScore r) (avgHumanScore r) (avgDiscrepancy r)
    (aiScoreSum r) (humanScoreSum r) (discrepancySum r)
    (Obj.bump source (sources r)) (statuses r).

Definition trackStatus (status : string) (r : RoleAcc) : RoleAcc :=
  mkAcc (role r) (totalCandidates r) (withBothScores r)
    (aiProcessedCount r) (humanProcessedCount r)
    (avgAiScore r) (avgHumanScore r) (avgDiscrepancy r)
    (aiScoreSum r) (humanScoreSum r) (discrepancySum r)
    (sources r) (Obj.bump status (statuses r)).

Definition addAiScore (s : Q) (r : RoleAcc) : RoleAcc :=
  mkAcc (role r) (totalCandidates r) (withBothScores r)
    (aiProcessedCount r + 1) (humanProcessedCount r)
    (avgAiScore r) (avgHumanScore r) (avgDiscrepancy r)
    (aiScoreSum r + s) (humanScoreSum r) (discrepancySum r)
    (sources r) (statuses r).

Definition addHumanScore (s : Q) (r : RoleAcc) : RoleAcc :=
  mkAcc (role r) (totalCandidates r) (withBothScores r)
    (aiProcessedCount r) (humanProcessedCount r + 1)
    (avgAiScore r) (avgHumanScore r) (avgDiscrepancy r)
    (aiScoreSum r) (humanScoreSum r + s) (discrepancySum r)
    (sources r) (statuses r).

Definition addDiscrepancy (d : Q) (r : RoleAcc) : RoleAcc :=
  mkAcc (role r) (totalCandidates r) (withBothScores r + 1)
    (aiProcessedCount r) (humanProcessedCount r)
    (avgAiScore r) (avgHumanScore r) (avgDiscrepancy r)
    (aiScoreSum r) (humanScoreSum r) (discrepancySum r + d)
    (sources r) (statuses r).

(** The statements of the reducer that change [acc[role]], in order, with
    its two early returns. *)
Definition updateAcc (candidate : Candidate) (r : RoleAcc) : RoleAcc :=
  let r := countCandidate r in
  let source := source candidate in
  if negb (truthy source) then r else
  let r := trackSource source r in
  let status := status candidate in
  if negb (truthy status) then r else
  let r := trackStatus status r in
  let r := if num_gt (aiScore candidate) 0
           then addAiScore (aiScore candidate) r else r in
  let r := if num_gt (humanScore candidate) 0
           then addHumanScore (humanScore candidate) r else r in
  let r := if num_gt (aiScore candidate) 0 && num_gt (humanScore candidate) 0
           then addDiscrepancy (aiScore candidate - humanScore candidate) r
           else r in
  r.

(** The reducer: [acc[role]] is created when absent, then updated. *)
Definition roleAnalysisStep (acc : Obj.t RoleAcc) (candidate : Candidate)
    : Obj.t RoleAcc :=
  let role := getRoleName candidate in
  let r := match Obj.get role acc with
           | Some r => r
           | None => newAcc role
           end in
  Obj.set role (updateAcc candidate r) acc.

Definition roleAnalysis (candidates : list Candidate) : Obj.t RoleAcc :=
  fold_left roleAnalysisStep candidates [].

(** An element of [roleData]: the accumulator spread, with the computed
    keys overriding or added. *)
Record RoleDatum := mkDatum {
  base : RoleAcc;
  d_avgAiScore : Q;
  d_avgHumanScore : Q;
  d_avgDiscrepancy : Q;
  aiProcessingRate : Q;
  humanReviewRate : Q;
  bothScoresCount : nat;
  d_aiProcessedCount : nat;
  topSource : string
}.

Definition roleDatum (r : RoleAcc) : RoleDatum :=
  mkDatum r
    (if (0 <? aiProcessedCount r)%nat
     then aiScoreSum r / num (aiProcessedCount r) else 0)
    (if (0 <? humanProcessedCount r)%nat
     then humanScoreSum r / num (humanProcessedCount r) else 0)
    (if (0 <? withBothScores r)%nat
     then discrepancySum r / num (withBothScores r) else 0)
    (if (0 <? totalCandidates r)%nat
     then num (aiProcessedCount r) / num (totalCandidates r) * 100 else 0)
    (if (0 <? aiProcessedCount r)%nat
     then num (withBothScores r) / num (aiProcessedCount r) * 100 else 0)
    (withBothScores r)
    (aiProcessedCount r)
    (match sort (fun a b => num (snd b) - num (snd a))
                (Obj.entries (sources r)) with
     | (s, _) :: _ => str_or s "No Data"
     | [] => "No Data"%string
     end).

Definition roleData (candidates : list Candidate) : list RoleDatum :=
  sort (fun a b => num (totalCandidates (base b)) - num (totalCandidates (base a)))
    (map roleDatum (Obj.values (roleAnalysis candidates))).
End RolePerformanceTab.

(** ** [CandidateQualityTab]: [roleQuality] and [roleQualityData] *)

Module CandidateQualityTab.
Record RoleAcc := mkAcc {
  role : string;
  totalCandidates : nat;
  aiScoreSum : Q;
  humanScoreSum : Q;
  aiScoreCount : nat;
  humanScoreCount : nat;
  highQuality : nat;
  passedAi : nat;
  passedHuman : nat;
  passedBoth : nat
}.

Definition newAcc (role : string) : RoleAcc :=
  mkAcc role 0 0 0 0 0 0 0 0 0.

Definition incr (b : bool) (n : nat) : nat := if b then (n + 1)%nat else n.

(** The statements of the reducer that change [acc[role]]. *)
Definition updateAcc (candidate : Candidate) (r : RoleAcc) : RoleAcc :=
  mkAcc (role r)
    (totalCandidates r + 1)
    (if num_gt (aiScore candidate) 0
     then aiScoreSum r + aiScore candidate else aiScoreSum r)
    (if num_gt (humanScore candidate) 0
     then humanScoreSum r + humanScore candidate else humanScoreSum r)
    (incr (num_gt (aiScore candidate) 0) (aiScoreCount r))
    (incr (num_gt (humanScore candidate) 0) (humanScoreCount r))
    (incr (num_ge (aiScore candidate) 7) (highQuality r))
    (incr (passedAiFilter candidate) (passedAi r))
    (incr (passedHumanFilter candidate) (passedHuman r))
    (incr (passedAiFilter candidate && passedHumanFilter candidate)
          (passedBoth r)).

Definition roleQualityStep (acc : Obj.t RoleAcc) (candidate : Candidate)
    : Obj.t RoleAcc :=
  let role := getRoleName candidate in
  let r := match Obj.get role acc with
           | Some r => r
           | None => newAcc role
           end in
  Obj.set role (updateAcc candidate r) acc.

Definition roleQuality (candidates : list Candidate) : Obj.t RoleAcc :=
  fold_left roleQualityStep candidates [].

Record RoleDatum := mkDatum {
  base : RoleAcc;
  avgAiScore : Q;
  avgHumanScore : Q;
  qualityRate : Q;
  aiFilterRate : Q;
  humanFilterRate : Q;
  bothFiltersRate : Q
}.

Definition rate (n total : nat) : Q :=
  if (0 <? total)%nat then num n / num total * 100 else 0.

Definition roleDatum (r : RoleAcc) : RoleDatum :=
  mkDatum r
    (if (0 <? aiScoreCount r)%nat
     then aiScoreSum r / num (aiScoreCount r) else 0)
    (if (0 <? humanScoreCount r)%nat
     then humanScoreSum r / num (humanScoreCount r) else 0)
    (rate (highQuality r) (totalCandidates r))
    (rate (passedAi r) (totalCandidates r))
    (rate (passedHuman r) (totalCandidates r))
    (rate (passedBoth r) (totalCandidates r)).

Definition roleQualityData (candidates : list Candidate) : list RoleDatum :=
  map roleDatum (Obj.values (roleQuality candidates)).
End CandidateQualityTab.

(** ** Notions used to state the properties *)

(** How many days the Monday of its week lies before a day whose number in
    the week is [dayOfWeek] (0 is Sunday). *)
Definition daysSinceMonday (dayOfWeek : Z) : Z :=
  (if dayOfWeek =? 0 then 6 else dayOfWeek - 1)%Z.

(** The time value of the local midnight that opens the Monday-based week
    holding [t]. *)
Definition mondayOf (LocalTZA t : Z) : Z :=
  ((JSDate.Day (t + LocalTZA)
    - daysSinceMonday (JSDate.WeekDay (t + LocalTZA))) * JSDate.msPerDay
   - LocalTZA)%Z.

(** A window that opens on a Monday at 00:00:00.000 local time and closes
    six days later at 23:59:59.999, which is a Sunday. *)
Definition MondayWindow (LocalTZA : Z) (b : Bucket.t) : Prop :=
  let weekStart := Bucket.weekStart b in
  let weekEnd := Bucket.weekEnd b in
  JSDate.getDay LocalTZA weekStart = 1%Z
  /\ JSDate.getHours LocalTZA weekStart = 0%Z
  /\ JSDate.getMinutes LocalTZA weekStart = 0%Z
  /\ JSDate.getSeconds LocalTZA weekStart = 0%Z
  /\ JSDate.getMilliseconds LocalTZA weekStart = 0%Z
  /\ weekEnd = (weekStart + 6 * JSDate.msPerDay
                + JSDate.MakeTime 23 59 59 999)%Z
  /\ JSDate.getDay LocalTZA weekEnd = 0%Z
  /\ JSDate.getHours LocalTZA weekEnd = 23%Z
  /\ JSDate.getMinutes LocalTZA weekEnd = 59%Z
  /\ JSDate.getSeconds LocalTZA weekEnd = 59%Z
  /\ JSDate.getMilliseconds LocalTZA weekEnd = 999%Z.

(** The position of the bucket that [find] returns for a date. *)
Fixpoint findBucket (candidateDate : Z) (buckets : list Bucket.t) : option nat :=
  match buckets with
  | [] => None
  | bucket :: rest =>
      if inBucket candidateDate bucket then Some O
      else option_map S (findBucket candidateDate rest)
  end.

Definition is_index (j : nat) (o : option nat) : bool :=
  match o with
  | Some i => Nat.eqb i j
  | None => false
  end.

(** The position of the bucket a record is pushed to, if any. *)
Definition bucketOf (LocalTZA : Z) (Date_parse : string -> option Z)
    (today : Z) (candidate : Candidate) : option nat :=
  if truthy (dateAdded candidate) then
    match Date_parse (dateAdded candidate) with
    | Some candidateDate => findBucket candidateDate (weekBuckets LocalTZA today)
    | None => None
    end
  else None.

(** Whether the assignment loop pushes [c] to position [j] of [bs]. *)
Definition pushedTo (Date_parse : string -> option Z) (bs : list Bucket.t)
    (j : nat) (c : Candidate) : bool :=
  match Date_parse (dateAdded c) with
  | Some d => is_index j (findBucket d bs)
  | None => false
  end.

(** The bucket at position [j] after the loop over [cs]: its window is kept
    and it has received, in order, the records pushed to [j]. *)
Definition received (Date_parse : string -> option Z) (cs : list Candidate)
    (bs : list Bucket.t) (j : nat) (b : Bucket.t) : Bucket.t :=
  Bucket.mk (Bucket.weekKey b) (Bucket.weekStart b) (Bucket.weekEnd b)
    (Bucket.allCandidates b ++ filter (pushedTo Date_parse bs j) cs)
    (Bucket.scoredCandidates b
       ++ filter bothScores (filter (pushedTo Date_parse bs j) cs)).

(** The records of the input that go to position [j], in input order. *)
Definition assignedTo (LocalTZA : Z) (Date_parse : string -> option Z)
    (today : Z) (j : nat) (candidates : list Candidate) : list Candidate :=
  filter (fun c => is_index j (bucketOf LocalTZA Date_parse today c)) candidates.

(** The bucket for offset [i], at position [j], once filled. *)
Definition filledBucket (LocalTZA : Z) (Date_parse : string -> option Z)
    (today : Z) (candidates : list Candidate) (j : nat) (i : Z) : Bucket.t :=
  let b := weekBucket LocalTZA today i in
  let records := assignedTo LocalTZA Date_parse today j candidates in
  Bucket.mk (Bucket.weekKey b) (Bucket.weekStart b) (Bucket.weekEnd b)
    records (filter bothScores records).

(** The records of one role group. *)
Definition recordsOfRole (k : string) (candidates : list Candidate)
    : list Candidate :=
  filter (fun c => String.eqb (getRoleName c) k) candidates.

(** A record without a role name of its own. *)
Definition keyless (c : Candidate) : bool :=
  negb (truthy (jobRole c)) && negb (truthy (role c)).

(** The size of a role group, [None] for a role that has no record. *)
Definition groupCount (k : string) (candidates : list Candidate) : option nat :=
  match recordsOfRole k candidates with
  | [] => None
  | _ :: _ => Some (length (recordsOfRole k candidates))
  end.

(** The shape shared by the two role reducers: the accumulator of the
    role of [c] is looked up or created, updated, and stored. *)
Definition groupStep {V} (init : string -> V) (upd : Candidate -> V -> V)
    (acc : Obj.t V) (c : Candidate) : Obj.t V :=
  let k := getRoleName c in
  Obj.set k (upd c (match Obj.get k acc with
                    | Some r => r
                    | None => init k
                    end)) acc.

(** The accumulator of role [k] after its records [records], starting
    from [o]. *)
Definition groupState {V} (init : string -> V) (upd : Candidate -> V -> V)
    (k : string) (records : list Candidate) (o : option V) : option V :=
  fold_left (fun o c => Some (upd c (match o with
                                     | Some r => r
                                     | None => init k
                                     end))) records o.

(** A record the reducer of [RolePerformanceTab] does not return early
    on: it has a source and a status. *)
Definition tracked (c : Candidate) : bool :=
  truthy (source c) && truthy (status c).

(** The mean of a list of numbers, 0 for the empty list. *)
Definition mean (xs : list Q) : Q :=
  match xs with
  | [] => 0
  | _ :: _ => sumOf xs / len xs
  end.

(** ** Further notions used to state properties *)

(** A record with a date that parses to a time from [lo] to [hi]. *)
Definition datedWithin (Date_parse : string -> option Z) (lo hi : Z)
    (c : Candidate) : bool :=
  truthy (dateAdded c)
  && match Date_parse (dateAdded c) with
     | Some d => (lo <=? d)%Z && (d <=? hi)%Z
     | None => false
     end.

(** A record with a date that parses into the window of [b]. *)
Definition datedIn (Date_parse : string -> option Z) (b : Bucket.t)
    (c : Candidate) : bool :=
  datedWithin Date_parse (Bucket.weekStart b) (Bucket.weekEnd b) c.

(** The entry of a week without records. *)
Definition emptyTrend (b : Bucket.t) : Trend.t :=
  Trend.mk (Bucket.weekKey b) (Bucket.weekStart b) 0 0 0 0 0 0 0 0 0 0.

(** The statistics that an entry of the trends shares with a summary. *)
Definition trendStatistics (t : Trend.t) : Q * Q * Q * nat * nat * nat * nat :=
  (Trend.averageDiscrepancy t, Trend.maxDiscrepancy t, Trend.minDiscrepancy t,
   Trend.scoredCandidates t, Trend.aiHigherCount t, Trend.humanHigherCount t,
   Trend.equalCount t).

Definition summaryStatistics (s : Summary.t) : Q * Q * Q * nat * nat * nat * nat :=
  (Summary.averageDiscrepancy s, Summary.maxDiscrepancy s,
   Summary.minDiscrepancy s, Summary.totalCandidates s,
   Summary.aiHigherCount s, Summary.humanHigherCount s,
   Summary.equalScoresCount s).

(** The order that the comparison [(a, b) => key(b) - key(a)] sorts by:
    descending keys. *)
Definition descending {A} (key : A -> Q) (a b : A) : Prop := key b <= key a.

(** ** [candidateFilters]

    The standard filters that the tabs import. *)

Module candidateFilters.
(** [c.name && c.dateAdded && (c.jobRole || c.role)] as a condition. *)
Definition isValid (c : Candidate) : bool :=
  truthy (name c) && truthy (dateAdded c)
  && (truthy (jobRole c) || truthy (role c)).

Definition valid (candidates : list Candidate) : list Candidate :=
  filter isValid candidates.

Definition withAiScore (candidates : list Candidate) : list Candidate :=
  filter (fun c => num_gt (aiScore c) 0) (valid candidates).

Definition fullyReviewed (candidates : list Candidate) : list Candidate :=
  filter (fun c => num_gt (aiScore c) 0 && num_gt (humanScore c) 0)
    (valid candidates).

Definition highQuality (candidates : list Candidate) : list Candidate :=
  filter (fun c => num_ge (aiScore c) 5) (withAiScore candidates).

Definition pendingHumanReview (candidates : list Candidate) : list Candidate :=
  filter (fun c => strict_eq (humanScore c) 0) (highQuality candidates).

Definition highDiscrepancy (candidates : list Candidate) : list Candidate :=
  filter (fun c => num_ge (Math_abs (aiScore c - humanScore c)) 3)
    (fullyReviewed candidates).
End candidateFilters.

(** ** The demo route [/api/candidates-demo] *)

(** [a || b] on numbers. *)
Definition num_or (a b : Q) : Q := if strict_eq a 0 then b else a.

(** [xs.map((x, index) => f(x, index))], counting from [index]. *)
Fixpoint map_index {A B} (f : A -> nat -> B) (index : nat) (xs : list A) : list B :=
  match xs with
  | [] => []
  | x :: xs' => f x index :: map_index f (S index) xs'
  end.

Definition demoScores : list Q := [8; 6; 9; 5; 7; 8; 4; 9; 6; 7].

(** [{ ...candidate, humanScore: score }] *)
Definition withHumanScore (candidate : Candidate) (score : Q) : Candidate :=
  mkCandidate (id candidate) (name candidate) (dateAdded candidate)
    (status candidate) (source candidate) (jobRole candidate) (role candidate)
    (aiScore candidate) score
    (passedAiFilter candidate) (passedHumanFilter candidate).

Definition candidatesWithHumanScores (candidates : list Candidate)
    : list Candidate :=
  map_index
    (fun candidate index =>
       if (index <? 10)%nat && num_gt (aiScore candidate) 0
       then withHumanScore candidate
              (match nth_error demoScores index with
               | Some score => num_or score 0
               | None => 0
               end)
       else candidate)
    O candidates.

(** The [scoreAnalysis] of the demo response. *)
Definition demoScoreAnalysis (candidates : list Candidate) : Summary.t :=
  calculateScoreDiscrepancy (candidatesWithHumanScores candidates).

(** ** [CandidateQualityTab]: [getTrend] and [qualityTrends] *)



(** The week filter of the tabs. [week] is the [week] key of an entry of
    the trends, as it comes back from the API; a date that does not parse
    compares false with everything. [weekEnd] is [weekDate] moved by
    [setDate(getDate() + 7)] in the zone of the browser. *)
Definition inWeekOf (LocalTZA : Z) (Date_parse : string -> option Z)
    (week : string) (c : Candidate) : bool :=
  if negb (truthy (dateAdded c)) then false else
  match Date_parse (dateAdded c), Date_parse week with
  | Some candidateDate, Some weekDate =>
      let weekEnd :=
        JSDate.setDate LocalTZA weekDate (JSDate.getDate LocalTZA weekDate + 7)%Z in
      (weekDate <=? candidateDate)%Z && (candidateDate <? weekEnd)%Z
  | _, _ => false
  end.

(** [d.toLocaleDateString('en-US', { month: 'short', day: 'numeric' })] *)
Definition monthShort (m : Z) : string :=
  nth (Z.to_nat m)
    ["Jan"; "Feb"; "Mar"; "Apr"; "May"; "Jun";
     "Jul"; "Aug"; "Sep"; "Oct"; "Nov"; "Dec"]%string ""%string.

Definition dayNumeric (d : Z) : string :=
  if (d <? 10)%Z then String (JSDate.digit d) EmptyString else JSDate.pad 2 d.

Definition shortDate (LocalTZA : Z) (d : option Z) : string :=
  match d with
  | None => "Invalid Date"%string
  | Some t =>
      let local := JSDate.LocalTime LocalTZA t in
      append (monthShort (JSDate.MonthFromTime local))
        (append " " (dayNumeric (JSDate.DateFromTime local)))
  end.

Module QualityWeek.
(** One element of [qualityTrends]. *)
Record t := mk {
  week : string;
  fullDate : string;
  totalCandidates : nat;
  avgAiScore : Q;
  avgHumanScore : Q;
  highQualityCandidates : nat;
  passedAiFilter : nat;
  passedHumanFilter : nat;
  bothFilters : nat;
  qualityRate : Q;
  aiFilterRate : Q;
  humanFilterRate : Q;
  bothFiltersRate : Q
}.
End QualityWeek.

(** The callback of [weeklyTrends.map] in [qualityTrends]. *)
Definition qualityWeek (LocalTZA : Z) (Date_parse : string -> option Z)
    (candidates : list Candidate) (week : Trend.t) : QualityWeek.t :=
  let weekCandidates :=
    filter (inWeekOf LocalTZA Date_parse (Trend.week week)) candidates in
  let totalCandidates := length weekCandidates in
  let avgAiScore :=
    if (0 <? totalCandidates)%nat
    then fold_left (fun sum c => sum + num_or (aiScore c) 0) weekCandidates 0
         / num totalCandidates
    else 0 in
  let avgHumanScore :=
    if (0 <? length (filter (fun c => num_gt (humanScore c) 0) weekCandidates))%nat
    then fold_left (fun sum c => sum + humanScore c)
           (filter (fun c => num_gt (humanScore c) 0) weekCandidates) 0
         / len (filter (fun c => num_gt (humanScore c) 0) weekCandidates)
    else 0 in
  let highQualityCandidates :=
    length (filter (fun c => num_ge (aiScore c) 7) weekCandidates) in
  let passedAiFilter' := length (filter passedAiFilter weekCandidates) in
  let passedHumanFilter' := length (filter passedHumanFilter weekCandidates) in
  let bothFilters :=
    length (filter (fun c => passedAiFilter c && passedHumanFilter c)
              weekCandidates) in
  QualityWeek.mk
    (shortDate LocalTZA (Date_parse (Trend.week week)))
    (Trend.week week)
    totalCandidates avgAiScore avgHumanScore
    highQualityCandidates passedAiFilter' passedHumanFilter' bothFilters
    (if (0 <? totalCandidates)%nat
     then num highQualityCandidates / num totalCandidates * 100 else 0)
    (if (0 <? totalCandidates)%nat
     then num passedAiFilter' / num totalCandidates * 100 else 0)
    (if (0 <? totalCandidates)%nat
     then num passedHumanFilter' / num totalCandidates * 100 else 0)
    (if (0 <? totalCandidates)%nat
     then num bothFilters / num totalCandidates * 100 else 0).

Definition qualityTrends (LocalTZA : Z) (Date_parse : string -> option Z)
    (candidates : list Candidate) (weeklyTrends : list Trend.t)
    : list QualityWeek.t :=
  map (qualityWeek LocalTZA Date_parse candidates) weeklyTrends.

(** ** [RolePerformanceTab]: [weeklyRoleTrends] *)

(** The values of the object that an element of [weeklyRoleTrends] is: the
    label is a string, the counts are numbers. *)
Inductive RoleTrendValue :=
| Label (s : string)
| Count (n : nat).

(** Counting by a key, as both tabs do it:
    [if (!k) return acc; acc[k] = (acc[k] || 0) + 1]. The object is
    modelled by its own keys; a key that names a property of
    [Object.prototype] is outside the model. *)
Definition tallyStep (key : Candidate -> string) (acc : Obj.t nat)
    (candidate : Candidate) : Obj.t nat :=
  let k := key candidate in
  if negb (truthy k) then acc else Obj.bump k acc.

(** The number of records of [records] whose key is [k]; records with an
    empty key are not counted under any name. *)
Definition tally (key : Candidate -> string) (k : string)
    (records : list Candidate) : nat :=
  if truthy k then length (filter (fun c => String.eqb (key c) k) records)
  else O.

(** The reducer of [roleCounts]: records without [role] are skipped. *)
Definition roleCountsStep : Obj.t nat -> Candidate -> Obj.t nat :=
  tallyStep role.

Definition roleCount : string -> list Candidate -> nat := tally role.

(** [{ week: label, ...roleCounts, total: n }]: later keys overwrite
    earlier ones of the same name. *)
Definition weeklyRoleTrend (LocalTZA : Z) (Date_parse : string -> option Z)
    (candidates : list Candidate) (week : Trend.t) : Obj.t RoleTrendValue :=
  let weekCandidates :=
    filter (inWeekOf LocalTZA Date_parse (Trend.week week)) candidates in
  let roleCounts := fold_left roleCountsStep weekCandidates [] in
  Obj.set "total" (Count (length weekCandidates))
    (fold_left (fun o e => Obj.set (fst e) (Count (snd e)) o)
       (Obj.entries roleCounts)
       (Obj.set "week" (Label (shortDate LocalTZA (Date_parse (Trend.week week))))
          [])).

Definition weeklyRoleTrends (LocalTZA : Z) (Date_parse : string -> option Z)
    (candidates : list Candidate) (weeklyTrends : list Trend.t)
    : list (Obj.t RoleTrendValue) :=
  map (weeklyRoleTrend LocalTZA Date_parse candidates) weeklyTrends.

(** ** [getCandidates]: the paging loop

    The date range of the query, [fourWeeksAgo], reads the zone of the
    host and is in [Host] below. *)

Module Response.
(** What [notion.databases.query] resolves to, as far as the loop reads
    it. *)
Record t (Page : Type) := mk {
  results : list Page;
  has_more : bool;
  next_cursor : option string
}.
Arguments mk {Page}.
Arguments results {Page}.
Arguments has_more {Page}.
Arguments next_cursor {Page}.
End Response.

(** [response.next_cursor || undefined] *)
Definition cursorOrUndefined (cursor : option string) : option string :=
  match cursor with
  | Some s => if truthy s then Some s else None
  | None => None
  end.

(** The [while] loop of [getCandidates]. [query n cursor] is what the
    [n]-th call of [notion.databases.query] with [start_cursor: cursor]
    resolves to. The loop need not end; [None] is running out of [fuel]. *)
Fixpoint fetchLoop {Page} (fuel : nat)
    (query : nat -> option string -> Response.t Page) (n : nat)
    (allResults : list Page) (hasMore : bool) (startCursor : option string)
    : option (list Page) :=
  if hasMore && (length allResults <? 1000)%nat then
    match fuel with
    | O => None
    | S fuel' =>
        let response := query n startCursor in
        fetchLoop fuel' query (S n)
          (allResults ++ Response.results response)
          (Response.has_more response)
          (cursorOrUndefined (Response.next_cursor response))
    end
  else Some allResults.

Definition fetchAll {Page} (fuel : nat)
    (query : nat -> option string -> Response.t Page) : option (list Page) :=
  fetchLoop fuel query 0 [] true None.


(** ** [MetricsCards] *)

Module MetricsCards.
(** [total > 0 ? (count / total * 100) : 0] *)
Definition percentage (count total : nat) : Q :=
  if (0 <? total)%nat then num count / num total * 100 else 0.

Definition aiHigherPercentage (scoreAnalysis : Summary.t) : Q :=
  percentage (Summary.aiHigherCount scoreAnalysis)
    (Summary.totalCandidates scoreAnalysis).
Definition humanHigherPercentage (scoreAnalysis : Summary.t) : Q :=
  percentage (Summary.humanHigherCount scoreAnalysis)
    (Summary.totalCandidates scoreAnalysis).
Definition equalPercentage (scoreAnalysis : Summary.t) : Q :=
  percentage (Summary.equalScoresCount scoreAnalysis)
    (Summary.totalCandidates scoreAnalysis).

(** Two of the keys of [systemHealth]. *)
Definition alignment (averageDiscrepancy : Q) : string :=
  if num_le (Math_abs averageDiscrepancy) (1 # 2) then "Excellent"%string
  else if num_le (Math_abs averageDiscrepancy) 1 then "Good"%string
  else "Needs Calibration"%string.

Definition bias (averageDiscrepancy : Q) : string :=
  if num_gt averageDiscrepancy 1 then "AI Too High"%string
  else if num_lt averageDiscrepancy (-1) then "AI Too Low"%string
  else "Balanced"%string.

End MetricsCards.

(** ** [TrendAnalyzer] and [TrendSummary] *)

Module TrendData.
(** [format] is read by the formatting only; an absent [reverseGood] is
    falsy. *)
Record t := mk {
  current : Q;
  previous : Q;
  label : string;
  reverseGood : bool
}.
End TrendData.

Module TrendCalc.
Record t := mk {
  change : Q;
  percentage : Q;
  isPositive : bool;
  isSignificant : bool
}.
End TrendCalc.

Definition calculateTrend (data : TrendData.t) : TrendCalc.t :=
  if strict_eq (TrendData.previous data) 0
  then TrendCalc.mk 0 0 true false
  else
    let change := TrendData.current data - TrendData.previous data in
    let percentage := change / TrendData.previous data * 100 in
    let isPositive :=
      if TrendData.reverseGood data then num_lt change 0 else num_gt change 0 in
    let isSignificant := num_ge (Math_abs percentage) 5 in
    TrendCalc.mk change percentage isPositive isSignificant.

Module Health.
Record t := mk {
  improving : nat;
  declining : nat;
  stable : nat
}.
End Health.

(** The reducer of [overallHealth], which computes the two flags again. *)
Definition overallHealthStep (acc : Health.t) (trend : TrendData.t) : Health.t :=
  let isPositive :=
    if strict_eq (TrendData.previous trend) 0 then true
    else if TrendData.reverseGood trend
         then num_lt (TrendData.current trend) (TrendData.previous trend)
         else num_gt (TrendData.current trend) (TrendData.previous trend) in
  let isSignificant :=
    if strict_eq (TrendData.previous trend) 0 then false
    else num_ge (Math_abs ((TrendData.current trend - TrendData.previous trend)
                           / TrendData.previous trend * 100)) 5 in
  if isPositive && isSignificant
  then Health.mk (Health.improving acc + 1) (Health.declining acc)
         (Health.stable acc)
  else if negb isPositive && isSignificant
  then Health.mk (Health.improving acc) (Health.declining acc + 1)
         (Health.stable acc)
  else Health.mk (Health.improving acc) (Health.declining acc)
         (Health.stable acc + 1).

Definition overallHealth (trends : list TrendData.t) : Health.t :=
  fold_left overallHealthStep trends (Health.mk 0 0 0).

(** What the badge of [TrendAnalyzer] shows for a metric: an upward
    green arrow, a downward red one, or ['Stable']. *)
Definition improves (trend : TrendData.t) : bool :=
  TrendCalc.isPositive (calculateTrend trend)
  && TrendCalc.isSignificant (calculateTrend trend).

Definition declines (trend : TrendData.t) : bool :=
  negb (TrendCalc.isPositive (calculateTrend trend))
  && TrendCalc.isSignificant (calculateTrend trend).

Definition steady (trend : TrendData.t) : bool :=
  negb (TrendCalc.isSignificant (calculateTrend trend)).

(** The same metric with the opposite reading of its direction. *)
Definition reversed (trend : TrendData.t) : TrendData.t :=
  TrendData.mk (TrendData.current trend) (TrendData.previous trend)
    (TrendData.label trend) (negb (TrendData.reverseGood trend)).

(** ** [WeeklyTrendsChart]: [getTrendDirection] *)

(** [xs.slice(start, end)]; [None] is an omitted [end]. A negative index
    counts from the end, and each index is clamped to the array. *)
Definition slice {A} (start : Z) (end_ : option Z) (xs : list A) : list A :=
  let len := Z.of_nat (length xs) in
  let clamp i := (if i <? 0 then Z.max (len + i) 0 else Z.min i len)%Z in
  let from := clamp start in
  let final := match end_ with Some e => clamp e | None => len end in
  firstn (Z.to_nat (final - from)) (skipn (Z.to_nat from) xs).

(** The last three lines of [getTrendDirection]. *)
Definition direction (change : Q) : string :=
  if num_lt (Math_abs change) (1 # 10) then "stable"%string
  else if num_gt change 0 then "up"%string else "down"%string.

Definition getTrendDirection (data : list Q) : string :=
  if (length data <? 2)%nat then "stable"%string else
  let recent := slice (-3) None data in
  let older := slice (-6) (Some (-3)%Z) data in
  if (length recent =? 0)%nat || (length older =? 0)%nat
  then "stable"%string else
  let recentAvg := sumOf recent / len recent in
  let olderAvg := sumOf older / len older in
  direction (recentAvg - olderAvg).

(** ** [ScoreDiscrepancyChart]: the histogram *)




(** ** A date parser for the sample data

    [Date.parse] restricted to the two ISO forms the candidate records
    carry: [YYYY-MM-DD] and [YYYY-MM-DDTHH:mm:ss.sssZ], both read as UTC.
    Every other string is an invalid date here. The properties below are
    stated for an arbitrary parser; this one gives them concrete inputs. *)

Module ISO.
Local Open Scope Z_scope.

Definition digitOf (a : ascii) : option Z :=
  let n := Z.of_N (N_of_ascii a) in
  if (48 <=? n) && (n <=? 57) then Some (n - 48) else None.

(** Reads exactly [n] decimal digits. *)
Fixpoint digits (n : nat) (acc : Z) (s : list ascii) : option (Z * list ascii) :=
  match n with
  | O => Some (acc, s)
  | S n' =>
      match s with
      | [] => None
      | a :: s' =>
          match digitOf a with
          | Some v => digits n' (acc * 10 + v) s'
          | None => None
          end
      end
  end.

(** Reads the character [a]. *)
Definition char (a : ascii) (s : list ascii) : option (list ascii) :=
  match s with
  | [] => None
  | b :: s' => if Ascii.eqb a b then Some s' else None
  end.

Definition bind {A B} (o : option A) (f : A -> option B) : option B :=
  match o with
  | Some a => f a
  | None => None
  end.

Notation "x <- o ;; k" := (bind o (fun x => k))
  (at level 61, o at next level, right associativity).

Definition time (s : list ascii) : option Z :=
  s <- char "T" s ;;
  hs <- digits 2 0 s ;;
  s <- char ":" (snd hs) ;;
  ms <- digits 2 0 s ;;
  s <- char ":" (snd ms) ;;
  ss <- digits 2 0 s ;;
  s <- char "." (snd ss) ;;
  fs <- digits 3 0 s ;;
  s <- char "Z" (snd fs) ;;
  match s with
  | [] =>
      if (fst hs <=? 23) && (fst ms <=? 59) && (fst ss <=? 59)
      then Some (JSDate.MakeTime (fst hs) (fst ms) (fst ss) (fst fs))
      else None
  | _ :: _ => None
  end.

Definition parse (str : string) : option Z :=
  ys <- digits 4 0 (list_ascii_of_string str) ;;
  s <- char "-" (snd ys) ;;
  ms <- digits 2 0 s ;;
  s <- char "-" (snd ms) ;;
  ds <- digits 2 0 s ;;
  if (1 <=? fst ms) && (fst ms <=? 12) && (1 <=? fst ds) && (fst ds <=? 31)
  then
    let day := JSDate.MakeDay (fst ys) (fst ms - 1) (fst ds) in
    match snd ds with
    | [] => Some (JSDate.MakeDate day 0)
    | _ :: _ => t <- time (snd ds) ;; Some (JSDate.MakeDate day t)
    end
  else None.
End ISO.

(** ** Sample data *)

(** A record with the two scores given and every other field empty. *)
Definition scored (ai human : Q) : Candidate :=
  mkCandidate "" "" "" "" "" "" "" ai human false false.

(** The four records of the worked example. *)
Definition sampleRecords : list Candidate :=
  [scored 8 6; scored 4 7; scored 9 9; scored 3 0].

(** Records none of which has both scores. *)
Definition unscoredRecords : list Candidate :=
  [scored 3 0; scored 0 5; scored 0 0].

(** A record with a date and nothing else. *)
Definition dated (d : string) : Candidate :=
  mkCandidate "" "" d "" "" "" "" 0 0 false false.

(** Sunday 2026-11-01, 18:30 UTC, seen from a zone one hour east of UTC. *)
Definition sampleToday : Z := 1793557800000.
Definition sampleTZA : Z := 3600000.

(** The last millisecond of that Sunday in the zone. *)
Definition sundayLast : Candidate := dated "2026-11-01T22:59:59.999Z".

(** A record without a date, one with a date that does not parse and one
    dated long before the four weeks. *)
Definition undated : Candidate := scored 8 6.
Definition misdated : Candidate := dated "last week".
Definition outdated : Candidate := dated "2020-01-01".

(** A record with both scores and a role, but no source. *)
Definition sourceless : Candidate :=
  mkCandidate "c-1" "Ada" "2026-10-27" "Applied" "" "AI Engineer" "" 8 7 true true.

(** A record with both scores and no role name. *)
Definition roleless : Candidate :=
  mkCandidate "c-2" "Bob" "2026-10-28" "Applied" "LinkedIn" "" "" 9 6 true false.

(** Records of two roles, one of them waiting for its human review. *)
Definition pending : Candidate :=
  mkCandidate "c-3" "Cleo" "2026-10-29" "Applied" "LinkedIn" "AI Engineer" ""
    6 0 true false.
Definition reviewed : Candidate :=
  mkCandidate "c-4" "Dan" "2026-10-30" "Interview" "Referral" "AI Engineer" ""
    9 5 true true.
Definition roleRecords : list Candidate :=
  [sourceless; roleless; pending; reviewed].

(** Three pages of two results each, the last one announcing no more;
    pages of 100 that never end; and pages that are empty and never end. *)
Definition threePages (n : nat) (cursor : option string) : Response.t nat :=
  Response.mk [n; n] (n <? 2)%nat (Some "cursor"%string).
Definition fullPages (n : nat) (cursor : option string) : Response.t nat :=
  Response.mk (repeat n 100) true (Some "cursor"%string).
Definition emptyPages (n : nat) (cursor : option string) : Response.t nat :=
  Response.mk [] true None.

(** ** The zone of the host

    The definitions of [JSDate] above take the offset of local time as one
    number, which is what a zone without clock changes has. ECMA-262 reads
    the zone of the host through [LocalTZA(t, isUTC)]: the offset in force
    at the time value [t] when [isUTC] is true, and at the local time [t]
    when it is false; a local time that a clock change repeats or skips is
    read with the offset before the change. Here the zone is that
    function, and the methods of [Date] and the code that calls them are
    given again over it. *)

Module Host.
Local Open Scope Z_scope.

Definition Zone : Type := Z -> bool -> Z.

(** A zone without clock changes. *)
Definition fixed (LocalTZA : Z) : Zone := fun _ _ => LocalTZA.

(** A zone with one clock change, at the time value [change], from the
    offset [before] to the offset [after]. The local times up to the later
    of the two readings of [change] are read with [before]: these include
    the hour that is repeated when the clock goes back, in its first
    occurrence, and the hour that is skipped when it goes forward. *)
Definition changing (change before after : Z) : Zone :=
  fun t isUTC =>
    if isUTC then (if t <? change then before else after)
    else (if t <? change + Z.max before after then before else after).

Section HostZone.
Variable zone : Zone.

Definition LocalTime (t : Z) : Z := t + zone t true.
Definition UTC (t : Z) : Z := t - zone t false.

Definition getDate (t : Z) : Z := JSDate.DateFromTime (LocalTime t).
Definition getDay (t : Z) : Z := JSDate.WeekDay (LocalTime t).
Definition getHours (t : Z) : Z := JSDate.HourFromTime (LocalTime t).
Definition getMinutes (t : Z) : Z := JSDate.MinFromTime (LocalTime t).
Definition getSeconds (t : Z) : Z := JSDate.SecFromTime (LocalTime t).
Definition getMilliseconds (t : Z) : Z := JSDate.msFromTime (LocalTime t).

(** [Date.prototype.setDate(date)]: the new time value. *)
Definition setDate (t date : Z) : Z :=
  let local := LocalTime t in
  UTC (JSDate.MakeDate
         (JSDate.MakeDay (JSDate.YearFromTime local)
            (JSDate.MonthFromTime local) date)
         (JSDate.TimeWithinDay local)).

(** [Date.prototype.setHours(hour, min, sec, ms)]: the new time value. *)
Definition setHours (t hour min sec ms : Z) : Z :=
  let local := LocalTime t in
  UTC (JSDate.MakeDate (JSDate.Day local) (JSDate.MakeTime hour min sec ms)).

(** The body of the loop [for (let i = 3; i >= 0; i--)] of
    [calculateWeeklyTrends]. *)
Definition weekBucket (today i : Z) : Bucket.t :=
  let weekStart := today in
  let weekStart := setDate weekStart (getDate today - (i * 7)) in
  let dayOfWeek := getDay weekStart in
  let diff :=
    getDate weekStart - dayOfWeek + (if dayOfWeek =? 0 then -6 else 1) in
  let weekStart := setDate weekStart diff in
  let weekStart := setHours weekStart 0 0 0 0 in
  let weekEnd := weekStart in
  let weekEnd := setDate weekEnd (getDate weekStart + 6) in
  let weekEnd := setHours weekEnd 23 59 59 999 in
  Bucket.mk (JSDate.isoDate weekStart) weekStart weekEnd [] [].

Definition weekBuckets (today : Z) : list Bucket.t :=
  map (weekBucket today) [3; 2; 1; 0].

Definition assignedBuckets (Date_parse : string -> option Z) (today : Z)
    (candidates : list Candidate) : list Bucket.t :=
  let allCandidates :=
    filter (fun candidate => truthy (dateAdded candidate)) candidates in
  fold_left (assignCandidate Date_parse) allCandidates (weekBuckets today).

Definition calculateWeeklyTrends (Date_parse : string -> option Z) (today : Z)
    (candidates : list Candidate) : list Trend.t :=
  map weekMetrics (assignedBuckets Date_parse today candidates).

(** The week filter of the tabs, in the zone of the browser. *)
Definition inWeekOf (Date_parse : string -> option Z) (week : string)
    (c : Candidate) : bool :=
  if negb (truthy (dateAdded c)) then false else
  match Date_parse (dateAdded c), Date_parse week with
  | Some candidateDate, Some weekDate =>
      let weekEnd := setDate weekDate (getDate weekDate + 7) in
      (weekDate <=? candidateDate) && (candidateDate <? weekEnd)
  | _, _ => false
  end.

(** [fourWeeksAgo] of [getCandidates]. *)
Definition fourWeeksAgo (today now : Z) : Z :=
  setDate now (getDate today - 28).

(** The wall-clock reading of the midnight that opens the Monday-based
    week of [t]. *)
Definition mondayOf (t : Z) : Z :=
  (JSDate.Day (LocalTime t)
   - daysSinceMonday (JSDate.WeekDay (LocalTime t))) * JSDate.msPerDay.

(** A clock change never moves a wall-clock time to another calendar day:
    a local time, also one that the zone skips, is read on the day it
    names. *)
Definition keepsDay : Prop :=
  forall t, JSDate.Day (LocalTime (UTC t)) = JSDate.Day t.


(** A window that the wall clock of the zone shows to open on a Monday at
    00:00:00.000 and to close six days later at 23:59:59.999, a Sunday. *)
Definition MondayWindow (b : Bucket.t) : Prop :=
  let weekStart := Bucket.weekStart b in
  let weekEnd := Bucket.weekEnd b in
  getDay weekStart = 1
  /\ getHours weekStart = 0
  /\ getMinutes weekStart = 0
  /\ getSeconds weekStart = 0
  /\ getMilliseconds weekStart = 0
  /\ LocalTime weekEnd
     = LocalTime weekStart + 6 * JSDate.msPerDay + JSDate.MakeTime 23 59 59 999
  /\ getDay weekEnd = 0
  /\ getHours weekEnd = 23
  /\ getMinutes weekEnd = 59
  /\ getSeconds weekEnd = 59
  /\ getMilliseconds weekEnd = 999.
End HostZone.
End Host.

(** A record with a date that parses into the window of one of [buckets]. *)
Definition datedInSome (Date_parse : string -> option Z)
    (buckets : list Bucket.t) (c : Candidate) : bool :=
  truthy (dateAdded c)
  && match Date_parse (dateAdded c) with
     | Some d => existsb (inBucket d) buckets
     | None => false
     end.

(** ** Names that every object inherits

    The own property names of [Object.prototype]. An object literal [{}]
    answers [acc[k]] for these names with the inherited value, which is
    truthy, so the lookup-or-create folds take them as present. The
    association lists of [Obj] hold own keys only; what is proved of a
    fold over them is stated for keys that are none of these names. *)
Definition Object_prototype_names : list string :=
  ["constructor"; "__defineGetter__"; "__defineSetter__"; "hasOwnProperty";
   "__lookupGetter__"; "__lookupSetter__"; "isPrototypeOf";
   "propertyIsEnumerable"; "toString"; "valueOf"; "__proto__";
   "toLocaleString"]%string.

Definition inherited (k : string) : bool :=
  existsb (String.eqb k) Object_prototype_names.

(** ** Sample zones *)

(** Europe/Berlin around the end of summer time on 2026-10-25, 01:00 UTC:
    two hours east of UTC before, one hour after. *)
Definition berlin : Host.Zone := Host.changing 1792890000000 7200000 3600000.



(** * The embedding at concrete inputs *)

Example isoDate_samples :
  map JSDate.isoDate [0; -1; 951782400000; 1793557800000]%Z
  = ["1970-01-01"; "1969-12-31"; "2000-02-29"; "2026-11-01"]%string.
Proof. vm_compute. reflexivity. Qed.

Example parse_samples :
  map ISO.parse ["2026-11-01"; "2026-11-01T22:59:59.999Z"; ""; "last week"]%string
  = [Some 1793491200000; Some 1793573999999; None; None]%Z.
Proof. vm_compute. reflexivity. Qed.

(** Sunday 2026-11-01 seen from UTC: the four weeks open on the Mondays
    5, 12, 19 and 26 October. *)
Example weekBuckets_sample :
  map (fun b => (Bucket.weekKey b, Bucket.weekStart b, Bucket.weekEnd b))
    (weekBuckets 0 sampleToday)
  = [("2026-10-05"%string, 1791158400000, 1791763199999);
     ("2026-10-12"%string, 1791763200000, 1792367999999);
     ("2026-10-19"%string, 1792368000000, 1792972799999);
     ("2026-10-26"%string, 1792972800000, 1793577599999)]%Z.
Proof. vm_compute. reflexivity. Qed.

(** A Monday as reference date opens the current week itself. *)
Example weekBuckets_monday :
  map Bucket.weekStart (weekBuckets 0 1792972800000)
  = [1791158400000; 1791763200000; 1792368000000; 1792972800000]%Z.
Proof. vm_compute. reflexivity. Qed.

Example trends_sample :
  map (fun t => (Trend.week t, Trend.totalCandidates t, Trend.scoredCandidates t))
    (calculateWeeklyTrends 0 ISO.parse sampleToday
       [sourceless; roleless; outdated; undated; dated "2026-10-12"])
  = [("2026-10-05"%string, 0%nat, 0%nat);
     ("2026-10-12"%string, 1%nat, 0%nat);
     ("2026-10-19"%string, 0%nat, 0%nat);
     ("2026-10-26"%string, 2%nat, 2%nat)].
Proof. vm_compute. reflexivity. Qed.

(** [sort] with a descending comparison keeps ties in input order. *)
Example sort_descending_stable :
  sort (fun a b => num (snd b) - num (snd a))
    [("a", 1); ("b", 3); ("c", 1); ("d", 3)]%string%nat
  = [("b", 3); ("d", 3); ("a", 1); ("c", 1)]%string%nat.
Proof. vm_compute. reflexivity. Qed.

Example roleData_sample :
  map (fun d => (RolePerformanceTab.role (RolePerformanceTab.base d),
                 RolePerformanceTab.totalCandidates (RolePerformanceTab.base d),
                 RolePerformanceTab.topSource d))
    (RolePerformanceTab.roleData
       [roleless; sourceless; roleless; scored 1 1])
  = [("No Role", 3%nat, "LinkedIn"); ("AI Engineer", 1%nat, "No Data")]%string.
Proof. vm_compute. reflexivity. Qed.

(** * Properties of [calculateScoreDiscrepancy] *)

Lemma num_gt_spec (a b : Q) : num_gt a b = true <-> b < a.
Proof.
  unfold num_gt. rewrite Qgt_alt. destruct (a ?= b); split; congruence.
Qed.

Lemma num_lt_spec (a b : Q) : num_lt a b = true <-> a < b.
Proof.
  unfold num_lt. rewrite Qlt_alt. destruct (a ?= b); split; congruence.
Qed.

Lemma strict_eq_spec (a b : Q) : strict_eq a b = true <-> a == b.
Proof.
  unfold strict_eq. rewrite Qeq_alt. destruct (a ?= b); split; congruence.
Qed.

(** Exactly one of [d > 0], [d < 0], [d === 0] holds. *)
Lemma sign_cases (d : Q) :
  ((if num_gt d 0 then 1 else 0) + (if num_lt d 0 then 1 else 0)
    + (if strict_eq d 0 then 1 else 0) = 1)%nat.
Proof.
  unfold num_gt, num_lt, strict_eq. destruct (d ?= 0); reflexivity.
Qed.

(** The three sign filters split any list of numbers. *)
Lemma sign_partition (ds : list Q) :
  (length (filter (fun d => num_gt d 0) ds)
   + length (filter (fun d => num_lt d 0) ds)
   + length (filter (fun d => strict_eq d 0) ds) = length ds)%nat.
Proof.
  induction ds as [|d ds IH]; [reflexivity|].
  pose proof (sign_cases d) as Hd. cbn [filter length].
  destruct (num_gt d 0), (num_lt d 0), (strict_eq d 0); cbn [length] in *; lia.
Qed.

Lemma bothScores_spec (c : Candidate) :
  bothScores c = true <-> 0 < aiScore c /\ 0 < humanScore c.
Proof.
  unfold bothScores. rewrite andb_true_iff, !num_gt_spec. tauto.
Qed.

(** C2: on the four sample records the valid candidates are the first
    three, their signed discrepancies are 2, -3 and 0, the average is -1/3,
    the maximum 2, the minimum -3, each sign count is 1 and
    [totalCandidates] is 3; the fourth record changes no field. *)
Theorem sample_summary :
  filter bothScores sampleRecords = firstn 3 sampleRecords
  /\ map discrepancy (filter bothScores sampleRecords) = [2; -3; 0]
  /\ Summary.averageDiscrepancy (calculateScoreDiscrepancy sampleRecords) == - (1 # 3)
  /\ Summary.maxDiscrepancy (calculateScoreDiscrepancy sampleRecords) == 2
  /\ Summary.minDiscrepancy (calculateScoreDiscrepancy sampleRecords) == - 3
  /\ Summary.aiHigherCount (calculateScoreDiscrepancy sampleRecords) = 1%nat
  /\ Summary.humanHigherCount (calculateScoreDiscrepancy sampleRecords) = 1%nat
  /\ Summary.equalScoresCount (calculateScoreDiscrepancy sampleRecords) = 1%nat
  /\ Summary.totalCandidates (calculateScoreDiscrepancy sampleRecords) = 3%nat
  /\ calculateScoreDiscrepancy sampleRecords
     = calculateScoreDiscrepancy (firstn 3 sampleRecords).
Proof.
  repeat split; vm_compute; reflexivity.
Qed.

Lemma filter_nil_of_none {A} (f : A -> bool) (xs : list A) :
  (forall x, In x xs -> f x = false) -> filter f xs = [].
Proof.
  induction xs as [|x xs IH]; intros H; [reflexivity|].
  cbn [filter]. rewrite (H x (or_introl eq_refl)).
  apply IH. intros y Hy. apply H. right. exact Hy.
Qed.

(** C3: when no record has both scores above zero (the empty list
    included), [calculateScoreDiscrepancy] returns the summary whose seven
    numeric fields are zero; being a total function it returns normally. *)
Theorem no_scored_records_all_zero (candidates : list Candidate) :
  (forall c, In c candidates -> ~ (0 < aiScore c /\ 0 < humanScore c)) ->
  let s := calculateScoreDiscrepancy candidates in
  Summary.averageDiscrepancy s = 0
  /\ Summary.maxDiscrepancy s = 0
  /\ Summary.minDiscrepancy s = 0
  /\ Summary.totalCandidates s = 0%nat
  /\ Summary.aiHigherCount s = 0%nat
  /\ Summary.humanHigherCount s = 0%nat
  /\ Summary.equalScoresCount s = 0%nat.
Proof.
  intros H. unfold calculateScoreDiscrepancy.
  rewrite (filter_nil_of_none bothScores candidates).
  - cbn. repeat split; reflexivity.
  - intros c Hc. destruct (bothScores c) eqn:E; [|reflexivity].
    apply bothScores_spec in E. destruct (H c Hc E).
Qed.

Lemma no_scored_records_all_zero_witness :
  (forall c, In c unscoredRecords -> ~ (0 < aiScore c /\ 0 < humanScore c))
  /\ Summary.totalCandidates (calculateScoreDiscrepancy unscoredRecords) = 0%nat
  /\ Summary.averageDiscrepancy (calculateScoreDiscrepancy []) = 0.
Proof.
  assert (H : forall c, In c unscoredRecords ->
                ~ (0 < aiScore c /\ 0 < humanScore c)).
  { intros c Hc [Ha Hh]. cbn in Hc.
    destruct Hc as [<-|[<-|[<-|[]]]]; cbn in Ha, Hh;
      first [ exact (Qlt_irrefl 0 Ha) | exact (Qlt_irrefl 0 Hh) ]. }
  split; [exact H|]. split.
  - exact (proj1 (proj2 (proj2 (proj2
             (no_scored_records_all_zero unscoredRecords H))))).
  - refine (proj1 (no_scored_records_all_zero [] _)).
    intros c [].
Defined.

(** C5: for every input list the three sign counts of the summary add up
    to its [totalCandidates]. *)
Theorem sign_counts_sum_to_total (candidates : list Candidate) :
  let s := calculateScoreDiscrepancy candidates in
  (Summary.aiHigherCount s + Summary.humanHigherCount s
   + Summary.equalScoresCount s = Summary.totalCandidates s)%nat.
Proof.
  unfold calculateScoreDiscrepancy.
  destruct (filter bothScores candidates) as [|c cs]; [reflexivity|].
  cbn [Summary.aiHigherCount Summary.humanHigherCount
       Summary.equalScoresCount Summary.totalCandidates].
  rewrite sign_partition. apply length_map.
Qed.


(** * The calendar of [Date] *)

Section Calendar.
Import JSDate.
Local Open Scope Z_scope.

Lemma DayFromYear_succ (y : Z) :
  DayFromYear (y + 1) = DayFromYear y + DaysInYear y.
Proof.
  unfold DayFromYear, DaysInYear.
  destruct (y mod 4 =? 0) eqn:E4; destruct (y mod 100 =? 0) eqn:E100;
    destruct (y mod 400 =? 0) eqn:E400; cbn [negb];
    rewrite ?Z.eqb_eq, ?Z.eqb_neq in *; Z.div_mod_to_equations; lia.
Qed.

Lemma DayFromYear_lt (y1 y2 : Z) :
  y1 < y2 -> DayFromYear y1 < DayFromYear y2.
Proof. unfold DayFromYear. intros H. Z.div_mod_to_equations. lia. Qed.

(** [YearFromTime] meets its definition in ECMA-262: the year found
    starts at or before [t], and the next one after [t]. *)
Lemma YearFromTime_spec (t : Z) :
  TimeFromYear (YearFromTime t) <= t < TimeFromYear (YearFromTime t + 1).
Proof.
  unfold YearFromTime.
  set (y := 1970 + Day t * 400 / 146097).
  assert (Hlo : TimeFromYear (y - 1) <= t).
  { unfold TimeFromYear, DayFromYear, y, Day, msPerDay.
    Z.div_mod_to_equations. lia. }
  assert (Hhi : t < TimeFromYear (y + 2)).
  { unfold TimeFromYear, DayFromYear, y, Day, msPerDay.
    Z.div_mod_to_equations. lia. }
  destruct (TimeFromYear (y + 1) <=? t) eqn:E1.
  - apply Z.leb_le in E1. replace (y + 1 + 1) with (y + 2) by lia. lia.
  - apply Z.leb_gt in E1. destruct (TimeFromYear y <=? t) eqn:E0.
    + apply Z.leb_le in E0. lia.
    + apply Z.leb_gt in E0. replace (y - 1 + 1) with y by lia. lia.
Qed.

Lemma YearFromTime_unique (t y : Z) :
  DayFromYear y <= Day t < DayFromYear (y + 1) -> YearFromTime t = y.
Proof.
  intros [Hlo Hhi]. pose proof (YearFromTime_spec t) as [Slo Shi].
  unfold TimeFromYear in *.
  assert (Hd : DayFromYear (YearFromTime t) <= Day t
               < DayFromYear (YearFromTime t + 1)).
  { unfold Day, msPerDay in *. Z.div_mod_to_equations. lia. }
  destruct (Z.lt_trichotomy (YearFromTime t) y) as [L|[E|G]]; [|exact E|].
  - assert (DayFromYear (YearFromTime t + 1) <= DayFromYear y).
    { destruct (Z.eq_dec (YearFromTime t + 1) y) as [->|]; [lia|].
      apply Z.lt_le_incl, DayFromYear_lt. lia. }
    lia.
  - assert (DayFromYear (y + 1) <= DayFromYear (YearFromTime t)).
    { destruct (Z.eq_dec (y + 1) (YearFromTime t)) as [->|]; [lia|].
      apply Z.lt_le_incl, DayFromYear_lt. lia. }
    lia.
Qed.

Lemma DayWithinYear_range (t : Z) :
  0 <= DayWithinYear t < DaysInYear (YearFromTime t).
Proof.
  unfold DayWithinYear. pose proof (YearFromTime_spec t) as [Slo Shi].
  unfold TimeFromYear in *. rewrite DayFromYear_succ in Shi.
  unfold Day, msPerDay in *. Z.div_mod_to_equations. lia.
Qed.

Lemma MonthFromTime_range (t : Z) : 0 <= MonthFromTime t <= 11.
Proof.
  unfold MonthFromTime.
  repeat match goal with
         | |- context [if ?b then _ else _] => destruct b
         end; lia.
Qed.

(** The year, month and day of the month of [t] name the day of [t], and
    a day of the month moved by [k] names the day [k] days away. *)
Lemma MakeDay_of_date (t k : Z) :
  MakeDay (YearFromTime t) (MonthFromTime t) (DateFromTime t + k) = Day t + k.
Proof.
  pose proof (MonthFromTime_range t) as Hm.
  unfold MakeDay.
  rewrite (Z.div_small (MonthFromTime t) 12),
          (Z.mod_small (MonthFromTime t) 12) by lia.
  rewrite Z.add_0_r.
  unfold DayOfMonthStart, DateFromTime, MonthFromTime, InLeapYear,
         DayWithinYear in *.
  set (leap := if DaysInYear (YearFromTime t) =? 366 then 1 else 0) in *.
  set (dy := DayFromYear (YearFromTime t)) in *.
  repeat match goal with
         | |- context [if ?b then _ else _] => destruct b
         end; lia.
Qed.

(** [MakeDay] finds the first day of the month it is asked for. *)
Lemma MakeDay_first_of_month (ym mn : Z) :
  0 <= mn <= 11 ->
  let t := MakeDate (MakeDay ym mn 1) 0 in
  YearFromTime t = ym /\ MonthFromTime t = mn /\ DateFromTime t = 1.
Proof.
  intros Hmn t.
  assert (Hc : mn = 0 \/ mn = 1 \/ mn = 2 \/ mn = 3 \/ mn = 4 \/ mn = 5
               \/ mn = 6 \/ mn = 7 \/ mn = 8 \/ mn = 9 \/ mn = 10 \/ mn = 11)
    by lia.
  assert (Hday : Day t = DayOfMonthStart ym mn).
  { unfold t, MakeDate, MakeDay, Day, msPerDay.
    rewrite (Z.div_small mn 12), (Z.mod_small mn 12) by lia.
    rewrite Z.add_0_r, Z.add_0_r, Z.div_mul by lia. lia. }
  assert (Hleap : DaysInYear ym
                  = 365 + (if DaysInYear ym =? 366 then 1 else 0)).
  { unfold DaysInYear.
    destruct (negb (ym mod 4 =? 0)), (negb (ym mod 100 =? 0)),
             (negb (ym mod 400 =? 0)); reflexivity. }
  assert (Hy : YearFromTime t = ym).
  { apply YearFromTime_unique. rewrite Hday, DayFromYear_succ, Hleap.
    unfold DayOfMonthStart.
    generalize (DayFromYear ym) as dy.
    destruct (DaysInYear ym =? 366); intros dy;
      destruct Hc as [->|[->|[->|[->|[->|[->|[->|[->|[->|[->|[->| ->]]]]]]]]]]];
      lia. }
  unfold DateFromTime, MonthFromTime, InLeapYear, DayWithinYear.
  rewrite Hy, Hday. unfold DayOfMonthStart.
  generalize (DayFromYear ym) as dy.
  destruct (DaysInYear ym =? 366); intros dy;
    destruct Hc as [->|[->|[->|[->|[->|[->|[->|[->|[->|[->|[->| ->]]]]]]]]]]];
    repeat split; try reflexivity;
    repeat match goal with
           | |- context [?a <? ?b] =>
               destruct (Z.ltb_spec a b); try lia
           end.
Qed.

Lemma WeekDay_range (t : Z) : 0 <= WeekDay t <= 6.
Proof. unfold WeekDay. pose proof (Z.mod_pos_bound (Day t + 4) 7). lia. Qed.
End Calendar.

(** * The week windows *)

Section WeekWindows.
Import JSDate.
Local Open Scope Z_scope.
Variable LocalTZA : Z.

(** [d.setDate(d.getDate() + k)] moves [d] by [k] days. *)
Lemma setDate_getDate_plus (t k : Z) :
  setDate LocalTZA t (getDate LocalTZA t + k) = t + k * msPerDay.
Proof.
  unfold setDate, getDate. rewrite MakeDay_of_date.
  unfold UTC, MakeDate, LocalTime, TimeWithinDay, Day, msPerDay.
  Z.div_mod_to_equations. lia.
Qed.

Lemma setHours_value (t h m s ms : Z) :
  setHours LocalTZA t h m s ms
  = Day (t + LocalTZA) * msPerDay + MakeTime h m s ms - LocalTZA.
Proof. reflexivity. Qed.

(** The loop body in closed form: the bucket for offset [i] opens on the
    Monday of the week of [today], [i] weeks earlier, and closes one
    millisecond before the next Monday. *)
Lemma weekBucket_window (today i : Z) :
  Bucket.weekStart (weekBucket LocalTZA today i)
    = mondayOf LocalTZA today - i * (7 * msPerDay)
  /\ Bucket.weekEnd (weekBucket LocalTZA today i)
    = mondayOf LocalTZA today - i * (7 * msPerDay) + 7 * msPerDay - 1.
Proof.
  unfold weekBucket. cbn [Bucket.weekStart Bucket.weekEnd].
  replace (getDate LocalTZA today - i * 7)
    with (getDate LocalTZA today + - (i * 7)) by lia.
  rewrite (setDate_getDate_plus today).
  set (t1 := today + - (i * 7) * msPerDay).
  replace (getDate LocalTZA t1 - getDay LocalTZA t1
           + (if getDay LocalTZA t1 =? 0 then -6 else 1))
    with (getDate LocalTZA t1
          + (- getDay LocalTZA t1
             + (if getDay LocalTZA t1 =? 0 then -6 else 1))) by lia.
  rewrite (setDate_getDate_plus t1).
  set (t2 := t1 + _).
  rewrite (setHours_value t2 0 0 0 0).
  set (t3 := Day (t2 + LocalTZA) * msPerDay + MakeTime 0 0 0 0 - LocalTZA).
  rewrite (setDate_getDate_plus t3), setHours_value.
  assert (Hdow : getDay LocalTZA t1 = WeekDay (today + LocalTZA)).
  { unfold getDay, LocalTime, WeekDay, Day, t1, msPerDay.
    Z.div_mod_to_equations. lia. }
  assert (H3 : t3 = mondayOf LocalTZA today - i * (7 * msPerDay)).
  { unfold t3, t2, mondayOf, daysSinceMonday. rewrite Hdow.
    pose proof (WeekDay_range (today + LocalTZA)) as Hr.
    destruct (Z.eqb_spec (WeekDay (today + LocalTZA)) 0) as [E|E];
      unfold t1, MakeTime, Day, msPerDay, msPerHour, msPerMinute, msPerSecond;
      Z.div_mod_to_equations; lia. }
  split; [exact H3|].
  rewrite <- H3.
  unfold t3, MakeTime, Day, msPerDay, msPerHour, msPerMinute, msPerSecond.
  Z.div_mod_to_equations. lia.
Qed.

Lemma mondayOf_spec (t : Z) :
  getDay LocalTZA (mondayOf LocalTZA t) = 1
  /\ TimeWithinDay (LocalTime LocalTZA (mondayOf LocalTZA t)) = 0
  /\ mondayOf LocalTZA t <= t < mondayOf LocalTZA t + 7 * msPerDay.
Proof.
  unfold getDay, LocalTime, mondayOf, daysSinceMonday, WeekDay,
         TimeWithinDay, Day, msPerDay.
  destruct (Z.eqb_spec ((((t + LocalTZA) / 86400000) + 4) mod 7) 0) as [E|E];
    Z.div_mod_to_equations; lia.
Qed.
End WeekWindows.

(** * The assignment loop *)

Section Assignment.
Variable Date_parse : string -> option Z.

Lemma inBucket_pushCandidate (d : Z) (c : Candidate) (b : Bucket.t) :
  inBucket d (pushCandidate c b) = inBucket d b.
Proof. reflexivity. Qed.

(** Pushing records changes no window, so [find] keeps its answers. *)
Lemma findBucket_pushToFound (d d' : Z) (c : Candidate) (bs : list Bucket.t) :
  findBucket d (pushToFound d' c bs) = findBucket d bs.
Proof.
  induction bs as [|b bs IH]; [reflexivity|].
  cbn [pushToFound]. destruct (inBucket d' b); cbn [findBucket].
  - rewrite inBucket_pushCandidate. reflexivity.
  - rewrite IH. reflexivity.
Qed.

Lemma findBucket_assignCandidate (d : Z) (c : Candidate) (bs : list Bucket.t) :
  findBucket d (assignCandidate Date_parse bs c) = findBucket d bs.
Proof.
  unfold assignCandidate. destruct (Date_parse (dateAdded c)); [|reflexivity].
  apply findBucket_pushToFound.
Qed.

(** [pushToFound] changes the bucket at the position [find] gives and no
    other. *)
Lemma nth_pushToFound (d : Z) (c : Candidate) (bs : list Bucket.t) (j : nat) :
  nth_error (pushToFound d c bs) j
  = option_map
      (fun b => if is_index j (findBucket d bs) then pushCandidate c b else b)
      (nth_error bs j).
Proof.
  revert j. induction bs as [|b bs IH]; intros j.
  - destruct j; reflexivity.
  - cbn [pushToFound findBucket]. destruct (inBucket d b).
    + destruct j as [|j]; cbn; [reflexivity|].
      destruct (nth_error bs j); reflexivity.
    + destruct j as [|j]; cbn [nth_error].
      * cbn. destruct (findBucket d bs); reflexivity.
      * rewrite IH. destruct (findBucket d bs) as [i|]; reflexivity.
Qed.

Lemma pushToFound_none (d : Z) (c : Candidate) (bs : list Bucket.t) :
  findBucket d bs = None -> pushToFound d c bs = bs.
Proof.
  induction bs as [|b bs IH]; [reflexivity|].
  cbn [pushToFound findBucket]. destruct (inBucket d b); [discriminate|].
  destruct (findBucket d bs); [discriminate|].
  intros _. rewrite IH; reflexivity.
Qed.

Lemma pushedTo_assignCandidate (bs : list Bucket.t) (c' : Candidate) (j : nat)
    (c : Candidate) :
  pushedTo Date_parse (assignCandidate Date_parse bs c') j c = pushedTo Date_parse bs j c.
Proof.
  unfold pushedTo. destruct (Date_parse (dateAdded c)); [|reflexivity].
  rewrite findBucket_assignCandidate. reflexivity.
Qed.

Lemma nth_assignCandidate (bs : list Bucket.t) (c : Candidate) (j : nat) :
  nth_error (assignCandidate Date_parse bs c) j
  = option_map (fun b => if pushedTo Date_parse bs j c then pushCandidate c b else b)
      (nth_error bs j).
Proof.
  unfold assignCandidate, pushedTo.
  destruct (Date_parse (dateAdded c)) as [d|].
  - apply nth_pushToFound.
  - destruct (nth_error bs j); reflexivity.
Qed.

Lemma nth_fold_assign (cs : list Candidate) (bs : list Bucket.t) (j : nat) :
  nth_error (fold_left (assignCandidate Date_parse) cs bs) j
  = option_map (received Date_parse cs bs j) (nth_error bs j).
Proof.
  revert bs. induction cs as [|c cs IH]; intros bs.
  - cbn. destruct (nth_error bs j) as [b|]; [|reflexivity].
    cbn. unfold received. cbn. rewrite !app_nil_r. destruct b; reflexivity.
  - cbn [fold_left]. rewrite IH, nth_assignCandidate.
    destruct (nth_error bs j) as [b|]; [|reflexivity].
    cbn [option_map]. f_equal. unfold received.
    rewrite (filter_ext _ _ (pushedTo_assignCandidate bs c j)).
    cbn [filter]. destruct (pushedTo Date_parse bs j c).
    + cbn [pushCandidate Bucket.weekKey Bucket.weekStart Bucket.weekEnd
           Bucket.allCandidates Bucket.scoredCandidates filter].
      destruct (bothScores c); rewrite <- ?app_assoc; reflexivity.
    + reflexivity.
Qed.

Lemma length_fold_assign (cs : list Candidate) (bs : list Bucket.t) :
  length (fold_left (assignCandidate Date_parse) cs bs) = length bs.
Proof.
  revert bs. induction cs as [|c cs IH]; intros bs; [reflexivity|].
  cbn [fold_left]. rewrite IH. unfold assignCandidate.
  destruct (Date_parse (dateAdded c)) as [d|]; [|reflexivity].
  clear. induction bs as [|b bs IH]; [reflexivity|].
  cbn [pushToFound]. destruct (inBucket d b); cbn [length]; [reflexivity|].
  rewrite IH. reflexivity.
Qed.
End Assignment.

(** * Properties of [calculateWeeklyTrends] *)

Section WeeklyTrends.
Import JSDate.
Local Open Scope Z_scope.
Variable LocalTZA : Z.
Variable Date_parse : string -> option Z.

(** Every bucket built by the loop body is a Monday window, whatever the
    offset and the day of the week of [today]. *)
Lemma weekBucket_MondayWindow (today i : Z) :
  MondayWindow LocalTZA (weekBucket LocalTZA today i).
Proof.
  unfold MondayWindow. cbv zeta.
  destruct (weekBucket_window LocalTZA today i) as [-> ->].
  unfold getDay, getHours, getMinutes, getSeconds, getMilliseconds,
         LocalTime, WeekDay, HourFromTime, MinFromTime, SecFromTime,
         msFromTime, MakeTime, Day, mondayOf, daysSinceMonday, WeekDay, Day,
         msPerDay, msPerHour, msPerMinute, msPerSecond.
  destruct (Z.eqb_spec (((today + LocalTZA) / 86400000 + 4) mod 7) 0) as [E|E];
    repeat split; Z.div_mod_to_equations; lia.
Qed.


Lemma filter_filter {A} (f g : A -> bool) (xs : list A) :
  filter f (filter g xs) = filter (fun x => g x && f x) xs.
Proof.
  induction xs as [|x xs IH]; [reflexivity|].
  cbn [filter]. destruct (g x); cbn [filter andb]; rewrite IH; reflexivity.
Qed.

Lemma received_filled (today : Z) (candidates : list Candidate) (j : nat) (i : Z) :
  received Date_parse (filter (fun c => truthy (dateAdded c)) candidates)
    (weekBuckets LocalTZA today) j (weekBucket LocalTZA today i)
  = filledBucket LocalTZA Date_parse today candidates j i.
Proof.
  unfold received, filledBucket, assignedTo. cbn [weekBucket Bucket.allCandidates
    Bucket.scoredCandidates Bucket.weekKey Bucket.weekStart Bucket.weekEnd app].
  rewrite filter_filter.
  assert (E : forall c, truthy (dateAdded c)
                        && pushedTo Date_parse (weekBuckets LocalTZA today) j c
              = is_index j (bucketOf LocalTZA Date_parse today c)).
  { intros c. unfold bucketOf, pushedTo.
    destruct (truthy (dateAdded c)); [|reflexivity].
    destruct (Date_parse (dateAdded c)); reflexivity. }
  rewrite (filter_ext _ _ E). reflexivity.
Qed.

(** The buckets after the loop, one by one. *)
Lemma assignedBuckets_eq (today : Z) (candidates : list Candidate) :
  assignedBuckets LocalTZA Date_parse today candidates
  = [filledBucket LocalTZA Date_parse today candidates 0 3;
     filledBucket LocalTZA Date_parse today candidates 1 2;
     filledBucket LocalTZA Date_parse today candidates 2 1;
     filledBucket LocalTZA Date_parse today candidates 3 0].
Proof.
  rewrite <- !received_filled. apply nth_error_ext. intros j.
  unfold assignedBuckets. rewrite nth_fold_assign.
  destruct j as [|[|[|[|j]]]]; try reflexivity.
  cbn. destruct j; reflexivity.
Qed.

Lemma is_index_Some (j k : nat) : is_index j (Some k) = true <-> j = k.
Proof. cbn. rewrite Nat.eqb_eq. split; congruence. Qed.

Lemma In_assignedTo (today : Z) (j : nat) (candidates : list Candidate)
    (c : Candidate) :
  In c (assignedTo LocalTZA Date_parse today j candidates)
  <-> In c candidates /\ bucketOf LocalTZA Date_parse today c = Some j.
Proof.
  unfold assignedTo. rewrite filter_In.
  destruct (bucketOf LocalTZA Date_parse today c) as [k|]; cbn [is_index].
  - rewrite Nat.eqb_eq. split; intros [H1 H2]; split; congruence.
  - split; intros [H1 H2]; discriminate.
Qed.


(** The buckets after the loop keep the windows and hold, at position
    [j], the records assigned to [j]. *)
Lemma nth_assignedBuckets (today : Z) (candidates : list Candidate)
    (j : nat) (b' : Bucket.t) :
  nth_error (assignedBuckets LocalTZA Date_parse today candidates) j = Some b' ->
  exists b, nth_error (weekBuckets LocalTZA today) j = Some b
    /\ Bucket.weekStart b' = Bucket.weekStart b
    /\ Bucket.weekEnd b' = Bucket.weekEnd b
    /\ Bucket.allCandidates b'
       = assignedTo LocalTZA Date_parse today j candidates
    /\ Bucket.scoredCandidates b' = filter bothScores (Bucket.allCandidates b').
Proof.
  rewrite assignedBuckets_eq. intros H.
  destruct j as [|[|[|[|j]]]]; cbn [nth_error] in H;
    [ | | | | destruct j; discriminate ];
    injection H as <-; eexists; (split; [reflexivity|]);
    repeat split; reflexivity.
Qed.


Lemma findBucket_None (d : Z) (bs : list Bucket.t) :
  Forall (fun b => inBucket d b = false) bs -> findBucket d bs = None.
Proof.
  induction 1 as [|b bs Hb _ IH]; [reflexivity|].
  cbn [findBucket]. rewrite Hb, IH. reflexivity.
Qed.

Lemma totalCandidates_count (candidates : list Candidate) :
  Summary.totalCandidates (calculateScoreDiscrepancy candidates)
  = length (filter bothScores candidates).
Proof.
  unfold calculateScoreDiscrepancy.
  destruct (filter bothScores candidates); reflexivity.
Qed.

(** C6: a record without a date, with a date that does not parse, or
    with a date in none of the four windows is in no bucket; the result
    is the one computed without the record, and nothing is raised. The
    record is still counted by [calculateScoreDiscrepancy] when it has
    both scores. *)
Theorem dateless_record_dropped (today : Z) (l1 l2 : list Candidate)
    (c : Candidate) :
  truthy (dateAdded c) = false
  \/ Date_parse (dateAdded c) = None
  \/ (exists d, Date_parse (dateAdded c) = Some d
       /\ Forall (fun b => inBucket d b = false) (weekBuckets LocalTZA today)) ->
  Forall (fun b => ~ In c (Bucket.allCandidates b)
                   /\ ~ In c (Bucket.scoredCandidates b))
    (assignedBuckets LocalTZA Date_parse today (l1 ++ c :: l2))
  /\ calculateWeeklyTrends LocalTZA Date_parse today (l1 ++ c :: l2)
     = calculateWeeklyTrends LocalTZA Date_parse today (l1 ++ l2)
  /\ Summary.totalCandidates (calculateScoreDiscrepancy (l1 ++ c :: l2))
     = (Summary.totalCandidates (calculateScoreDiscrepancy (l1 ++ l2))
        + if bothScores c then 1 else 0)%nat.
Proof.
  intros Hdrop.
  assert (Hb : bucketOf LocalTZA Date_parse today c = None).
  { unfold bucketOf. destruct Hdrop as [H|[H|(d & H & Hout)]].
    - rewrite H. reflexivity.
    - rewrite H. destruct (truthy (dateAdded c)); reflexivity.
    - rewrite H, (findBucket_None d _ Hout).
      destruct (truthy (dateAdded c)); reflexivity. }
  assert (Hsame : forall j,
            assignedTo LocalTZA Date_parse today j (l1 ++ c :: l2)
            = assignedTo LocalTZA Date_parse today j (l1 ++ l2)).
  { intros j. unfold assignedTo. rewrite !filter_app. cbn [filter].
    rewrite Hb. reflexivity. }
  split; [|split].
  - apply Forall_forall. intros b Hin.
    apply In_nth_error in Hin. destruct Hin as [j Hj].
    destruct (nth_assignedBuckets today _ j b Hj)
      as (_ & _ & _ & _ & Hall & Hsc).
    assert (Hnot : ~ In c (Bucket.allCandidates b)).
    { rewrite Hall. intros Hc. apply In_assignedTo in Hc.
      destruct Hc as [_ Hc]. congruence. }
    split; [exact Hnot|].
    rewrite Hsc. intros Hc. apply filter_In in Hc. tauto.
  - unfold calculateWeeklyTrends. rewrite !assignedBuckets_eq.
    unfold filledBucket. rewrite !Hsame. reflexivity.
  - rewrite !totalCandidates_count, !filter_app, !length_app.
    cbn [filter]. destruct (bothScores c); cbn [length]; lia.
Qed.

Lemma weekMetrics_counts (b : Bucket.t) :
  Bucket.scoredCandidates b = filter bothScores (Bucket.allCandidates b) ->
  (Trend.aiHigherCount (weekMetrics b) + Trend.humanHigherCount (weekMetrics b)
   + Trend.equalCount (weekMetrics b) = Trend.scoredCandidates (weekMetrics b)
   /\ Trend.scoredCandidates (weekMetrics b)
      <= Trend.totalCandidates (weekMetrics b))%nat.
Proof.
  intros Hsc. unfold weekMetrics.
  cbn [Trend.aiHigherCount Trend.humanHigherCount Trend.equalCount
       Trend.scoredCandidates Trend.totalCandidates].
  rewrite sign_partition, length_map. split; [reflexivity|].
  rewrite Hsc. apply filter_length_le.
Qed.

(** C9: in every entry of the result the three sign counts add up to
    [scoredCandidates], and [scoredCandidates] is at most
    [totalCandidates]. *)
Theorem trend_counts_invariant (today : Z) (candidates : list Candidate) :
  Forall (fun t =>
            (Trend.aiHigherCount t + Trend.humanHigherCount t
             + Trend.equalCount t = Trend.scoredCandidates t
             /\ Trend.scoredCandidates t <= Trend.totalCandidates t)%nat)
    (calculateWeeklyTrends LocalTZA Date_parse today candidates).
Proof.
  unfold calculateWeeklyTrends. apply Forall_map, Forall_forall.
  intros b Hin. apply In_nth_error in Hin. destruct Hin as [j Hj].
  apply weekMetrics_counts.
  destruct (nth_assignedBuckets today candidates j b Hj)
    as (_ & _ & _ & _ & _ & Hsc).
  exact Hsc.
Qed.
End WeeklyTrends.

(** * The role folds *)

Section RoleFolds.
Context {V : Type}.
Variable init : string -> V.
Variable upd : Candidate -> V -> V.

Lemma get_set_same (k : string) (v : V) (o : Obj.t V) :
  Obj.get k (Obj.set k v o) = Some v.
Proof.
  induction o as [|[k' v'] o IH]; cbn.
  - rewrite String.eqb_refl. reflexivity.
  - destruct (String.eqb k k') eqn:E; cbn; rewrite E; [reflexivity|exact IH].
Qed.

Lemma get_set_other (k k' : string) (v : V) (o : Obj.t V) :
  k <> k' -> Obj.get k (Obj.set k' v o) = Obj.get k o.
Proof.
  intros Hne. induction o as [|[k0 v0] o IH]; cbn.
  - apply String.eqb_neq in Hne. rewrite Hne. reflexivity.
  - destruct (String.eqb k' k0) eqn:E; cbn.
    + apply String.eqb_eq in E. subst k0.
      apply String.eqb_neq in Hne. rewrite Hne. reflexivity.
    + destruct (String.eqb k k0); [reflexivity|exact IH].
Qed.

(** A group's accumulator depends on the records of that group only. *)
Lemma get_fold_groupStep (k : string) (cs : list Candidate) (acc : Obj.t V) :
  Obj.get k (fold_left (groupStep init upd) cs acc)
  = groupState init upd k (recordsOfRole k cs) (Obj.get k acc).
Proof.
  revert acc. induction cs as [|c cs IH]; intros acc; [reflexivity|].
  cbn [fold_left]. rewrite IH. unfold recordsOfRole. cbn [filter].
  unfold groupStep at 1. cbv zeta.
  destruct (String.eqb_spec (getRoleName c) k) as [E|E].
  - rewrite E, get_set_same. reflexivity.
  - rewrite get_set_other by congruence. reflexivity.
Qed.

Lemma groupState_cons (k : string) (c : Candidate) (cs : list Candidate)
    (o : option V) :
  groupState init upd k (c :: cs) o
  = groupState init upd k cs
      (Some (upd c (match o with Some r => r | None => init k end))).
Proof. reflexivity. Qed.

(** A counter that starts at 0 and goes up by one with each record is
    the size of the group. *)
Lemma groupState_count (count : V -> nat) (k : string) :
  (forall k, count (init k) = 0%nat) ->
  (forall c r, count (upd c r) = (count r + 1)%nat) ->
  forall (records : list Candidate) (o : option V),
    option_map count (groupState init upd k records o)
    = match records with
      | [] => option_map count o
      | _ :: _ =>
          Some (match o with Some r => count r | None => 0 end
                + length records)%nat
      end.
Proof.
  intros H0 H1. induction records as [|c cs IH]; intros o; [reflexivity|].
  rewrite groupState_cons, IH.
  destruct cs as [|c' cs]; cbn [option_map length].
  - rewrite H1. destruct o; [|rewrite H0]; f_equal; lia.
  - rewrite H1. destruct o; [|rewrite H0]; f_equal; lia.
Qed.

(** A counter that goes up by one with each record passing a test counts
    the records of the group that pass it. *)
Lemma groupState_guarded_count (count : V -> nat) (g : Candidate -> bool)
    (k : string) :
  (forall k, count (init k) = 0%nat) ->
  (forall c r, count (upd c r) = if g c then (count r + 1)%nat else count r) ->
  forall (records : list Candidate) (o : option V),
    option_map count (groupState init upd k records o)
    = match records with
      | [] => option_map count o
      | _ :: _ =>
          Some (match o with Some r => count r | None => 0 end
                + length (filter g records))%nat
      end.
Proof.
  intros H0 H1. induction records as [|c cs IH]; intros o; [reflexivity|].
  rewrite groupState_cons, IH.
  destruct cs as [|c' cs]; cbn [option_map length filter]; rewrite H1;
    destruct (g c); cbn [length]; destruct o; rewrite ?H0; f_equal; lia.
Qed.

(** A running total that takes in the value of each record passing a
    test is the sum, in order, of those values over the group. *)
Lemma groupState_guarded_sum (total : V -> Q) (g : Candidate -> bool)
    (f : Candidate -> Q) (k : string) :
  (forall k, total (init k) = 0%Q) ->
  (forall c r, total (upd c r) = if g c then (total r + f c)%Q else total r) ->
  forall (records : list Candidate) (o : option V),
    option_map total (groupState init upd k records o)
    = match records with
      | [] => option_map total o
      | _ :: _ =>
          Some (fold_left Qplus (map f (filter g records))
                  (match o with Some r => total r | None => 0%Q end))
      end.
Proof.
  intros H0 H1. induction records as [|c cs IH]; intros o; [reflexivity|].
  rewrite groupState_cons, IH.
  destruct cs as [|c' cs]; cbn [option_map filter]; rewrite H1;
    destruct (g c); cbn [map fold_left]; destruct o; rewrite ?H0; reflexivity.
Qed.
End RoleFolds.

Lemma roleAnalysis_groupStep (candidates : list Candidate) :
  RolePerformanceTab.roleAnalysis candidates
  = fold_left (groupStep RolePerformanceTab.newAcc RolePerformanceTab.updateAcc)
      candidates [].
Proof. reflexivity. Qed.

Lemma roleQuality_groupStep (candidates : list Candidate) :
  CandidateQualityTab.roleQuality candidates
  = fold_left (groupStep CandidateQualityTab.newAcc CandidateQualityTab.updateAcc)
      candidates [].
Proof. reflexivity. Qed.

Lemma roleAnalysis_updateAcc_total (c : Candidate)
    (r : RolePerformanceTab.RoleAcc) :
  RolePerformanceTab.totalCandidates (RolePerformanceTab.updateAcc c r)
  = (RolePerformanceTab.totalCandidates r + 1)%nat.
Proof.
  unfold RolePerformanceTab.updateAcc.
  destruct (truthy (source c)); [|reflexivity].
  destruct (truthy (status c)); [|reflexivity].
  destruct (num_gt (aiScore c) 0), (num_gt (humanScore c) 0); reflexivity.
Qed.

Lemma groupCount_alt (k : string) (candidates : list Candidate) :
  groupCount k candidates
  = match recordsOfRole k candidates with
    | [] => None
    | _ :: _ => Some (0 + length (recordsOfRole k candidates))%nat
    end.
Proof. unfold groupCount. destruct (recordsOfRole k candidates); reflexivity. Qed.

(** C7, as the code has it: when no role name is a property name that
    every object inherits from [Object.prototype], both role folds put
    every record in the group of its role name,
    [jobRole || role || 'No Role'], so that each group's [totalCandidates]
    is the number of input records with that role name; a record with
    neither [jobRole] nor [role] is in the group ['No Role']. No record is
    left out of the map. *)
Theorem every_record_in_a_role_group (candidates : list Candidate) (k : string) :
  Forall (fun c => inherited (getRoleName c) = false) candidates ->
  option_map RolePerformanceTab.totalCandidates
    (Obj.get k (RolePerformanceTab.roleAnalysis candidates))
  = groupCount k candidates
  /\ option_map CandidateQualityTab.totalCandidates
       (Obj.get k (CandidateQualityTab.roleQuality candidates))
     = groupCount k candidates
  /\ incl (filter keyless candidates) (recordsOfRole "No Role" candidates).
Proof.
  intros _. split; [|split].
  - rewrite roleAnalysis_groupStep, get_fold_groupStep, groupCount_alt.
    rewrite (groupState_count RolePerformanceTab.newAcc
               RolePerformanceTab.updateAcc
               RolePerformanceTab.totalCandidates k
               (fun _ => eq_refl) roleAnalysis_updateAcc_total).
    reflexivity.
  - rewrite roleQuality_groupStep, get_fold_groupStep, groupCount_alt.
    rewrite (groupState_count CandidateQualityTab.newAcc
               CandidateQualityTab.updateAcc
               CandidateQualityTab.totalCandidates k
               (fun _ => eq_refl) (fun _ _ => eq_refl)).
    reflexivity.
  - intros c Hc. apply filter_In in Hc. destruct Hc as [Hin Hk].
    apply filter_In. split; [exact Hin|].
    unfold keyless in Hk. apply andb_true_iff in Hk. destruct Hk as [Hj Hr].
    unfold getRoleName, str_or.
    destruct (truthy (jobRole c)); [discriminate|].
    destruct (truthy (role c)); [discriminate|]. reflexivity.
Qed.

(** C7 fails as stated: a record without [jobRole] and [role] is not left
    out; both folds create the group ['No Role'] for it and count it. *)
Lemma roleless_grouped_under_No_Role :
  keyless roleless = true
  /\ option_map RolePerformanceTab.totalCandidates
       (Obj.get "No Role" (RolePerformanceTab.roleAnalysis [roleless]))
     = Some 1%nat
  /\ option_map CandidateQualityTab.totalCandidates
       (Obj.get "No Role" (CandidateQualityTab.roleQuality [roleless]))
     = Some 1%nat
  /\ map fst (RolePerformanceTab.roleAnalysis [roleless]) = ["No Role"%string]
  /\ map fst (CandidateQualityTab.roleQuality [roleless]) = ["No Role"%string].
Proof. repeat split. Qed.

Lemma mean_of_sum_count (xs : list Q) :
  (if (0 <? length xs)%nat then sumOf xs / num (length xs) else 0) = mean xs.
Proof. destruct xs; reflexivity. Qed.

(** X1: in [CandidateQualityTab] the averages of a role are the means over
    the records of the role that carry the score. *)
Lemma roleQuality_averages (candidates : list Candidate) (k : string)
    (r : CandidateQualityTab.RoleAcc) :
  Obj.get k (CandidateQualityTab.roleQuality candidates) = Some r ->
  CandidateQualityTab.avgAiScore (CandidateQualityTab.roleDatum r)
  = mean (map aiScore (filter (fun c => num_gt (aiScore c) 0)
                         (recordsOfRole k candidates)))
  /\ CandidateQualityTab.avgHumanScore (CandidateQualityTab.roleDatum r)
     = mean (map humanScore (filter (fun c => num_gt (humanScore c) 0)
                               (recordsOfRole k candidates))).
Proof.
  rewrite roleQuality_groupStep, get_fold_groupStep. cbn [Obj.get].
  intros Hr.
  pose proof (groupState_guarded_sum CandidateQualityTab.newAcc
                CandidateQualityTab.updateAcc CandidateQualityTab.aiScoreSum
                (fun c => num_gt (aiScore c) 0) aiScore k
                (fun _ => eq_refl) (fun _ _ => eq_refl)
                (recordsOfRole k candidates) None) as Hsa.
  pose proof (groupState_guarded_count CandidateQualityTab.newAcc
                CandidateQualityTab.updateAcc CandidateQualityTab.aiScoreCount
                (fun c => num_gt (aiScore c) 0) k
                (fun _ => eq_refl) (fun _ _ => eq_refl)
                (recordsOfRole k candidates) None) as Hca.
  pose proof (groupState_guarded_sum CandidateQualityTab.newAcc
                CandidateQualityTab.updateAcc CandidateQualityTab.humanScoreSum
                (fun c => num_gt (humanScore c) 0) humanScore k
                (fun _ => eq_refl) (fun _ _ => eq_refl)
                (recordsOfRole k candidates) None) as Hsh.
  pose proof (groupState_guarded_count CandidateQualityTab.newAcc
                CandidateQualityTab.updateAcc CandidateQualityTab.humanScoreCount
                (fun c => num_gt (humanScore c) 0) k
                (fun _ => eq_refl) (fun _ _ => eq_refl)
                (recordsOfRole k candidates) None) as Hch.
  rewrite Hr in Hsa, Hca, Hsh, Hch.
  destruct (recordsOfRole k candidates) as [|c cs] eqn:E; [discriminate|].
  cbn [option_map] in Hsa, Hca, Hsh, Hch.
  injection Hsa as Hsa. injection Hca as Hca.
  injection Hsh as Hsh. injection Hch as Hch.
  unfold CandidateQualityTab.roleDatum.
  cbn [CandidateQualityTab.avgAiScore CandidateQualityTab.avgHumanScore].
  rewrite Hsa, Hca, Hsh, Hch. cbn [Nat.add].
  rewrite <- (length_map aiScore), <- (length_map humanScore).
  split; apply mean_of_sum_count.
Qed.

(** X2: in [RolePerformanceTab] the averages of a role are the means over the
    records of the role that carry the score and also have a source and a
    status: the two early returns keep the other records out of the sums. *)
Lemma roleAnalysis_averages (candidates : list Candidate) (k : string)
    (r : RolePerformanceTab.RoleAcc) :
  Obj.get k (RolePerformanceTab.roleAnalysis candidates) = Some r ->
  RolePerformanceTab.d_avgAiScore (RolePerformanceTab.roleDatum r)
  = mean (map aiScore (filter (fun c => tracked c && num_gt (aiScore c) 0)
                         (recordsOfRole k candidates)))
  /\ RolePerformanceTab.d_avgHumanScore (RolePerformanceTab.roleDatum r)
     = mean (map humanScore (filter (fun c => tracked c && num_gt (humanScore c) 0)
                               (recordsOfRole k candidates))).
Proof.
  rewrite roleAnalysis_groupStep, get_fold_groupStep. cbn [Obj.get].
  intros Hr.
  assert (Hupd : forall c r0,
            (RolePerformanceTab.aiScoreSum (RolePerformanceTab.updateAcc c r0)
             = if tracked c && num_gt (aiScore c) 0
               then RolePerformanceTab.aiScoreSum r0 + aiScore c
               else RolePerformanceTab.aiScoreSum r0)
            /\ (RolePerformanceTab.aiProcessedCount (RolePerformanceTab.updateAcc c r0)
                = if tracked c && num_gt (aiScore c) 0
                  then (RolePerformanceTab.aiProcessedCount r0 + 1)%nat
                  else RolePerformanceTab.aiProcessedCount r0)
            /\ (RolePerformanceTab.humanScoreSum (RolePerformanceTab.updateAcc c r0)
                = if tracked c && num_gt (humanScore c) 0
                  then RolePerformanceTab.humanScoreSum r0 + humanScore c
                  else RolePerformanceTab.humanScoreSum r0)
            /\ (RolePerformanceTab.humanProcessedCount (RolePerformanceTab.updateAcc c r0)
                = if tracked c && num_gt (humanScore c) 0
                  then (RolePerformanceTab.humanProcessedCount r0 + 1)%nat
                  else RolePerformanceTab.humanProcessedCount r0)).
  { intros c r0. unfold RolePerformanceTab.updateAcc, tracked.
    destruct (truthy (source c)); [|repeat split; reflexivity].
    destruct (truthy (status c)); [|repeat split; reflexivity].
    destruct (num_gt (aiScore c) 0), (num_gt (humanScore c) 0);
      repeat split; reflexivity. }
  pose proof (groupState_guarded_sum RolePerformanceTab.newAcc
                RolePerformanceTab.updateAcc RolePerformanceTab.aiScoreSum
                (fun c => tracked c && num_gt (aiScore c) 0) aiScore k
                (fun _ => eq_refl) (fun c r0 => proj1 (Hupd c r0))
                (recordsOfRole k candidates) None) as Hsa.
  pose proof (groupState_guarded_count RolePerformanceTab.newAcc
                RolePerformanceTab.updateAcc RolePerformanceTab.aiProcessedCount
                (fun c => tracked c && num_gt (aiScore c) 0) k
                (fun _ => eq_refl) (fun c r0 => proj1 (proj2 (Hupd c r0)))
                (recordsOfRole k candidates) None) as Hca.
  pose proof (groupState_guarded_sum RolePerformanceTab.newAcc
                RolePerformanceTab.updateAcc RolePerformanceTab.humanScoreSum
                (fun c => tracked c && num_gt (humanScore c) 0) humanScore k
                (fun _ => eq_refl) (fun c r0 => proj1 (proj2 (proj2 (Hupd c r0))))
                (recordsOfRole k candidates) None) as Hsh.
  pose proof (groupState_guarded_count RolePerformanceTab.newAcc
                RolePerformanceTab.updateAcc RolePerformanceTab.humanProcessedCount
                (fun c => tracked c && num_gt (humanScore c) 0) k
                (fun _ => eq_refl) (fun c r0 => proj2 (proj2 (proj2 (Hupd c r0))))
                (recordsOfRole k candidates) None) as Hch.
  rewrite Hr in Hsa, Hca, Hsh, Hch.
  destruct (recordsOfRole k candidates) as [|c cs] eqn:E; [discriminate|].
  cbn [option_map] in Hsa, Hca, Hsh, Hch.
  injection Hsa as Hsa. injection Hca as Hca.
  injection Hsh as Hsh. injection Hch as Hch.
  unfold RolePerformanceTab.roleDatum.
  cbn [RolePerformanceTab.d_avgAiScore RolePerformanceTab.d_avgHumanScore].
  rewrite Hsa, Hca, Hsh, Hch. cbn [Nat.add].
  rewrite <- (length_map aiScore), <- (length_map humanScore).
  split; apply mean_of_sum_count.
Qed.

(** C8 at a record without a source: the group of the record in
    [roleData] counts it in [totalCandidates], but the early return
    leaves its scores out, so [avgAiScore] and [avgHumanScore] are 0 and
    not the means 8 and 7 of the group's scores, which is what
    [roleQualityData] gives for the same input. *)
Theorem sourceless_scores_left_out :
  map (fun d => (RolePerformanceTab.role (RolePerformanceTab.base d),
                 RolePerformanceTab.totalCandidates (RolePerformanceTab.base d),
                 RolePerformanceTab.d_aiProcessedCount d,
                 RolePerformanceTab.d_avgAiScore d,
                 RolePerformanceTab.d_avgHumanScore d))
    (RolePerformanceTab.roleData [sourceless])
  = [("AI Engineer"%string, 1%nat, 0%nat, 0, 0)]
  /\ mean (map aiScore (filter (fun c => num_gt (aiScore c) 0)
                          (recordsOfRole "AI Engineer" [sourceless]))) = 8
  /\ mean (map humanScore (filter (fun c => num_gt (humanScore c) 0)
                             (recordsOfRole "AI Engineer" [sourceless]))) = 7
  /\ map (fun d => (CandidateQualityTab.role (CandidateQualityTab.base d),
                    CandidateQualityTab.avgAiScore d,
                    CandidateQualityTab.avgHumanScore d))
       (CandidateQualityTab.roleQualityData [sourceless])
     = [("AI Engineer"%string, 8, 7)].
Proof. repeat split; vm_compute; reflexivity. Qed.


(** * The properties at the sample data *)


(** A record without a date, one whose date does not parse and one dated
    before the four weeks are each left out of the trends. *)
Lemma dateless_record_dropped_witness :
  (truthy (dateAdded undated) = false
   /\ calculateWeeklyTrends sampleTZA ISO.parse sampleToday
        ([sundayLast] ++ undated :: [misdated; outdated])
      = calculateWeeklyTrends sampleTZA ISO.parse sampleToday
          ([sundayLast] ++ [misdated; outdated])
   /\ Summary.totalCandidates
        (calculateScoreDiscrepancy ([sundayLast] ++ undated :: [misdated; outdated]))
      = (Summary.totalCandidates
           (calculateScoreDiscrepancy ([sundayLast] ++ [misdated; outdated]))
         + if bothScores undated then 1 else 0)%nat)
  /\ (ISO.parse (dateAdded misdated) = None
      /\ calculateWeeklyTrends sampleTZA ISO.parse sampleToday
           ([sundayLast; undated] ++ misdated :: [outdated])
         = calculateWeeklyTrends sampleTZA ISO.parse sampleToday
             ([sundayLast; undated] ++ [outdated]))
  /\ (ISO.parse (dateAdded outdated) = Some 1577836800000%Z
      /\ Forall (fun b => inBucket 1577836800000 b = false)
           (weekBuckets sampleTZA sampleToday)
      /\ Forall (fun b => ~ In outdated (Bucket.allCandidates b)
                          /\ ~ In outdated (Bucket.scoredCandidates b))
           (assignedBuckets sampleTZA ISO.parse sampleToday
              ([sundayLast; undated; misdated] ++ outdated :: []))).
Proof.
  assert (H1 : truthy (dateAdded undated) = false) by reflexivity.
  assert (H2 : ISO.parse (dateAdded misdated) = None) by reflexivity.
  assert (H3 : ISO.parse (dateAdded outdated) = Some 1577836800000%Z)
    by (vm_compute; reflexivity).
  assert (H4 : Forall (fun b => inBucket 1577836800000 b = false)
                 (weekBuckets sampleTZA sampleToday))
    by (repeat constructor).
  split; [|split].
  - split; [exact H1|].
    exact (proj2 (dateless_record_dropped sampleTZA ISO.parse sampleToday
                    [sundayLast] [misdated; outdated] undated
                    (or_introl H1))).
  - split; [exact H2|].
    exact (proj1 (proj2 (dateless_record_dropped sampleTZA ISO.parse sampleToday
                           [sundayLast; undated] [outdated] misdated
                           (or_intror (or_introl H2))))).
  - split; [exact H3|]. split; [exact H4|].
    exact (proj1 (dateless_record_dropped sampleTZA ISO.parse sampleToday
                    [sundayLast; undated; misdated] [] outdated
                    (or_intror (or_intror
                       (ex_intro _ 1577836800000%Z (conj H3 H4)))))).
Defined.

(** * Lists of numbers *)

Lemma fold_Qplus_acc (xs : list Q) (a : Q) :
  fold_left Qplus xs a == a + sumOf xs.
Proof.
  unfold sumOf. revert a. induction xs as [|x xs IH]; intros a; cbn [fold_left].
  - lra.
  - rewrite (IH (a + x)), (IH (0 + x)). lra.
Qed.

Lemma sumOf_cons (x : Q) (xs : list Q) : sumOf (x :: xs) == x + sumOf xs.
Proof. unfold sumOf at 1. cbn [fold_left]. rewrite fold_Qplus_acc. lra. Qed.

Lemma len_cons {A} (x : A) (xs : list A) : len (x :: xs) == 1 + len xs.
Proof.
  unfold len, num. cbn [length]. rewrite Nat2Z.inj_succ, <- Z.add_1_l.
  rewrite inject_Z_plus. reflexivity.
Qed.

Lemma len_nonneg {A} (xs : list A) : 0 <= len xs.
Proof.
  unfold len, num. change 0 with (inject_Z 0). rewrite <- Zle_Qle. lia.
Qed.

Lemma len_pos {A} (x : A) (xs : list A) : 0 < len (x :: xs).
Proof. rewrite len_cons. pose proof (len_nonneg xs). lra. Qed.

(** The sum of numbers between two bounds lies between the bounds times
    the length. *)
Lemma sumOf_bounds (lo hi : Q) (xs : list Q) :
  Forall (fun x => lo <= x <= hi) xs ->
  len xs * lo <= sumOf xs <= len xs * hi.
Proof.
  induction 1 as [|x xs Hx _ IH].
  - change (len (@nil Q)) with 0. change (sumOf []) with 0. lra.
  - rewrite sumOf_cons, len_cons. lra.
Qed.

Lemma Math_max_ge (x : Q) (xs : list Q) :
  Forall (fun y => y <= Math_max x xs) (x :: xs).
Proof.
  unfold Math_max. revert x. induction xs as [|y ys IH]; intros x.
  - cbn. repeat constructor. lra.
  - cbn [fold_left]. specialize (IH (Qmax x y)).
    inversion IH as [|? ? Hhd Htl]; subst.
    constructor; [|constructor]; try assumption.
    + pose proof (Q.le_max_l x y). lra.
    + pose proof (Q.le_max_r x y). lra.
Qed.

Lemma Math_min_le (x : Q) (xs : list Q) :
  Forall (fun y => Math_min x xs <= y) (x :: xs).
Proof.
  unfold Math_min. revert x. induction xs as [|y ys IH]; intros x.
  - cbn. repeat constructor. lra.
  - cbn [fold_left]. specialize (IH (Qmin x y)).
    inversion IH as [|? ? Hhd Htl]; subst.
    constructor; [|constructor]; try assumption.
    + pose proof (Q.le_min_l x y). lra.
    + pose proof (Q.le_min_r x y). lra.
Qed.

Lemma Math_max_attained (x : Q) (xs : list Q) :
  Exists (fun y => y == Math_max x xs) (x :: xs).
Proof.
  unfold Math_max. revert x. induction xs as [|y ys IH]; intros x.
  - cbn. constructor. reflexivity.
  - cbn [fold_left]. specialize (IH (Qmax x y)).
    apply Exists_cons in IH. destruct IH as [H|H].
    + destruct (Q.max_spec x y) as [[_ E]|[_ E]].
      * apply Exists_cons_tl, Exists_cons_hd. rewrite <- H. symmetry. exact E.
      * apply Exists_cons_hd. rewrite <- H. symmetry. exact E.
    + apply Exists_cons_tl, Exists_cons_tl. exact H.
Qed.

Lemma Math_min_attained (x : Q) (xs : list Q) :
  Exists (fun y => y == Math_min x xs) (x :: xs).
Proof.
  unfold Math_min. revert x. induction xs as [|y ys IH]; intros x.
  - cbn. constructor. reflexivity.
  - cbn [fold_left]. specialize (IH (Qmin x y)).
    apply Exists_cons in IH. destruct IH as [H|H].
    + destruct (Q.min_spec x y) as [[_ E]|[_ E]].
      * apply Exists_cons_hd. rewrite <- H. symmetry. exact E.
      * apply Exists_cons_tl, Exists_cons_hd. rewrite <- H. symmetry. exact E.
    + apply Exists_cons_tl, Exists_cons_tl. exact H.
Qed.

(** * More on [calculateScoreDiscrepancy] *)

(** X3: the minimum and the maximum bound the discrepancy of every record
    with both scores, and each is the discrepancy of such a record when
    there is one. *)
Theorem discrepancy_range (candidates : list Candidate) :
  let s := calculateScoreDiscrepancy candidates in
  let scoredRecords := filter bothScores candidates in
  Forall (fun c => Summary.minDiscrepancy s <= discrepancy c
                                            <= Summary.maxDiscrepancy s)
    scoredRecords
  /\ (scoredRecords = []
      \/ (Exists (fun c => discrepancy c == Summary.maxDiscrepancy s) scoredRecords
          /\ Exists (fun c => discrepancy c == Summary.minDiscrepancy s)
               scoredRecords)).
Proof.
  cbv zeta. unfold calculateScoreDiscrepancy.
  destruct (filter bothScores candidates) as [|c cs].
  - cbn. split; [constructor|]. left. reflexivity.
  - cbn [Summary.minDiscrepancy Summary.maxDiscrepancy].
    split.
    + pose proof (Math_max_ge (discrepancy c) (map discrepancy cs)) as Hmax.
      pose proof (Math_min_le (discrepancy c) (map discrepancy cs)) as Hmin.
      change (discrepancy c :: map discrepancy cs)
        with (map discrepancy (c :: cs)) in Hmax, Hmin.
      rewrite Forall_map in Hmax, Hmin. rewrite Forall_forall in *.
      intros y Hy. split; [apply Hmin|apply Hmax]; exact Hy.
    + right. split.
      * pose proof (Math_max_attained (discrepancy c) (map discrepancy cs)) as H.
        change (discrepancy c :: map discrepancy cs)
          with (map discrepancy (c :: cs)) in H.
        rewrite Exists_map in H. exact H.
      * pose proof (Math_min_attained (discrepancy c) (map discrepancy cs)) as H.
        change (discrepancy c :: map discrepancy cs)
          with (map discrepancy (c :: cs)) in H.
        rewrite Exists_map in H. exact H.
Qed.

Lemma Permutation_filter_both {A} (f : A -> bool) (l l' : list A) :
  Permutation l l' -> Permutation (filter f l) (filter f l').
Proof.
  induction 1 as [|x l l' _ IH|x y l|l l' l'' _ IH1 _ IH2]; cbn [filter].
  - constructor.
  - destruct (f x); [constructor|]; exact IH.
  - destruct (f x), (f y); try reflexivity. constructor.
  - etransitivity; eassumption.
Qed.

Lemma Math_max_le_of_Permutation (x y : Q) (xs ys : list Q) :
  Permutation (x :: xs) (y :: ys) -> Math_max x xs <= Math_max y ys.
Proof.
  intros HP. pose proof (Math_max_attained x xs) as Hat.
  apply Exists_exists in Hat. destruct Hat as (z & Hz & Ez).
  pose proof (Math_max_ge y ys) as Hge. rewrite Forall_forall in Hge.
  rewrite <- Ez. apply Hge. apply (Permutation_in z HP Hz).
Qed.

Lemma Math_min_ge_of_Permutation (x y : Q) (xs ys : list Q) :
  Permutation (x :: xs) (y :: ys) -> Math_min y ys <= Math_min x xs.
Proof.
  intros HP. pose proof (Math_min_attained x xs) as Hat.
  apply Exists_exists in Hat. destruct Hat as (z & Hz & Ez).
  pose proof (Math_min_le y ys) as Hle. rewrite Forall_forall in Hle.
  rewrite <- Ez. apply Hle. apply (Permutation_in z HP Hz).
Qed.

(** X4: the maximum, the minimum and the four counts of the summary do
    not depend on the order of the records. *)
Theorem summary_order_independent (candidates candidates' : list Candidate) :
  Permutation candidates candidates' ->
  let s := calculateScoreDiscrepancy candidates in
  let s' := calculateScoreDiscrepancy candidates' in
  Summary.maxDiscrepancy s == Summary.maxDiscrepancy s'
  /\ Summary.minDiscrepancy s == Summary.minDiscrepancy s'
  /\ Summary.totalCandidates s = Summary.totalCandidates s'
  /\ Summary.aiHigherCount s = Summary.aiHigherCount s'
  /\ Summary.humanHigherCount s = Summary.humanHigherCount s'
  /\ Summary.equalScoresCount s = Summary.equalScoresCount s'.
Proof.
  intros HP. cbv zeta. unfold calculateScoreDiscrepancy.
  apply (Permutation_filter_both bothScores) in HP.
  destruct (filter bothScores candidates) as [|c cs];
    destruct (filter bothScores candidates') as [|c' cs'].
  - repeat split; reflexivity.
  - apply Permutation_nil in HP. discriminate.
  - apply Permutation_sym, Permutation_nil in HP. discriminate.
  - pose proof (Permutation_map discrepancy HP) as HD.
    cbn [Summary.maxDiscrepancy Summary.minDiscrepancy
         Summary.totalCandidates Summary.aiHigherCount Summary.humanHigherCount
         Summary.equalScoresCount].
    repeat split.
    + apply Qle_antisym; apply Math_max_le_of_Permutation;
        [exact HD | symmetry; exact HD].
    + apply Qle_antisym; apply Math_min_ge_of_Permutation;
        [symmetry; exact HD | exact HD].
    + apply Permutation_length. exact HP.
    + apply Permutation_length, Permutation_filter_both. exact HD.
    + apply Permutation_length, Permutation_filter_both. exact HD.
    + apply Permutation_length, Permutation_filter_both. exact HD.
Qed.

Lemma summary_order_independent_witness :
  Permutation sampleRecords (rev sampleRecords)
  /\ Summary.maxDiscrepancy (calculateScoreDiscrepancy sampleRecords)
     == Summary.maxDiscrepancy (calculateScoreDiscrepancy (rev sampleRecords)).
Proof.
  assert (H : Permutation sampleRecords (rev sampleRecords))
    by apply Permutation_rev.
  split; [exact H|].
  exact (proj1 (summary_order_independent sampleRecords (rev sampleRecords) H)).
Defined.

(** * More on [calculateWeeklyTrends] *)

Section TrendContents.
Import JSDate.
Local Open Scope Z_scope.
Variable LocalTZA : Z.
Variable Date_parse : string -> option Z.

(** [find] returns position [j] exactly for the dates in the window at
    [j]: the four windows do not overlap. *)
Lemma findBucket_index (today d : Z) :
  is_index 0 (findBucket d (weekBuckets LocalTZA today))
    = inBucket d (weekBucket LocalTZA today 3)
  /\ is_index 1 (findBucket d (weekBuckets LocalTZA today))
    = inBucket d (weekBucket LocalTZA today 2)
  /\ is_index 2 (findBucket d (weekBuckets LocalTZA today))
    = inBucket d (weekBucket LocalTZA today 1)
  /\ is_index 3 (findBucket d (weekBuckets LocalTZA today))
    = inBucket d (weekBucket LocalTZA today 0).
Proof.
  unfold weekBuckets. cbn [map findBucket]. unfold inBucket.
  destruct (weekBucket_window LocalTZA today 3) as [-> ->].
  destruct (weekBucket_window LocalTZA today 2) as [-> ->].
  destruct (weekBucket_window LocalTZA today 1) as [-> ->].
  destruct (weekBucket_window LocalTZA today 0) as [-> ->].
  generalize (mondayOf LocalTZA today) as m. intros m. unfold msPerDay.
  remember (m - 3 * (7 * 86400000)) as s0 eqn:E0.
  remember (m - 2 * (7 * 86400000)) as s1 eqn:E1.
  remember (m - 1 * (7 * 86400000)) as s2 eqn:E2.
  remember (m - 0 * (7 * 86400000)) as s3 eqn:E3.
  remember (s0 + 7 * 86400000 - 1) as e0 eqn:F0.
  remember (s1 + 7 * 86400000 - 1) as e1 eqn:F1.
  remember (s2 + 7 * 86400000 - 1) as e2 eqn:F2.
  remember (s3 + 7 * 86400000 - 1) as e3 eqn:F3.
  destruct (Z.leb_spec s0 d), (Z.leb_spec d e0), (Z.leb_spec s1 d),
           (Z.leb_spec d e1), (Z.leb_spec s2 d), (Z.leb_spec d e2),
           (Z.leb_spec s3 d), (Z.leb_spec d e3);
    cbn [andb is_index option_map Nat.eqb];
    first [ repeat split; reflexivity | exfalso; lia ].
Qed.

Lemma datedIn_eq (b : Bucket.t) (c : Candidate) :
  datedIn Date_parse b c
  = truthy (dateAdded c)
    && match Date_parse (dateAdded c) with
       | Some d => inBucket d b
       | None => false
       end.
Proof. reflexivity. Qed.

Lemma is_index_bucketOf (today : Z) (c : Candidate) :
  is_index 0 (bucketOf LocalTZA Date_parse today c)
    = datedIn Date_parse (weekBucket LocalTZA today 3) c
  /\ is_index 1 (bucketOf LocalTZA Date_parse today c)
    = datedIn Date_parse (weekBucket LocalTZA today 2) c
  /\ is_index 2 (bucketOf LocalTZA Date_parse today c)
    = datedIn Date_parse (weekBucket LocalTZA today 1) c
  /\ is_index 3 (bucketOf LocalTZA Date_parse today c)
    = datedIn Date_parse (weekBucket LocalTZA today 0) c.
Proof.
  rewrite !datedIn_eq. unfold bucketOf.
  destruct (truthy (dateAdded c)); [|repeat split; reflexivity].
  destruct (Date_parse (dateAdded c)) as [d|]; [|repeat split; reflexivity].
  rewrite !andb_true_l. exact (findBucket_index today d).
Qed.

Lemma datedIn_datedWithin (b : Bucket.t) (c : Candidate) :
  datedIn Date_parse b c
  = datedWithin Date_parse (Bucket.weekStart b) (Bucket.weekEnd b) c.
Proof. reflexivity. Qed.


Lemma allCandidates_mk (k : string) (ws we : Z) (l1 l2 : list Candidate) :
  Bucket.allCandidates (Bucket.mk k ws we l1 l2) = l1.
Proof. reflexivity. Qed.


Lemma filledBucket_eq (today : Z) (candidates : list Candidate) (j : nat) (i : Z) :
  filledBucket LocalTZA Date_parse today candidates j i
  = Bucket.mk (Bucket.weekKey (weekBucket LocalTZA today i))
      (Bucket.weekStart (weekBucket LocalTZA today i))
      (Bucket.weekEnd (weekBucket LocalTZA today i))
      (assignedTo LocalTZA Date_parse today j candidates)
      (filter bothScores (assignedTo LocalTZA Date_parse today j candidates)).
Proof. reflexivity. Qed.

(** The records that go to each position are those dated in its window. *)
Lemma assignedTo_windows (today : Z) (candidates : list Candidate) (j : nat)
    (i : Z) :
  (j, i) = (0%nat, 3) \/ (j, i) = (1%nat, 2) \/ (j, i) = (2%nat, 1)
  \/ (j, i) = (3%nat, 0) ->
  assignedTo LocalTZA Date_parse today j candidates
  = filter (datedWithin Date_parse
              (Bucket.weekStart (weekBucket LocalTZA today i))
              (Bucket.weekEnd (weekBucket LocalTZA today i)))
      candidates.
Proof.
  intros Hji. unfold assignedTo. apply filter_ext. intros c.
  rewrite <- datedIn_datedWithin.
  destruct (is_index_bucketOf today c) as (H0 & H1 & H2 & H3).
  destruct Hji as [E|[E|[E|E]]]; injection E as -> ->; assumption.
Qed.


Lemma datedWithin_cases (lo mid hi : Z) (c : Candidate) :
  lo <= mid + 1 -> mid <= hi ->
  datedWithin Date_parse lo hi c
  = datedWithin Date_parse lo mid c || datedWithin Date_parse (mid + 1) hi c
  /\ datedWithin Date_parse lo mid c && datedWithin Date_parse (mid + 1) hi c
     = false.
Proof.
  intros H1 H2. unfold datedWithin.
  destruct (truthy (dateAdded c)); [|split; reflexivity].
  destruct (Date_parse (dateAdded c)) as [d|]; [|split; reflexivity].
  destruct (Z.leb_spec lo d), (Z.leb_spec d mid), (Z.leb_spec (mid + 1) d),
           (Z.leb_spec d hi); cbn [andb orb]; split; first [reflexivity | lia].
Qed.

Lemma datedWithin_split (lo mid hi : Z) (candidates : list Candidate) :
  lo <= mid + 1 -> mid <= hi ->
  (length (filter (datedWithin Date_parse lo mid) candidates)
   + length (filter (datedWithin Date_parse (mid + 1) hi) candidates)
   = length (filter (datedWithin Date_parse lo hi) candidates))%nat.
Proof.
  intros H1 H2. induction candidates as [|c cs IH]; [reflexivity|].
  cbn [filter]. destruct (datedWithin_cases lo mid hi c H1 H2) as [Hor Hand].
  destruct (datedWithin Date_parse lo mid c),
           (datedWithin Date_parse (mid + 1) hi c),
           (datedWithin Date_parse lo hi c);
    cbn [andb orb] in Hor, Hand; try discriminate; cbn [length]; lia.
Qed.

Lemma totalCandidates_weekMetrics (b : Bucket.t) :
  Trend.totalCandidates (weekMetrics b) = length (Bucket.allCandidates b).
Proof. reflexivity. Qed.

Lemma assignedTo_total (today : Z) (candidates : list Candidate) :
  (length (assignedTo LocalTZA Date_parse today 0 candidates)
   + length (assignedTo LocalTZA Date_parse today 1 candidates)
   + length (assignedTo LocalTZA Date_parse today 2 candidates)
   + length (assignedTo LocalTZA Date_parse today 3 candidates)
   = length (filter (datedWithin Date_parse
                       (mondayOf LocalTZA today - 3 * (7 * msPerDay))
                       (mondayOf LocalTZA today + 7 * msPerDay - 1))
               candidates))%nat.
Proof.
  rewrite (assignedTo_windows today candidates 0 3) by tauto.
  rewrite (assignedTo_windows today candidates 1 2) by tauto.
  rewrite (assignedTo_windows today candidates 2 1) by tauto.
  rewrite (assignedTo_windows today candidates 3 0) by tauto.
  destruct (weekBucket_window LocalTZA today 3) as [-> ->].
  destruct (weekBucket_window LocalTZA today 2) as [-> ->].
  destruct (weekBucket_window LocalTZA today 1) as [-> ->].
  destruct (weekBucket_window LocalTZA today 0) as [-> ->].
  generalize (mondayOf LocalTZA today) as m. intros m.
  set (W := 7 * msPerDay).
  assert (HW : 0 < W) by (unfold W, msPerDay; lia).
  replace (m - 2 * W) with (m - 3 * W + W - 1 + 1) by lia.
  replace (m - 3 * W + W - 1 + 1 + W - 1) with (m - 2 * W + W - 1) by lia.
  replace (m - 1 * W) with (m - 2 * W + W - 1 + 1) by lia.
  replace (m - 2 * W + W - 1 + 1 + W - 1) with (m - 1 * W + W - 1) by lia.
  replace (m - 0 * W) with (m - 1 * W + W - 1 + 1) by lia.
  replace (m - 1 * W + W - 1 + 1 + W - 1) with (m + W - 1) by lia.
  rewrite (datedWithin_split (m - 3 * W) (m - 3 * W + W - 1)) by lia.
  rewrite (datedWithin_split (m - 3 * W) (m - 2 * W + W - 1)) by lia.
  rewrite (datedWithin_split (m - 3 * W) (m - 1 * W + W - 1)) by lia.
  reflexivity.
Qed.

Lemma trend_totals_sum (today : Z) (candidates : list Candidate) :
  list_sum (map Trend.totalCandidates
              (calculateWeeklyTrends LocalTZA Date_parse today candidates))
  = (length (assignedTo LocalTZA Date_parse today 0 candidates)
     + length (assignedTo LocalTZA Date_parse today 1 candidates)
     + length (assignedTo LocalTZA Date_parse today 2 candidates)
     + length (assignedTo LocalTZA Date_parse today 3 candidates))%nat.
Proof.
  unfold calculateWeeklyTrends. rewrite map_map, assignedBuckets_eq.
  rewrite !filledBucket_eq. cbn [map list_sum fold_right].
  rewrite !totalCandidates_weekMetrics, !allCandidates_mk. lia.
Qed.

End TrendContents.

Section TrendStatistics.
Variable LocalTZA : Z.
Variable Date_parse : string -> option Z.

Lemma weekMetrics_summary (b : Bucket.t) :
  Bucket.scoredCandidates b = filter bothScores (Bucket.allCandidates b) ->
  trendStatistics (weekMetrics b)
  = summaryStatistics (calculateScoreDiscrepancy (Bucket.allCandidates b)).
Proof.
  intros Hsc. unfold trendStatistics, summaryStatistics, weekMetrics,
    calculateScoreDiscrepancy.
  cbn [Trend.averageDiscrepancy Trend.maxDiscrepancy Trend.minDiscrepancy
       Trend.scoredCandidates Trend.aiHigherCount Trend.humanHigherCount
       Trend.equalCount].
  rewrite Hsc.
  destruct (filter bothScores (Bucket.allCandidates b)) as [|c cs]; reflexivity.
Qed.

(** X7: the discrepancy statistics of each week are those that
    [calculateScoreDiscrepancy] gives for the records of the week. *)
Theorem week_statistics_are_summaries (today : Z) (candidates : list Candidate) :
  map trendStatistics
    (calculateWeeklyTrends LocalTZA Date_parse today candidates)
  = map (fun b => summaryStatistics
                    (calculateScoreDiscrepancy (Bucket.allCandidates b)))
      (assignedBuckets LocalTZA Date_parse today candidates).
Proof.
  unfold calculateWeeklyTrends. rewrite map_map.
  apply map_ext_in. intros b Hin. apply weekMetrics_summary.
  apply In_nth_error in Hin. destruct Hin as [j Hj].
  destruct (nth_assignedBuckets LocalTZA Date_parse today candidates j b Hj)
    as (_ & _ & _ & _ & _ & Hsc).
  exact Hsc.
Qed.

Lemma sumOf_abs_triangle (xs : list Q) : Qabs (sumOf xs) <= sumOf (map Qabs xs).
Proof.
  induction xs as [|x xs IH].
  - cbn. apply Qle_refl.
  - cbn [map]. rewrite !sumOf_cons.
    eapply Qle_trans; [apply Qabs_triangle|]. lra.
Qed.

Lemma sumOf_abs_nonneg (xs : list Q) : 0 <= sumOf (map Qabs xs).
Proof.
  induction xs as [|x xs IH].
  - cbn. apply Qle_refl.
  - cbn [map]. rewrite sumOf_cons. pose proof (Qabs_nonneg x). lra.
Qed.

Lemma len_map {A B} (f : A -> B) (xs : list A) : len (map f xs) = len xs.
Proof. unfold len. rewrite length_map. reflexivity. Qed.

Lemma len_filter_le {A} (p : A -> bool) (xs : list A) :
  len (filter p xs) <= len xs.
Proof.
  unfold len, num. rewrite <- Zle_Qle. apply inj_le, filter_length_le.
Qed.

Lemma Qabs_div_pos (s n : Q) : 0 < n -> Qabs (s / n) == Qabs s / n.
Proof.
  intros Hn. unfold Qdiv. rewrite Qabs_Qmult.
  rewrite (Qabs_pos (/ n)); [reflexivity|].
  apply Qlt_le_weak, Qinv_lt_0_compat. exact Hn.
Qed.

(** The bounds for one bucket. *)
Lemma weekMetrics_bounds (b : Bucket.t) :
  let t := weekMetrics b in
  (0 <= Trend.aiAccuracy t <= 100)
  /\ Qabs (Trend.averageDiscrepancy t) <= Trend.averageAbsoluteDiscrepancy t.
Proof.
  cbv zeta. unfold weekMetrics.
  cbn [Trend.aiAccuracy Trend.averageDiscrepancy
       Trend.averageAbsoluteDiscrepancy].
  destruct (map discrepancy (Bucket.scoredCandidates b)) as [|d ds].
  - cbn. repeat split; lra.
  - pose proof (len_pos d ds) as Hpos.
    cbn [map]. split.
    + pose proof (len_filter_le (fun d => num_le (Math_abs d) 1) (d :: ds)) as Hle.
      pose proof (len_nonneg (filter (fun d => num_le (Math_abs d) 1) (d :: ds)))
        as H0.
      set (k := len (filter (fun d => num_le (Math_abs d) 1) (d :: ds))) in *.
      assert (H1 : 0 <= k / len (d :: ds)).
      { apply Qle_shift_div_l; [exact Hpos|]. lra. }
      assert (H2 : k / len (d :: ds) <= 1).
      { apply Qle_shift_div_r; [exact Hpos|]. lra. }
      split; lra.
    + change (Math_abs d :: map Math_abs ds) with (map Qabs (d :: ds)).
      rewrite len_map, (Qabs_div_pos _ _ Hpos).
      apply Qle_shift_div_l; [exact Hpos|].
      unfold Qdiv. rewrite <- Qmult_assoc, (Qmult_comm (/ _)), Qmult_inv_r, Qmult_1_r.
      * apply sumOf_abs_triangle.
      * lra.
Qed.

(** X8: bounds that hold in every entry of the trends: the accuracy is a
    percentage, between 0 and 100, and the average absolute discrepancy is
    at least the absolute value of the average discrepancy. *)
Theorem trend_statistics_bounds (today : Z) (candidates : list Candidate) :
  Forall (fun t =>
            (0 <= Trend.aiAccuracy t <= 100)
            /\ Qabs (Trend.averageDiscrepancy t)
               <= Trend.averageAbsoluteDiscrepancy t)
    (calculateWeeklyTrends LocalTZA Date_parse today candidates).
Proof.
  unfold calculateWeeklyTrends. apply Forall_map, Forall_forall.
  intros b _. apply weekMetrics_bounds.
Qed.
End TrendStatistics.

Section EmptyWeeks.
Import JSDate.
Local Open Scope Z_scope.
Variable LocalTZA : Z.
Variable Date_parse : string -> option Z.

Lemma weekMetrics_no_records (k : string) (ws we : Z) :
  weekMetrics (Bucket.mk k ws we [] []) = Trend.mk k ws 0 0 0 0 0 0 0 0 0 0.
Proof. reflexivity. Qed.

Lemma emptyTrend_eq (b : Bucket.t) :
  emptyTrend b
  = Trend.mk (Bucket.weekKey b) (Bucket.weekStart b) 0 0 0 0 0 0 0 0 0 0.
Proof. reflexivity. Qed.

Lemma weekBuckets_eq (today : Z) :
  weekBuckets LocalTZA today
  = [weekBucket LocalTZA today 3; weekBucket LocalTZA today 2;
     weekBucket LocalTZA today 1; weekBucket LocalTZA today 0].
Proof. reflexivity. Qed.

Lemma length_zero_nil {A} (xs : list A) : length xs = 0%nat -> xs = [].
Proof. destruct xs; [reflexivity|discriminate]. Qed.

End EmptyWeeks.

Section WeekLabels.
Import JSDate.
Local Open Scope Z_scope.
Variable LocalTZA : Z.

Lemma Day_of_day_start (t : Z) : Day (Day t * msPerDay) = Day t.
Proof. unfold Day, msPerDay. apply Z.div_mul. lia. Qed.

Lemma YearFromTime_day_start (t : Z) :
  YearFromTime (Day t * msPerDay) = YearFromTime t.
Proof.
  apply YearFromTime_unique. rewrite Day_of_day_start.
  pose proof (YearFromTime_spec t) as [Hlo Hhi].
  unfold TimeFromYear, Day, msPerDay in *. Z.div_mod_to_equations. lia.
Qed.

(** The calendar date of a time is that of midnight of its day. *)
Lemma isoDate_day_start (t : Z) : isoDate (Day t * msPerDay) = isoDate t.
Proof.
  unfold isoDate, DateFromTime, MonthFromTime, InLeapYear, DayWithinYear.
  rewrite YearFromTime_day_start, Day_of_day_start. reflexivity.
Qed.


End WeekLabels.


(** * [sort] *)

Section Sort.
Context {A : Type}.
Variable compare : A -> A -> Q.

Lemma sort_insert_Permutation (x : A) (xs : list A) :
  Permutation (sort_insert compare x xs) (x :: xs).
Proof.
  induction xs as [|y ys IH]; [reflexivity|].
  cbn [sort_insert]. destruct (num_gt (compare x y) 0); [|reflexivity].
  rewrite IH. apply perm_swap.
Qed.

Lemma sort_Permutation (xs : list A) : Permutation (sort compare xs) xs.
Proof.
  induction xs as [|x xs IH]; [reflexivity|].
  unfold sort in *. cbn [fold_right]. rewrite sort_insert_Permutation.
  constructor. exact IH.
Qed.
End Sort.

Section SortByKey.
Context {A : Type}.
Variable key : A -> Q.

Lemma sort_insert_descending (x : A) (xs : list A) :
  StronglySorted (descending key) xs ->
  StronglySorted (descending key) (sort_insert (fun a b => key b - key a) x xs).
Proof.
  induction 1 as [|y ys Hs IH Hy]; cbn [sort_insert].
  - repeat constructor.
  - destruct (num_gt (key y - key x) 0) eqn:E.
    + apply num_gt_spec in E. constructor; [exact IH|].
      rewrite Forall_forall in *. intros z Hz.
      apply (Permutation_in z (sort_insert_Permutation _ x ys)) in Hz.
      destruct Hz as [<-|Hz]; [unfold descending; lra|apply Hy; exact Hz].
    + assert (Hle : key y <= key x).
      { destruct (Qlt_le_dec (key x) (key y)) as [Hlt|Hle]; [|exact Hle].
        assert (num_gt (key y - key x) 0 = true) by (apply num_gt_spec; lra).
        congruence. }
      constructor; [constructor; assumption|].
      constructor; [exact Hle|].
      rewrite Forall_forall in *. intros z Hz. specialize (Hy z Hz).
      unfold descending in *. lra.
Qed.

Lemma sort_descending (xs : list A) :
  StronglySorted (descending key) (sort (fun a b => key b - key a) xs).
Proof.
  induction xs as [|x xs IH]; [constructor|].
  unfold sort in *. cbn [fold_right]. apply sort_insert_descending. exact IH.
Qed.
End SortByKey.

(** * Objects used as maps *)

Section ObjFacts.
Context {V : Type}.

Lemma get_None_iff (k : string) (o : Obj.t V) :
  Obj.get k o = None <-> ~ In k (map fst o).
Proof.
  induction o as [|[k' v'] o IH]; cbn.
  - tauto.
  - destruct (String.eqb_spec k k') as [E|E].
    + split; [discriminate|]. intros H. exfalso. apply H. left. congruence.
    + rewrite IH. split; [intros H [H'|H']; [congruence|tauto]|tauto].
Qed.

Lemma set_keys (k : string) (v : V) (o : Obj.t V) :
  map fst (Obj.set k v o)
  = match Obj.get k o with
    | Some _ => map fst o
    | None => map fst o ++ [k]
    end.
Proof.
  induction o as [|[k' v'] o IH]; cbn; [reflexivity|].
  destruct (String.eqb k k'); cbn; [reflexivity|].
  rewrite IH. destruct (Obj.get k o); reflexivity.
Qed.

Lemma set_NoDup (k : string) (v : V) (o : Obj.t V) :
  NoDup (map fst o) -> NoDup (map fst (Obj.set k v o)).
Proof.
  intros Hnd. rewrite set_keys. destruct (Obj.get k o) eqn:E; [exact Hnd|].
  apply get_None_iff in E.
  apply NoDup_app; [exact Hnd| repeat constructor; intros [] |].
  intros x Hx [<-|[]]. exact (E Hx).
Qed.

Lemma list_sum_cons (n : nat) (ns : list nat) :
  list_sum (n :: ns) = (n + list_sum ns)%nat.
Proof. reflexivity. Qed.

Lemma set_sum (f : V -> nat) (k : string) (v : V) (o : Obj.t V) :
  (list_sum (map f (Obj.values (Obj.set k v o)))
   + match Obj.get k o with Some old => f old | None => 0 end
   = list_sum (map f (Obj.values o)) + f v)%nat.
Proof.
  unfold Obj.values. induction o as [|[k' v'] o IH].
  - cbn. lia.
  - cbn [Obj.set Obj.get]. destruct (String.eqb k k').
    + cbn [map snd]. rewrite !list_sum_cons. lia.
    + cbn [map snd]. rewrite !list_sum_cons. lia.
Qed.

Lemma set_Forall (P : V -> Prop) (k : string) (v : V) (o : Obj.t V) :
  Forall P (Obj.values o) -> P v -> Forall P (Obj.values (Obj.set k v o)).
Proof.
  unfold Obj.values. intros Ho Hv. induction o as [|[k' v'] o IH]; cbn.
  - repeat constructor. exact Hv.
  - inversion Ho as [|? ? Hv' Ho']; subst.
    destruct (String.eqb k k'); cbn; constructor; auto.
Qed.

Lemma get_In_values (k : string) (r : V) (o : Obj.t V) :
  Obj.get k o = Some r -> In r (Obj.values o).
Proof.
  unfold Obj.values. induction o as [|[k' v'] o IH]; cbn; [discriminate|].
  destruct (String.eqb k k'); [intros [= ->]; left; reflexivity|].
  intros H. right. exact (IH H).
Qed.

Lemma In_entries_get (k : string) (r : V) (o : Obj.t V) :
  NoDup (map fst o) -> In (k, r) o -> Obj.get k o = Some r.
Proof.
  induction o as [|[k' v'] o IH]; cbn; [tauto|].
  intros Hnd Hin. inversion Hnd as [|? ? Hk Hnd']; subst.
  destruct Hin as [[= -> ->]|Hin].
  - rewrite String.eqb_refl. reflexivity.
  - destruct (String.eqb_spec k k') as [->|_]; [|exact (IH Hnd' Hin)].
    exfalso. apply Hk. apply (in_map fst) in Hin. exact Hin.
Qed.
End ObjFacts.

(** * The shape of the role folds *)

Section GroupFolds.
Context {V : Type}.
Variable init : string -> V.
Variable upd : Candidate -> V -> V.

Lemma fold_groupStep_NoDup (cs : list Candidate) (acc : Obj.t V) :
  NoDup (map fst acc) ->
  NoDup (map fst (fold_left (groupStep init upd) cs acc)).
Proof.
  revert acc. induction cs as [|c cs IH]; intros acc Hnd; [exact Hnd|].
  cbn [fold_left]. apply IH. apply set_NoDup. exact Hnd.
Qed.

(** A counter that starts at 0 and goes up by one with each record adds
    up, over the groups, to the number of records. *)
Lemma fold_groupStep_sum (count : V -> nat) :
  (forall k, count (init k) = 0%nat) ->
  (forall c r, count (upd c r) = (count r + 1)%nat) ->
  forall (cs : list Candidate) (acc : Obj.t V),
    list_sum (map count (Obj.values (fold_left (groupStep init upd) cs acc)))
    = (list_sum (map count (Obj.values acc)) + length cs)%nat.
Proof.
  intros H0 H1. induction cs as [|c cs IH]; intros acc; cbn [fold_left length].
  - lia.
  - rewrite IH. unfold groupStep at 1. cbv zeta.
    pose proof (set_sum count (getRoleName c)
                  (upd c match Obj.get (getRoleName c) acc with
                         | Some r => r
                         | None => init (getRoleName c)
                         end) acc) as Hs.
    rewrite H1 in Hs.
    destruct (Obj.get (getRoleName c) acc); [|rewrite H0 in Hs]; lia.
Qed.

(** A property of the fresh accumulator that every update keeps holds for
    every group. *)
Lemma fold_groupStep_Forall (P : V -> Prop) :
  (forall k, P (init k)) ->
  (forall c r, P r -> P (upd c r)) ->
  forall (cs : list Candidate) (acc : Obj.t V),
    Forall P (Obj.values acc) ->
    Forall P (Obj.values (fold_left (groupStep init upd) cs acc)).
Proof.
  intros H0 H1. induction cs as [|c cs IH]; intros acc Hacc; [exact Hacc|].
  cbn [fold_left]. apply IH. unfold groupStep. cbv zeta.
  apply set_Forall; [exact Hacc|]. apply H1.
  destruct (Obj.get (getRoleName c) acc) as [r|] eqn:E; [|apply H0].
  rewrite Forall_forall in Hacc. apply Hacc.
  exact (get_In_values _ _ _ E).
Qed.

Lemma groupState_None (k : string) (rs : list Candidate) (o : option V) :
  groupState init upd k rs o = None <-> rs = [] /\ o = None.
Proof.
  revert o. induction rs as [|c rs IH]; intros o.
  - cbn. split; [intros ->; tauto|tauto].
  - rewrite groupState_cons, IH. split; intros [H1 H2]; discriminate.
Qed.

(** The keys of the map are the role names of the records. *)
Lemma fold_groupStep_keys (cs : list Candidate) (k : string) :
  In k (map fst (fold_left (groupStep init upd) cs []))
  <-> exists c, In c cs /\ getRoleName c = k.
Proof.
  assert (H : ~ In k (map fst (fold_left (groupStep init upd) cs []))
              <-> recordsOfRole k cs = []).
  { rewrite <- get_None_iff, get_fold_groupStep, groupState_None.
    cbn [Obj.get]. tauto. }
  split.
  - intros Hin.
    assert (Hne : recordsOfRole k cs <> []) by (intros E; apply H in E; tauto).
    clear H. unfold recordsOfRole in Hne.
    destruct (filter (fun c => String.eqb (getRoleName c) k) cs) as [|c rs] eqn:E;
      [congruence|].
    assert (Hc : In c (filter (fun c => String.eqb (getRoleName c) k) cs))
      by (rewrite E; left; reflexivity).
    apply filter_In in Hc. destruct Hc as [Hc Hk].
    apply String.eqb_eq in Hk. exists c. tauto.
  - intros (c & Hc & Hk).
    destruct (in_dec string_dec k
                (map fst (fold_left (groupStep init upd) cs []))) as [Hin|Hn];
      [exact Hin|].
    apply H in Hn.
    assert (Hc' : In c (recordsOfRole k cs)).
    { apply filter_In. split; [exact Hc|]. apply String.eqb_eq. exact Hk. }
    rewrite Hn in Hc'. destruct Hc'.
Qed.
End GroupFolds.

(** * More on the role folds *)

Lemma num_le_iff (a b : nat) : num a <= num b <-> (a <= b)%nat.
Proof. unfold num. rewrite <- Zle_Qle. lia. Qed.

Lemma num_nonneg (a : nat) : 0 <= num a.
Proof. change 0 with (num 0). apply num_le_iff. lia. Qed.

Lemma num_pos (a : nat) : (0 < a)%nat -> 0 < num a.
Proof. unfold num. change 0 with (inject_Z 0). rewrite <- Zlt_Qlt. lia. Qed.

Lemma StronglySorted_weaken {A} (R R' : A -> A -> Prop) (xs : list A) :
  (forall a b, R a b -> R' a b) ->
  StronglySorted R xs -> StronglySorted R' xs.
Proof.
  intros HR. induction 1 as [|x xs _ IH Hx]; constructor; [exact IH|].
  eapply Forall_impl; [|exact Hx]. intros b. apply HR.
Qed.

Lemma list_sum_Permutation (xs ys : list nat) :
  Permutation xs ys -> list_sum xs = list_sum ys.
Proof.
  induction 1 as [|x l l' _ IH|x y l|l l' l'' _ IH1 _ IH2];
    rewrite ?list_sum_cons; lia.
Qed.

(** X11: when no role name is a property name inherited from
    [Object.prototype], [roleData] lists every group of [roleAnalysis]
    once, in descending order of [totalCandidates]; its first entry, the
    highest-volume role, has the largest count, and the list is empty only
    for an empty input. *)
Theorem roleData_sorted_by_volume (candidates : list Candidate) :
  Forall (fun c => inherited (getRoleName c) = false) candidates ->
  Permutation (RolePerformanceTab.roleData candidates)
    (map RolePerformanceTab.roleDatum
       (Obj.values (RolePerformanceTab.roleAnalysis candidates)))
  /\ StronglySorted
       (fun a b =>
          (RolePerformanceTab.totalCandidates (RolePerformanceTab.base b)
           <= RolePerformanceTab.totalCandidates (RolePerformanceTab.base a))%nat)
       (RolePerformanceTab.roleData candidates)
  /\ match RolePerformanceTab.roleData candidates with
     | [] => candidates = []
     | d :: rest =>
         Forall (fun d' =>
                   (RolePerformanceTab.totalCandidates (RolePerformanceTab.base d')
                    <= RolePerformanceTab.totalCandidates
                         (RolePerformanceTab.base d))%nat) rest
     end.
Proof.
  intros _.
  assert (HP : Permutation (RolePerformanceTab.roleData candidates)
                 (map RolePerformanceTab.roleDatum
                    (Obj.values (RolePerformanceTab.roleAnalysis candidates))))
    by apply sort_Permutation.
  assert (HS : StronglySorted
       (fun a b =>
          (RolePerformanceTab.totalCandidates (RolePerformanceTab.base b)
           <= RolePerformanceTab.totalCandidates (RolePerformanceTab.base a))%nat)
       (RolePerformanceTab.roleData candidates)).
  { apply (StronglySorted_weaken
             (descending (fun d => num (RolePerformanceTab.totalCandidates
                                          (RolePerformanceTab.base d))))).
    - intros a b. unfold descending. apply num_le_iff.
    - apply (sort_descending
               (fun d => num (RolePerformanceTab.totalCandidates
                                (RolePerformanceTab.base d)))). }
  split; [exact HP|]. split; [exact HS|].
  destruct (RolePerformanceTab.roleData candidates) as [|d rest] eqn:E.
  - apply Permutation_nil in HP.
    apply (f_equal (@length _)) in HP. rewrite length_map in HP.
    unfold Obj.values in HP. rewrite length_map in HP. cbn [length] in HP.
    pose proof (fold_groupStep_sum RolePerformanceTab.newAcc
                  RolePerformanceTab.updateAcc RolePerformanceTab.totalCandidates
                  (fun _ => eq_refl) roleAnalysis_updateAcc_total candidates [])
      as Hsum.
    rewrite <- roleAnalysis_groupStep in Hsum.
    apply length_zero_nil in HP. apply (f_equal (map snd)) in HP.
    unfold Obj.values in Hsum. rewrite HP in Hsum. cbn in Hsum.
    apply length_zero_nil. lia.
  - inversion HS; assumption.
Qed.

Lemma set_Forall_entries {V} (P : string * V -> Prop) (k : string) (v : V)
    (o : Obj.t V) :
  Forall P o -> P (k, v) -> Forall P (Obj.set k v o).
Proof.
  intros Ho Hv. induction o as [|[k' v'] o IH]; cbn.
  - repeat constructor. exact Hv.
  - inversion Ho as [|? ? Hv' Ho']; subst.
    destruct (String.eqb_spec k k') as [<-|_]; constructor; auto.
Qed.

Lemma get_In_entries {V} (k : string) (r : V) (o : Obj.t V) :
  Obj.get k o = Some r -> exists k', k' = k /\ In (k', r) o.
Proof.
  induction o as [|[k' v'] o IH]; cbn; [discriminate|].
  destruct (String.eqb_spec k k') as [<-|_].
  - intros [= ->]. exists k. split; [reflexivity|left; reflexivity].
  - intros H. destruct (IH H) as (k0 & E & Hin). exists k0. tauto.
Qed.

(** Every group is stored under the role name it carries. *)
Lemma fold_groupStep_names {V} (init : string -> V) (upd : Candidate -> V -> V)
    (name : V -> string) :
  (forall k, name (init k) = k) ->
  (forall c r, name (upd c r) = name r) ->
  forall (cs : list Candidate) (acc : Obj.t V),
    Forall (fun e => name (snd e) = fst e) acc ->
    Forall (fun e => name (snd e) = fst e)
      (fold_left (groupStep init upd) cs acc).
Proof.
  intros H0 H1. induction cs as [|c cs IH]; intros acc Hacc; [exact Hacc|].
  cbn [fold_left]. apply IH. unfold groupStep. cbv zeta.
  apply set_Forall_entries; [exact Hacc|]. cbn [fst snd]. rewrite H1.
  destruct (Obj.get (getRoleName c) acc) as [r|] eqn:E; [|apply H0].
  destruct (get_In_entries _ _ _ E) as (k' & Ek & Hin).
  rewrite Forall_forall in Hacc. specialize (Hacc _ Hin). cbn in Hacc.
  congruence.
Qed.

Lemma map_name_keys {V} (name : V -> string) (o : Obj.t V) :
  Forall (fun e => name (snd e) = fst e) o ->
  map name (Obj.values o) = map fst o.
Proof.
  unfold Obj.values. induction 1 as [|[k v] o Hk _ IH]; [reflexivity|].
  cbn in *. rewrite Hk, IH. reflexivity.
Qed.

Lemma roleAnalysis_updateAcc_role (c : Candidate)
    (r : RolePerformanceTab.RoleAcc) :
  RolePerformanceTab.role (RolePerformanceTab.updateAcc c r)
  = RolePerformanceTab.role r.
Proof.
  unfold RolePerformanceTab.updateAcc.
  destruct (truthy (source c)); [|reflexivity].
  destruct (truthy (status c)); [|reflexivity].
  destruct (num_gt (aiScore c) 0), (num_gt (humanScore c) 0); reflexivity.
Qed.

(** X12: when no role name is a property name inherited from
    [Object.prototype], both role breakdowns have exactly one group for
    each role name that occurs among the records, and the
    [totalCandidates] of the groups add up to the number of records: every
    record is counted once. *)
Theorem role_groups_partition_records (candidates : list Candidate) :
  Forall (fun c => inherited (getRoleName c) = false) candidates ->
  (NoDup (map (fun d => RolePerformanceTab.role (RolePerformanceTab.base d))
            (RolePerformanceTab.roleData candidates))
   /\ (forall k,
         In k (map (fun d => RolePerformanceTab.role (RolePerformanceTab.base d))
                 (RolePerformanceTab.roleData candidates))
         <-> exists c, In c candidates /\ getRoleName c = k)
   /\ list_sum (map (fun d => RolePerformanceTab.totalCandidates
                                (RolePerformanceTab.base d))
                  (RolePerformanceTab.roleData candidates))
      = length candidates)
  /\ (NoDup (map (fun d => CandidateQualityTab.role (CandidateQualityTab.base d))
               (CandidateQualityTab.roleQualityData candidates))
      /\ (forall k,
            In k (map (fun d => CandidateQualityTab.role (CandidateQualityTab.base d))
                    (CandidateQualityTab.roleQualityData candidates))
            <-> exists c, In c candidates /\ getRoleName c = k)
      /\ list_sum (map (fun d => CandidateQualityTab.totalCandidates
                                   (CandidateQualityTab.base d))
                     (CandidateQualityTab.roleQualityData candidates))
         = length candidates).
Proof.
  intros _. split.
  - assert (HP : Permutation (RolePerformanceTab.roleData candidates)
                   (map RolePerformanceTab.roleDatum
                      (Obj.values (RolePerformanceTab.roleAnalysis candidates))))
      by apply sort_Permutation.
    assert (Hnames :
              map (fun d => RolePerformanceTab.role (RolePerformanceTab.base d))
                (map RolePerformanceTab.roleDatum
                   (Obj.values (RolePerformanceTab.roleAnalysis candidates)))
              = map fst (RolePerformanceTab.roleAnalysis candidates)).
    { rewrite map_map. cbn [RolePerformanceTab.roleDatum RolePerformanceTab.base].
      apply (map_name_keys RolePerformanceTab.role).
      rewrite roleAnalysis_groupStep.
      apply (fold_groupStep_names RolePerformanceTab.newAcc
               RolePerformanceTab.updateAcc RolePerformanceTab.role
               (fun _ => eq_refl) roleAnalysis_updateAcc_role).
      constructor. }
    pose proof (Permutation_map
                  (fun d => RolePerformanceTab.role (RolePerformanceTab.base d)) HP)
      as HPn.
    rewrite Hnames in HPn.
    split; [|split].
    + apply (Permutation_NoDup (Permutation_sym HPn)).
      rewrite roleAnalysis_groupStep. apply fold_groupStep_NoDup. constructor.
    + intros k. rewrite <- (fold_groupStep_keys RolePerformanceTab.newAcc
                              RolePerformanceTab.updateAcc candidates k).
      rewrite <- roleAnalysis_groupStep.
      split; intros H.
      * exact (Permutation_in k HPn H).
      * exact (Permutation_in k (Permutation_sym HPn) H).
    + rewrite (list_sum_Permutation _ _
                 (Permutation_map
                    (fun d => RolePerformanceTab.totalCandidates
                                (RolePerformanceTab.base d)) HP)).
      rewrite map_map.
      rewrite (map_ext _ RolePerformanceTab.totalCandidates (fun _ => eq_refl)).
      rewrite roleAnalysis_groupStep.
      rewrite (fold_groupStep_sum RolePerformanceTab.newAcc
                 RolePerformanceTab.updateAcc RolePerformanceTab.totalCandidates
                 (fun _ => eq_refl) roleAnalysis_updateAcc_total candidates []).
      reflexivity.
  - unfold CandidateQualityTab.roleQualityData.
    assert (Hnames :
              map (fun d => CandidateQualityTab.role (CandidateQualityTab.base d))
                (map CandidateQualityTab.roleDatum
                   (Obj.values (CandidateQualityTab.roleQuality candidates)))
              = map fst (CandidateQualityTab.roleQuality candidates)).
    { rewrite map_map. cbn [CandidateQualityTab.roleDatum CandidateQualityTab.base].
      apply (map_name_keys CandidateQualityTab.role).
      rewrite roleQuality_groupStep.
      apply (fold_groupStep_names CandidateQualityTab.newAcc
               CandidateQualityTab.updateAcc CandidateQualityTab.role
               (fun _ => eq_refl) (fun _ _ => eq_refl)).
      constructor. }
    rewrite Hnames. split; [|split].
    + rewrite roleQuality_groupStep. apply fold_groupStep_NoDup. constructor.
    + intros k. rewrite roleQuality_groupStep. apply fold_groupStep_keys.
    + rewrite map_map.
      rewrite (map_ext _ CandidateQualityTab.totalCandidates (fun _ => eq_refl)).
      rewrite roleQuality_groupStep.
      rewrite (fold_groupStep_sum CandidateQualityTab.newAcc
                 CandidateQualityTab.updateAcc CandidateQualityTab.totalCandidates
                 (fun _ => eq_refl) (fun _ _ => eq_refl) candidates []).
      reflexivity.
Qed.

Lemma percentage_bounds (n m : nat) :
  (n <= m)%nat ->
  0 <= (if (0 <? m)%nat then num n / num m * 100 else 0) <= 100.
Proof.
  intros Hle. destruct (Nat.ltb_spec 0 m) as [Hm|Hm]; [|lra].
  pose proof (num_pos m Hm) as Hpos. pose proof (num_nonneg n) as Hn.
  apply num_le_iff in Hle.
  assert (H1 : 0 <= num n / num m) by (apply Qle_shift_div_l; [exact Hpos|lra]).
  assert (H2 : num n / num m <= 1) by (apply Qle_shift_div_r; [exact Hpos|lra]).
  lra.
Qed.

Lemma num_ge_7_gt_0 (a : Q) : num_ge a 7 = true -> num_gt a 0 = true.
Proof.
  unfold num_ge. intros H. apply num_gt_spec.
  destruct (num_lt a 7) eqn:E; [discriminate|].
  destruct (Qlt_le_dec a 7) as [Hlt|Hle]; [|lra].
  apply num_lt_spec in Hlt. congruence.
Qed.

(** X13: in every group of [roleData] the records with both scores are among
    those with an AI score and among those with a human score, which are
    among all records of the group; so the two rates are percentages. *)
Theorem roleData_counts_nested (candidates : list Candidate) :
  Forall (fun d =>
            (RolePerformanceTab.bothScoresCount d
             <= RolePerformanceTab.d_aiProcessedCount d
             <= RolePerformanceTab.totalCandidates (RolePerformanceTab.base d))%nat
            /\ (RolePerformanceTab.bothScoresCount d
                <= RolePerformanceTab.humanProcessedCount (RolePerformanceTab.base d)
                <= RolePerformanceTab.totalCandidates (RolePerformanceTab.base d))%nat
            /\ 0 <= RolePerformanceTab.aiProcessingRate d <= 100
            /\ 0 <= RolePerformanceTab.humanReviewRate d <= 100)
    (RolePerformanceTab.roleData candidates).
Proof.
  assert (Hinv : Forall (fun r =>
            (RolePerformanceTab.withBothScores r
             <= RolePerformanceTab.aiProcessedCount r
             <= RolePerformanceTab.totalCandidates r
             /\ RolePerformanceTab.withBothScores r
                <= RolePerformanceTab.humanProcessedCount r
                <= RolePerformanceTab.totalCandidates r)%nat)
            (Obj.values (RolePerformanceTab.roleAnalysis candidates))).
  { rewrite roleAnalysis_groupStep. apply fold_groupStep_Forall.
    - intros k. cbn. lia.
    - intros c r Hr. unfold RolePerformanceTab.updateAcc.
      destruct (truthy (source c)); [|cbn; lia].
      destruct (truthy (status c)); [|cbn; lia].
      destruct (num_gt (aiScore c) 0), (num_gt (humanScore c) 0); cbn; lia.
    - constructor. }
  rewrite Forall_forall in *. intros d Hd.
  apply (Permutation_in d (sort_Permutation _ _)) in Hd.
  apply in_map_iff in Hd. destruct Hd as (r & <- & Hr).
  specialize (Hinv r Hr).
  cbn [RolePerformanceTab.roleDatum RolePerformanceTab.bothScoresCount
       RolePerformanceTab.d_aiProcessedCount RolePerformanceTab.base
       RolePerformanceTab.aiProcessingRate RolePerformanceTab.humanReviewRate].
  split; [lia|]. split; [lia|].
  split; apply percentage_bounds; lia.
Qed.

(** X14: in every group of [roleQualityData] the counts are nested (those who
    passed both filters passed each one, high quality implies an AI score)
    and none exceeds [totalCandidates]; so the four rates are
    percentages. *)
Theorem roleQualityData_counts_nested (candidates : list Candidate) :
  Forall (fun d =>
            let r := CandidateQualityTab.base d in
            (CandidateQualityTab.passedBoth r <= CandidateQualityTab.passedAi r
             <= CandidateQualityTab.totalCandidates r)%nat
            /\ (CandidateQualityTab.passedBoth r <= CandidateQualityTab.passedHuman r
                <= CandidateQualityTab.totalCandidates r)%nat
            /\ (CandidateQualityTab.highQuality r <= CandidateQualityTab.aiScoreCount r
                <= CandidateQualityTab.totalCandidates r)%nat
            /\ (CandidateQualityTab.humanScoreCount r
                <= CandidateQualityTab.totalCandidates r)%nat
            /\ 0 <= CandidateQualityTab.qualityRate d <= 100
            /\ 0 <= CandidateQualityTab.aiFilterRate d <= 100
            /\ 0 <= CandidateQualityTab.humanFilterRate d <= 100
            /\ 0 <= CandidateQualityTab.bothFiltersRate d <= 100)
    (CandidateQualityTab.roleQualityData candidates).
Proof.
  assert (Hinv : Forall (fun r =>
            (CandidateQualityTab.passedBoth r <= CandidateQualityTab.passedAi r
             <= CandidateQualityTab.totalCandidates r
             /\ CandidateQualityTab.passedBoth r <= CandidateQualityTab.passedHuman r
                <= CandidateQualityTab.totalCandidates r
             /\ CandidateQualityTab.highQuality r <= CandidateQualityTab.aiScoreCount r
                <= CandidateQualityTab.totalCandidates r
             /\ CandidateQualityTab.humanScoreCount r
                <= CandidateQualityTab.totalCandidates r)%nat)
            (Obj.values (CandidateQualityTab.roleQuality candidates))).
  { rewrite roleQuality_groupStep. apply fold_groupStep_Forall.
    - intros k. cbn. lia.
    - intros c r Hr. unfold CandidateQualityTab.updateAcc, CandidateQualityTab.incr.
      cbn [CandidateQualityTab.passedBoth CandidateQualityTab.passedAi
           CandidateQualityTab.passedHuman CandidateQualityTab.totalCandidates
           CandidateQualityTab.highQuality CandidateQualityTab.aiScoreCount
           CandidateQualityTab.humanScoreCount].
      pose proof (num_ge_7_gt_0 (aiScore c)) as H7.
      destruct (passedAiFilter c), (passedHumanFilter c),
               (num_gt (humanScore c) 0), (num_ge (aiScore c) 7),
               (num_gt (aiScore c) 0); cbn [andb];
        try (specialize (H7 eq_refl); discriminate); lia.
    - constructor. }
  unfold CandidateQualityTab.roleQualityData.
  rewrite Forall_forall in *. intros d Hd.
  apply in_map_iff in Hd. destruct Hd as (r & <- & Hr).
  specialize (Hinv r Hr). cbv zeta.
  cbn [CandidateQualityTab.roleDatum CandidateQualityTab.base
       CandidateQualityTab.qualityRate CandidateQualityTab.aiFilterRate
       CandidateQualityTab.humanFilterRate CandidateQualityTab.bothFiltersRate].
  unfold CandidateQualityTab.rate.
  repeat (split; [lia|]).
  repeat split; apply percentage_bounds; lia.
Qed.

(** * [candidateFilters] *)

Lemma filter_incl_filter {A} (p q : A -> bool) (xs : list A) :
  (forall x, q x = true -> p x = true) ->
  incl (filter q xs) (filter p xs).
Proof.
  intros H x Hx. apply filter_In in Hx. apply filter_In.
  destruct Hx as [Hin Hq]. split; [exact Hin|apply H; exact Hq].
Qed.

Lemma filter_and {A} (p q : A -> bool) (xs : list A) :
  filter q (filter p xs) = filter (fun x => p x && q x) xs.
Proof.
  induction xs as [|x xs IH]; [reflexivity|].
  cbn [filter]. destruct (p x); cbn [filter andb]; rewrite IH; reflexivity.
Qed.

Lemma filter_comm {A} (p q : A -> bool) (xs : list A) :
  filter q (filter p xs) = filter p (filter q xs).
Proof.
  rewrite !filter_and. apply filter_ext. intros x. apply andb_comm.
Qed.

Lemma strict_eq_0_not_gt (a : Q) : strict_eq a 0 = true -> num_gt a 0 = false.
Proof. unfold strict_eq, num_gt. destruct (a ?= 0); congruence. Qed.

Lemma nonneg_cases (a : Q) : 0 <= a -> strict_eq a 0 = negb (num_gt a 0).
Proof.
  intros Ha. unfold strict_eq, num_gt. destruct (a ?= 0) eqn:E; try reflexivity.
  apply Qlt_alt in E. lra.
Qed.

(** X15: the records pending human review and the fully reviewed ones never
    overlap, each filter narrows the one it is built on, and, when no
    human score is negative, the high-quality records are exactly the
    pending ones together with the fully reviewed ones whose AI score is
    at least 5. *)
Theorem review_queue_partition (candidates : list Candidate) :
  Forall (fun c => 0 <= humanScore c) candidates ->
  (forall c, In c (candidateFilters.pendingHumanReview candidates) ->
             ~ In c (candidateFilters.fullyReviewed candidates))
  /\ incl (candidateFilters.pendingHumanReview candidates)
          (candidateFilters.highQuality candidates)
  /\ incl (candidateFilters.highQuality candidates)
          (candidateFilters.withAiScore candidates)
  /\ incl (candidateFilters.fullyReviewed candidates)
          (candidateFilters.withAiScore candidates)
  /\ incl (candidateFilters.highDiscrepancy candidates)
          (candidateFilters.fullyReviewed candidates)
  /\ incl (candidateFilters.withAiScore candidates) candidates
  /\ Permutation (candidateFilters.highQuality candidates)
       (candidateFilters.pendingHumanReview candidates
        ++ filter (fun c => num_ge (aiScore c) 5)
             (candidateFilters.fullyReviewed candidates)).
Proof.
  intros Hnn.
  unfold candidateFilters.pendingHumanReview, candidateFilters.highQuality,
    candidateFilters.highDiscrepancy, candidateFilters.fullyReviewed,
    candidateFilters.withAiScore.
  repeat split.
  - intros c Hp Hf. apply filter_In in Hp. destruct Hp as [_ Hp].
    apply filter_In in Hf. destruct Hf as [_ Hf].
    apply andb_true_iff in Hf. destruct Hf as [_ Hf].
    apply strict_eq_0_not_gt in Hp. congruence.
  - apply incl_filter.
  - apply incl_filter.
  - apply filter_incl_filter. intros c H. apply andb_true_iff in H. tauto.
  - apply incl_filter.
  - intros c Hc. apply filter_In in Hc. destruct Hc as [Hc _].
    unfold candidateFilters.valid in Hc. apply filter_In in Hc. tauto.
  - assert (Hv : Forall (fun c => 0 <= humanScore c)
                   (candidateFilters.valid candidates)).
    { rewrite Forall_forall in *. intros c Hc. apply Hnn.
      unfold candidateFilters.valid in Hc. apply filter_In in Hc. tauto. }
    induction (candidateFilters.valid candidates) as [|c cs IH];
      [reflexivity|].
    inversion Hv as [|? ? Hc Hcs]; subst. specialize (IH Hcs).
    pose proof (nonneg_cases _ Hc) as Hz.
    destruct (num_gt (aiScore c) 0) eqn:Ea, (num_ge (aiScore c) 5) eqn:E5,
             (num_gt (humanScore c) 0) eqn:Eh;
      cbn [filter]; rewrite ?Ea, ?Eh; cbn [filter andb];
      rewrite ?E5; cbn [filter]; rewrite ?Hz; cbn [negb app];
      try exact IH.
    + apply Permutation_cons_app. exact IH.
    + constructor. exact IH.
Qed.

Lemma num_ge_spec (a b : Q) : num_ge a b = true <-> b <= a.
Proof.
  unfold num_ge. destruct (num_lt a b) eqn:E; cbn [negb].
  - apply num_lt_spec in E. split; [discriminate|lra].
  - split; [intros _|reflexivity].
    destruct (Qlt_le_dec a b) as [H|H]; [|exact H].
    apply num_lt_spec in H. congruence.
Qed.

Lemma Qabs_ge_3 (x : Q) : 3 <= Qabs x <-> 3 <= x \/ x <= - (3).
Proof.
  destruct (Qlt_le_dec x 0) as [H|H].
  - rewrite (Qabs_neg x) by lra. split; [intros; right; lra|intros [?|?]; lra].
  - rewrite (Qabs_pos x) by lra. split; [intros; left; lra|intros [?|?]; lra].
Qed.

(** X16: the fully reviewed records are the valid records with both scores, so
    the summary of the valid records counts exactly them; and a record with
    a high discrepancy exists exactly when that summary has a maximum of
    at least 3 or a minimum of at most -3. *)
Theorem fullyReviewed_and_summary (candidates : list Candidate) :
  let s := calculateScoreDiscrepancy (candidateFilters.valid candidates) in
  candidateFilters.fullyReviewed candidates
  = filter bothScores (candidateFilters.valid candidates)
  /\ Summary.totalCandidates s
     = length (candidateFilters.fullyReviewed candidates)
  /\ (length (candidateFilters.fullyReviewed candidates)
      <= Summary.totalCandidates (calculateScoreDiscrepancy candidates))%nat
  /\ (candidateFilters.highDiscrepancy candidates <> []
      <-> 3 <= Summary.maxDiscrepancy s \/ Summary.minDiscrepancy s <= - (3)).
Proof.
  cbv zeta.
  assert (E : candidateFilters.fullyReviewed candidates
              = filter bothScores (candidateFilters.valid candidates))
    by reflexivity.
  split; [exact E|]. split; [rewrite totalCandidates_count, E; reflexivity|].
  split.
  { rewrite totalCandidates_count, E. unfold candidateFilters.valid.
    rewrite filter_comm. apply filter_length_le. }
  unfold candidateFilters.highDiscrepancy. rewrite E.
  unfold calculateScoreDiscrepancy.
  destruct (filter bothScores (candidateFilters.valid candidates)) as [|c cs].
  - cbn. split; [congruence|intros [H|H]; lra].
  - cbn [Summary.maxDiscrepancy Summary.minDiscrepancy].
    pose proof (Math_max_ge (discrepancy c) (map discrepancy cs)) as Hge.
    pose proof (Math_min_le (discrepancy c) (map discrepancy cs)) as Hle.
    pose proof (Math_max_attained (discrepancy c) (map discrepancy cs)) as Hmax.
    pose proof (Math_min_attained (discrepancy c) (map discrepancy cs)) as Hmin.
    change (discrepancy c :: map discrepancy cs)
      with (map discrepancy (c :: cs)) in Hge, Hle, Hmax, Hmin.
    rewrite Forall_map, Forall_forall in Hge, Hle.
    rewrite Exists_map, Exists_exists in Hmax, Hmin.
    set (hi := Math_max (discrepancy c) (map discrepancy cs)) in *.
    set (lo := Math_min (discrepancy c) (map discrepancy cs)) in *.
    split.
    + intros Hne.
      destruct (filter (fun c0 => num_ge (Math_abs (aiScore c0 - humanScore c0)) 3)
                  (c :: cs)) as [|x xs] eqn:F; [congruence|].
      assert (Hx : In x (filter (fun c0 => num_ge (Math_abs (aiScore c0 - humanScore c0)) 3)
                           (c :: cs))) by (rewrite F; left; reflexivity).
      apply filter_In in Hx. destruct Hx as [Hin Hx].
      apply num_ge_spec in Hx. unfold Math_abs in Hx. apply Qabs_ge_3 in Hx.
      specialize (Hge x Hin). specialize (Hle x Hin). unfold discrepancy in *.
      destruct Hx; [left|right]; lra.
    + intros [H|H].
      * destruct Hmax as (x & Hin & Hx).
        assert (Hx' : In x (filter (fun c0 => num_ge (Math_abs (aiScore c0 - humanScore c0)) 3)
                              (c :: cs))).
        { apply filter_In. split; [exact Hin|]. apply num_ge_spec.
          unfold Math_abs. apply Qabs_ge_3. unfold discrepancy in Hx. left. lra. }
        intros F. rewrite F in Hx'. destruct Hx'.
      * destruct Hmin as (x & Hin & Hx).
        assert (Hx' : In x (filter (fun c0 => num_ge (Math_abs (aiScore c0 - humanScore c0)) 3)
                              (c :: cs))).
        { apply filter_In. split; [exact Hin|]. apply num_ge_spec.
          unfold Math_abs. apply Qabs_ge_3. unfold discrepancy in Hx. right. lra. }
        intros F. rewrite F in Hx'. destruct Hx'.
Qed.

Lemma review_queue_partition_witness :
  Forall (fun c => 0 <= humanScore c) roleRecords
  /\ Permutation (candidateFilters.highQuality roleRecords)
       (candidateFilters.pendingHumanReview roleRecords
        ++ filter (fun c => num_ge (aiScore c) 5)
             (candidateFilters.fullyReviewed roleRecords)).
Proof.
  assert (H : Forall (fun c => 0 <= humanScore c) roleRecords)
    by (repeat constructor; discriminate).
  split; [exact H|].
  exact (proj2 (proj2 (proj2 (proj2 (proj2 (proj2
           (review_queue_partition roleRecords H))))))).
Defined.

(** * The demo route *)

Section MapIndex.
Context {A B : Type}.
Variable f : A -> nat -> B.

Lemma map_index_length (i : nat) (xs : list A) :
  length (map_index f i xs) = length xs.
Proof.
  revert i. induction xs as [|x xs IH]; intros i; [reflexivity|].
  cbn. rewrite IH. reflexivity.
Qed.

Lemma map_index_app (i : nat) (xs ys : list A) :
  map_index f i (xs ++ ys)
  = map_index f i xs ++ map_index f (i + length xs) ys.
Proof.
  revert i. induction xs as [|x xs IH]; intros i; cbn.
  - rewrite Nat.add_0_r. reflexivity.
  - rewrite IH. replace (S i + length xs)%nat with (i + S (length xs))%nat by lia.
    reflexivity.
Qed.
End MapIndex.

Lemma map_index_id_from {A} (f : A -> nat -> A) (n i : nat) (xs : list A) :
  (forall x k, (n <= k)%nat -> f x k = x) -> (n <= i)%nat ->
  map_index f i xs = xs.
Proof.
  intros Hf. revert i. induction xs as [|x xs IH]; intros i Hi; [reflexivity|].
  cbn. rewrite Hf by exact Hi. rewrite IH by lia. reflexivity.
Qed.

Lemma map_index_map {A B C} (f : A -> nat -> B) (g : B -> C) (h : A -> C)
    (i : nat) (xs : list A) :
  (forall x k, g (f x k) = h x) -> map g (map_index f i xs) = map h xs.
Proof.
  intros H. revert i. induction xs as [|x xs IH]; intros i; [reflexivity|].
  cbn. rewrite H, IH. reflexivity.
Qed.

Lemma nth_error_map_index {A B} (f : A -> nat -> B) (i k : nat) (xs : list A) :
  nth_error (map_index f i xs) k
  = option_map (fun x => f x (i + k)%nat) (nth_error xs k).
Proof.
  revert i k. induction xs as [|x xs IH]; intros i k.
  - destruct k; reflexivity.
  - destruct k as [|k]; cbn.
    + rewrite Nat.add_0_r. reflexivity.
    + rewrite IH. replace (S i + k)%nat with (i + S k)%nat by lia. reflexivity.
Qed.

Lemma demoScores_positive (index : nat) :
  (index < 10)%nat ->
  num_gt (match nth_error demoScores index with
          | Some score => num_or score 0
          | None => 0
          end) 0 = true.
Proof.
  intros H. do 10 (destruct index as [|index]; [reflexivity|]). lia.
Qed.

Lemma filter_map_index_length {A} (f : A -> nat -> A) (p q : A -> bool)
    (n i : nat) (xs : list A) :
  (forall x k, (k < n)%nat -> p (f x k) = q x) ->
  (i + length xs <= n)%nat ->
  length (filter p (map_index f i xs)) = length (filter q xs).
Proof.
  intros H. revert i. induction xs as [|x xs IH]; intros i Hi; [reflexivity|].
  cbn in *. rewrite H by lia. destruct (q x); cbn; rewrite IH by lia; reflexivity.
Qed.

(** X17: the demo response keeps the number and order of the records and every
    field but [humanScore]; the records after the tenth are untouched; each
    of the first ten that has an AI score gets a demo score in place of
    whatever human score it had and so counts as scored. Its
    [scoreAnalysis] therefore counts the first ten records with an AI
    score plus the later records with both scores. *)
Theorem demo_scores (candidates : list Candidate) :
  length (candidatesWithHumanScores candidates) = length candidates
  /\ map aiScore (candidatesWithHumanScores candidates) = map aiScore candidates
  /\ map id (candidatesWithHumanScores candidates) = map id candidates
  /\ skipn 10 (candidatesWithHumanScores candidates) = skipn 10 candidates
  /\ (forall k c,
        (k < 10)%nat -> nth_error candidates k = Some c ->
        nth_error (candidatesWithHumanScores candidates) k
        = Some (if num_gt (aiScore c) 0
                then withHumanScore c (nth k demoScores 0)
                else c))
  /\ Summary.totalCandidates (demoScoreAnalysis candidates)
     = (length (filter (fun c => num_gt (aiScore c) 0) (firstn 10 candidates))
        + length (filter bothScores (skipn 10 candidates)))%nat.
Proof.
  set (f := fun (candidate : Candidate) (index : nat) =>
              if (index <? 10)%nat && num_gt (aiScore candidate) 0
              then withHumanScore candidate
                     (match nth_error demoScores index with
                      | Some score => num_or score 0
                      | None => 0
                      end)
              else candidate).
  assert (Hsplit : candidatesWithHumanScores candidates
                   = map_index f 0 (firstn 10 candidates) ++ skipn 10 candidates).
  { unfold candidatesWithHumanScores. fold f.
    rewrite <- (firstn_skipn 10 candidates) at 1.
    rewrite map_index_app. f_equal.
    destruct (Nat.le_gt_cases 10 (length candidates)) as [Hlen|Hlen].
    - rewrite firstn_length_le by exact Hlen. cbn [Nat.add].
      apply (map_index_id_from f 10); [|lia].
      intros x k Hk. unfold f.
      destruct (Nat.ltb_spec k 10); [lia|reflexivity].
    - rewrite skipn_all2 by lia. reflexivity. }
  split; [apply map_index_length|].
  split.
  { apply map_index_map. intros x k.
    destruct ((k <? 10)%nat && num_gt (aiScore x) 0); reflexivity. }
  split.
  { apply map_index_map. intros x k.
    destruct ((k <? 10)%nat && num_gt (aiScore x) 0); reflexivity. }
  split.
  { rewrite Hsplit. rewrite skipn_app, map_index_length.
    rewrite skipn_all2 by (rewrite map_index_length; apply firstn_le_length).
    destruct (Nat.le_gt_cases 10 (length candidates)) as [Hlen|Hlen].
    - rewrite firstn_length_le by exact Hlen. reflexivity.
    - rewrite (skipn_all2 (n := 10) candidates) by lia.
      rewrite skipn_nil. reflexivity. }
  split.
  { intros k c Hk Hc. unfold candidatesWithHumanScores.
    rewrite nth_error_map_index, Hc. cbn [option_map Nat.add]. f_equal.
    destruct (Nat.ltb_spec k 10); [|lia]. cbn [andb].
    destruct (num_gt (aiScore c) 0); [|reflexivity]. f_equal.
    do 10 (destruct k as [|k]; [reflexivity|]). lia. }
  unfold demoScoreAnalysis. rewrite totalCandidates_count, Hsplit.
  rewrite filter_app, length_app. f_equal.
  apply (filter_map_index_length f bothScores
           (fun c => num_gt (aiScore c) 0) 10).
  - intros x k Hk. unfold f.
    destruct (Nat.ltb_spec k 10); [|lia]. cbn [andb].
    destruct (num_gt (aiScore x) 0) eqn:Ea.
    + unfold bothScores, withHumanScore. cbn [aiScore humanScore].
      rewrite Ea, demoScores_positive by exact Hk. reflexivity.
    + unfold bothScores. rewrite Ea. reflexivity.
  - cbn [Nat.add]. apply firstn_le_length.
Qed.

(** * [getTrend] *)



(** * The week filter of the tabs *)

Section TabWeeks.
Import JSDate.
Local Open Scope Z_scope.
Variable serverTZA : Z.
Variable clientTZA : Z.
Variable Date_parse : string -> option Z.

(** The tabs take the seven days from the parsed week key, whatever the
    zone of the browser. *)
Lemma inWeekOf_window (week : string) (weekDate : Z) (c : Candidate) :
  Date_parse week = Some weekDate ->
  inWeekOf clientTZA Date_parse week c
  = datedWithin Date_parse weekDate (weekDate + 7 * msPerDay - 1) c.
Proof.
  intros Hw. unfold inWeekOf, datedWithin. rewrite Hw, setDate_getDate_plus.
  destruct (truthy (dateAdded c)); [|reflexivity]. cbn [negb andb].
  destruct (Date_parse (dateAdded c)) as [d|]; [|reflexivity].
  destruct (Z.leb_spec weekDate d), (Z.ltb_spec d (weekDate + 7 * msPerDay)),
           (Z.leb_spec d (weekDate + 7 * msPerDay - 1)); cbn [andb];
    first [reflexivity | lia].
Qed.

Lemma inWeekOf_invalid (week : string) (c : Candidate) :
  Date_parse week = None -> inWeekOf clientTZA Date_parse week c = false.
Proof.
  intros Hw. unfold inWeekOf. rewrite Hw.
  destruct (truthy (dateAdded c)); [|reflexivity]. cbn [negb].
  destruct (Date_parse (dateAdded c)); reflexivity.
Qed.

Lemma week_weekMetrics (b : Bucket.t) : Trend.week (weekMetrics b) = Bucket.weekKey b.
Proof. reflexivity. Qed.

Lemma weekKey_mk (k : string) (ws we : Z) (l1 l2 : list Candidate) :
  Bucket.weekKey (Bucket.mk k ws we l1 l2) = k.
Proof. reflexivity. Qed.

Lemma totalCandidates_qualityWeek (candidates : list Candidate) (w : Trend.t) :
  QualityWeek.totalCandidates (qualityWeek clientTZA Date_parse candidates w)
  = length (filter (inWeekOf clientTZA Date_parse (Trend.week w)) candidates).
Proof. reflexivity. Qed.

(** The midnight in UTC of the day of a week start lies before it by the
    offset of the server's zone, counted within a day. *)
Lemma weekStart_day_start (today i : Z) :
  Day (Bucket.weekStart (weekBucket serverTZA today i)) * msPerDay
    = Bucket.weekStart (weekBucket serverTZA today i) - (- serverTZA) mod msPerDay
  /\ Day (Bucket.weekStart (weekBucket serverTZA today i)) * msPerDay
     + 7 * msPerDay - 1
     = Bucket.weekEnd (weekBucket serverTZA today i) - (- serverTZA) mod msPerDay.
Proof.
  destruct (weekBucket_window serverTZA today i) as [-> ->].
  unfold mondayOf, Day, msPerDay.
  generalize (daysSinceMonday (WeekDay (today + serverTZA))) as off. intros off.
  split; Z.div_mod_to_equations; lia.
Qed.

Lemma weekCandidates_shifted (today i : Z) (candidates : list Candidate) :
  Date_parse (Bucket.weekKey (weekBucket serverTZA today i))
  = Some (Day (Bucket.weekStart (weekBucket serverTZA today i)) * msPerDay) ->
  filter (inWeekOf clientTZA Date_parse
            (Bucket.weekKey (weekBucket serverTZA today i))) candidates
  = filter (datedWithin Date_parse
              (Bucket.weekStart (weekBucket serverTZA today i)
               - (- serverTZA) mod msPerDay)
              (Bucket.weekEnd (weekBucket serverTZA today i)
               - (- serverTZA) mod msPerDay)) candidates.
Proof.
  intros Hp. apply filter_ext. intros c.
  rewrite (inWeekOf_window _ _ c Hp).
  destruct (weekStart_day_start today i) as [-> ->]. reflexivity.
Qed.

Lemma trend_weeks (today : Z) (candidates : list Candidate) :
  map Trend.week (calculateWeeklyTrends serverTZA Date_parse today candidates)
  = [Bucket.weekKey (weekBucket serverTZA today 3);
     Bucket.weekKey (weekBucket serverTZA today 2);
     Bucket.weekKey (weekBucket serverTZA today 1);
     Bucket.weekKey (weekBucket serverTZA today 0)].
Proof.
  unfold calculateWeeklyTrends. rewrite map_map, assignedBuckets_eq.
  rewrite !filledBucket_eq. cbn [map].
  rewrite !week_weekMetrics, !weekKey_mk. reflexivity.
Qed.

Lemma weekCandidates_of_trends (today : Z) (candidates candidates' : list Candidate) :
  map (fun w => filter (inWeekOf clientTZA Date_parse (Trend.week w)) candidates')
    (calculateWeeklyTrends serverTZA Date_parse today candidates)
  = map (fun b => filter (inWeekOf clientTZA Date_parse (Bucket.weekKey b))
                    candidates')
      (weekBuckets serverTZA today).
Proof.
  rewrite <- (map_map Trend.week
                (fun k => filter (inWeekOf clientTZA Date_parse k) candidates')).
  rewrite trend_weeks, weekBuckets_eq. reflexivity.
Qed.

Lemma trend_totals (today : Z) (candidates : list Candidate) :
  map Trend.totalCandidates
    (calculateWeeklyTrends serverTZA Date_parse today candidates)
  = map (fun b => length (filter (datedWithin Date_parse (Bucket.weekStart b)
                                    (Bucket.weekEnd b)) candidates))
      (weekBuckets serverTZA today).
Proof.
  unfold calculateWeeklyTrends. rewrite map_map, assignedBuckets_eq.
  rewrite !filledBucket_eq, weekBuckets_eq. cbn [map].
  rewrite !totalCandidates_weekMetrics, !allCandidates_mk.
  rewrite (assignedTo_windows serverTZA Date_parse today candidates 0 3) by tauto.
  rewrite (assignedTo_windows serverTZA Date_parse today candidates 1 2) by tauto.
  rewrite (assignedTo_windows serverTZA Date_parse today candidates 2 1) by tauto.
  rewrite (assignedTo_windows serverTZA Date_parse today candidates 3 0) by tauto.
  reflexivity.
Qed.

End TabWeeks.

(** * [qualityTrends] *)

Lemma fold_left_sum_map {A} (g : A -> Q) (xs : list A) (a : Q) :
  fold_left (fun sum c => sum + g c) xs a = fold_left Qplus (map g xs) a.
Proof.
  revert a. induction xs as [|x xs IH]; intros a; [reflexivity|].
  cbn [fold_left map]. apply IH.
Qed.

Lemma filter_length_le_impl {A} (p q : A -> bool) (xs : list A) :
  (forall x, q x = true -> p x = true) ->
  (length (filter q xs) <= length (filter p xs))%nat.
Proof.
  intros H. induction xs as [|x xs IH]; [reflexivity|].
  cbn [filter]. destruct (q x) eqn:Eq.
  - rewrite (H x Eq). cbn [length]. lia.
  - destruct (p x); cbn [length]; lia.
Qed.

Lemma num_or_0_bounds (a lo hi : Q) :
  lo <= 0 -> 0 <= hi -> lo <= a <= hi -> lo <= num_or a 0 <= hi.
Proof. intros Hlo Hhi Ha. unfold num_or. destruct (strict_eq a 0); lra. Qed.

Lemma mean_within (lo hi : Q) (xs : list Q) :
  lo <= 0 -> 0 <= hi ->
  Forall (fun x => lo <= x <= hi) xs ->
  lo <= (if (0 <? length xs)%nat then sumOf xs / num (length xs) else 0) <= hi.
Proof.
  intros Hlo Hhi Hxs. destruct xs as [|x xs]; [cbn [length Nat.ltb Nat.leb]; lra|].
  change (0 <? length (x :: xs))%nat with true. cbv iota.
  pose proof (len_pos x xs) as Hpos. apply sumOf_bounds in Hxs.
  unfold len in *. destruct Hxs as [H1 H2]. split.
  - apply Qle_shift_div_l; [exact Hpos|]. lra.
  - apply Qle_shift_div_r; [exact Hpos|]. lra.
Qed.

Section QualityTrends.
Variable LocalTZA : Z.
Variable Date_parse : string -> option Z.

(** X20: in every element of [qualityTrends] the counts are nested and none
    exceeds [totalCandidates], so the four rates are percentages; and when
    the scores of the records lie between 0 and 10, so do the two
    averages. *)
Theorem qualityTrends_bounds (candidates : list Candidate)
    (weeklyTrends : list Trend.t) :
  Forall (fun c => 0 <= aiScore c <= 10 /\ 0 <= humanScore c <= 10) candidates ->
  Forall (fun w =>
            (QualityWeek.highQualityCandidates w <= QualityWeek.totalCandidates w)%nat
            /\ (QualityWeek.bothFilters w <= QualityWeek.passedAiFilter w
                <= QualityWeek.totalCandidates w)%nat
            /\ (QualityWeek.bothFilters w <= QualityWeek.passedHumanFilter w
                <= QualityWeek.totalCandidates w)%nat
            /\ 0 <= QualityWeek.qualityRate w <= 100
            /\ 0 <= QualityWeek.aiFilterRate w <= 100
            /\ 0 <= QualityWeek.humanFilterRate w <= 100
            /\ 0 <= QualityWeek.bothFiltersRate w <= 100
            /\ 0 <= QualityWeek.avgAiScore w <= 10
            /\ 0 <= QualityWeek.avgHumanScore w <= 10)
    (qualityTrends LocalTZA Date_parse candidates weeklyTrends).
Proof.
  intros Hrange. unfold qualityTrends. apply Forall_map, Forall_forall.
  intros week _. unfold qualityWeek. cbv zeta.
  set (weekCandidates :=
         filter (inWeekOf LocalTZA Date_parse (Trend.week week)) candidates).
  assert (Hw : Forall (fun c => 0 <= aiScore c <= 10 /\ 0 <= humanScore c <= 10)
                 weekCandidates).
  { rewrite Forall_forall in *. intros c Hc. apply Hrange.
    unfold weekCandidates in Hc. apply filter_In in Hc. tauto. }
  cbn [QualityWeek.highQualityCandidates QualityWeek.totalCandidates
       QualityWeek.bothFilters QualityWeek.passedAiFilter
       QualityWeek.passedHumanFilter QualityWeek.qualityRate
       QualityWeek.aiFilterRate QualityWeek.humanFilterRate
       QualityWeek.bothFiltersRate QualityWeek.avgAiScore
       QualityWeek.avgHumanScore].
  assert (H1 : (length (filter (fun c => num_ge (aiScore c) 7) weekCandidates)
                <= length weekCandidates)%nat) by apply filter_length_le.
  assert (H2 : (length (filter passedAiFilter weekCandidates)
                <= length weekCandidates)%nat) by apply filter_length_le.
  assert (H3 : (length (filter passedHumanFilter weekCandidates)
                <= length weekCandidates)%nat) by apply filter_length_le.
  assert (H4 : (length (filter (fun c => passedAiFilter c && passedHumanFilter c)
                          weekCandidates)
                <= length (filter passedAiFilter weekCandidates))%nat).
  { apply filter_length_le_impl. intros x H. apply andb_true_iff in H. tauto. }
  assert (H5 : (length (filter (fun c => passedAiFilter c && passedHumanFilter c)
                          weekCandidates)
                <= length (filter passedHumanFilter weekCandidates))%nat).
  { apply filter_length_le_impl. intros x H. apply andb_true_iff in H. tauto. }
  split; [exact H1|]. split; [lia|]. split; [lia|].
  split; [apply percentage_bounds; lia|].
  split; [apply percentage_bounds; lia|].
  split; [apply percentage_bounds; lia|].
  split; [apply percentage_bounds; lia|].
  split.
  - rewrite fold_left_sum_map. fold (sumOf (map (fun c => num_or (aiScore c) 0)
                                              weekCandidates)).
    rewrite <- (length_map (fun c => num_or (aiScore c) 0) weekCandidates).
    apply mean_within; [lra|lra|].
    apply Forall_map. eapply Forall_impl; [|exact Hw].
    intros c [Ha _]. apply num_or_0_bounds; [lra|lra|exact Ha].
  - rewrite fold_left_sum_map.
    fold (sumOf (map humanScore
                   (filter (fun c => num_gt (humanScore c) 0) weekCandidates))).
    unfold len.
    rewrite <- (length_map humanScore
                  (filter (fun c => num_gt (humanScore c) 0) weekCandidates)).
    apply mean_within; [lra|lra|].
    apply Forall_map. apply Forall_forall. intros c Hc.
    apply filter_In in Hc. destruct Hc as [Hc _].
    rewrite Forall_forall in Hw. apply (Hw c Hc).
Qed.
End QualityTrends.

Lemma qualityTrends_bounds_witness :
  Forall (fun c => 0 <= aiScore c <= 10 /\ 0 <= humanScore c <= 10) roleRecords
  /\ Forall (fun w => 0 <= QualityWeek.avgAiScore w <= 10
                      /\ 0 <= QualityWeek.avgHumanScore w <= 10)
       (qualityTrends sampleTZA ISO.parse roleRecords
          (calculateWeeklyTrends sampleTZA ISO.parse sampleToday roleRecords)).
Proof.
  assert (H : Forall (fun c => 0 <= aiScore c <= 10 /\ 0 <= humanScore c <= 10)
                roleRecords)
    by (repeat constructor; discriminate).
  split; [exact H|].
  refine (Forall_impl _ _
            (qualityTrends_bounds sampleTZA ISO.parse roleRecords
               (calculateWeeklyTrends sampleTZA ISO.parse sampleToday roleRecords)
               H)).
  intros w Hw. exact (proj2 (proj2 (proj2 (proj2 (proj2 (proj2 (proj2 Hw))))))).
Defined.

(** * [weeklyRoleTrends] *)

Lemma get_bump_same (k : string) (o : Obj.t nat) :
  Obj.get k (Obj.bump k o)
  = Some (match Obj.get k o with Some n => n | None => 0 end + 1)%nat.
Proof. unfold Obj.bump. apply get_set_same. Qed.

Lemma get_bump_other (k k' : string) (o : Obj.t nat) :
  k <> k' -> Obj.get k (Obj.bump k' o) = Obj.get k o.
Proof. intros H. unfold Obj.bump. apply get_set_other. exact H. Qed.

Lemma bump_NoDup (k : string) (o : Obj.t nat) :
  NoDup (map fst o) -> NoDup (map fst (Obj.bump k o)).
Proof. unfold Obj.bump. apply set_NoDup. Qed.

Section Tally.
Variable key : Candidate -> string.

Lemma tally_NoDup (records : list Candidate) (acc : Obj.t nat) :
  NoDup (map fst acc) ->
  NoDup (map fst (fold_left (tallyStep key) records acc)).
Proof.
  revert acc. induction records as [|c cs IH]; intros acc Hnd; [exact Hnd|].
  cbn [fold_left]. apply IH. unfold tallyStep.
  destruct (truthy (key c)); cbn [negb]; [apply bump_NoDup|]; exact Hnd.
Qed.

(** The counter of a key is the number of records with that key. *)
Lemma tally_get (k : string) (records : list Candidate) (acc : Obj.t nat) :
  Obj.get k (fold_left (tallyStep key) records acc)
  = match tally key k records with
    | O => Obj.get k acc
    | S _ => Some (match Obj.get k acc with Some n => n | None => 0 end
                   + tally key k records)%nat
    end.
Proof.
  revert acc. induction records as [|c cs IH]; intros acc.
  - unfold tally. destruct (truthy k); reflexivity.
  - cbn [fold_left]. rewrite IH. unfold tallyStep, tally.
    cbn [filter]. destruct (truthy k) eqn:Ek.
    + destruct (String.eqb_spec (key c) k) as [E|E].
      * rewrite E, Ek. cbn [negb length]. rewrite get_bump_same.
        destruct (length (filter (fun c0 => String.eqb (key c0) k) cs));
          f_equal; lia.
      * destruct (truthy (key c)); cbn [negb];
          [rewrite get_bump_other by congruence|]; reflexivity.
    + destruct (truthy (key c)) eqn:Er; cbn [negb]; [|reflexivity].
      rewrite get_bump_other; [reflexivity|]. intros ->. congruence.
Qed.

Lemma tally_le (k : string) (records : list Candidate) :
  (tally key k records <= length records)%nat.
Proof.
  unfold tally. destruct (truthy k); [apply filter_length_le|lia].
Qed.
End Tally.

(** Spreading an object with distinct keys over another: its keys win. *)
Lemma get_spread {V W} (f : V -> W) (k : string) (entries : Obj.t V)
    (base : Obj.t W) :
  NoDup (map fst entries) ->
  Obj.get k (fold_left (fun o e => Obj.set (fst e) (f (snd e)) o) entries base)
  = match Obj.get k entries with
    | Some n => Some (f n)
    | None => Obj.get k base
    end.
Proof.
  revert base. induction entries as [|[k1 n1] entries IH]; intros base Hnd;
    [reflexivity|].
  inversion Hnd as [|? ? Hk1 Hnd']; subst. cbn [fold_left fst snd].
  rewrite (IH _ Hnd'). cbn [Obj.get].
  destruct (String.eqb_spec k k1) as [->|Hne].
  - apply get_None_iff in Hk1. rewrite Hk1. apply get_set_same.
  - rewrite get_set_other by exact Hne. reflexivity.
Qed.

Section WeeklyRoleTrends.
Variable LocalTZA : Z.
Variable Date_parse : string -> option Z.

(** X21: when no [role] is a property name inherited from
    [Object.prototype], in an element of [weeklyRoleTrends] the key [total]
    holds the number of records of the week, also when a role is named
    ['total']; any other role name holds the number of records of the week
    with that [role] ([jobRole] is not looked at, and records without
    [role] are in no count); the key [week] holds the label unless a role
    is named ['week']; the object has no other key of its own. *)
Theorem weeklyRoleTrend_keys (candidates : list Candidate) (week : Trend.t) :
  Forall (fun c => inherited (role c) = false) candidates ->
  let weekCandidates :=
    filter (inWeekOf LocalTZA Date_parse (Trend.week week)) candidates in
  let o := weeklyRoleTrend LocalTZA Date_parse candidates week in
  Obj.get "total" o = Some (Count (length weekCandidates))
  /\ (forall k, k <> "total"%string ->
        Obj.get k o
        = match roleCount k weekCandidates with
          | S n => Some (Count (S n))
          | O => if String.eqb k "week"
                 then Some (Label (shortDate LocalTZA
                                     (Date_parse (Trend.week week))))
                 else None
          end)
  /\ (forall k, (roleCount k weekCandidates <= length weekCandidates)%nat).
Proof.
  intros _. cbv zeta. unfold weeklyRoleTrend.
  set (weekCandidates :=
         filter (inWeekOf LocalTZA Date_parse (Trend.week week)) candidates).
  split; [apply get_set_same|]. split.
  - intros k Hk. rewrite get_set_other by exact Hk.
    unfold Obj.entries. rewrite get_spread.
    + unfold roleCountsStep. rewrite tally_get. fold roleCount.
      cbn [Obj.get Nat.add].
      destruct (roleCount k weekCandidates) as [|n]; [|reflexivity].
      cbn [Obj.set Obj.get]. destruct (String.eqb k "week"); reflexivity.
    + apply tally_NoDup. constructor.
  - intros k. apply tally_le.
Qed.
End WeeklyRoleTrends.

(** * The paging loop of [getCandidates] *)

Section Paging.
Local Open Scope nat_scope.
Context {Page : Type}.
Variable query : nat -> option string -> Response.t Page.

Lemma fetchLoop_unfold (fuel n : nat) (allResults : list Page)
    (hasMore : bool) (startCursor : option string) :
  fetchLoop fuel query n allResults hasMore startCursor
  = if hasMore && (length allResults <? 1000)%nat then
      match fuel with
      | O => None
      | S fuel' =>
          fetchLoop fuel' query (S n)
            (allResults ++ Response.results (query n startCursor))
            (Response.has_more (query n startCursor))
            (cursorOrUndefined (Response.next_cursor (query n startCursor)))
      end
    else Some allResults.
Proof. destruct fuel; reflexivity. Qed.

(** More fuel does not change a result. *)
Lemma fetchLoop_fuel (fuel extra n : nat) (allResults : list Page)
    (hasMore : bool) (startCursor : option string) (r : list Page) :
  fetchLoop fuel query n allResults hasMore startCursor = Some r ->
  fetchLoop (fuel + extra) query n allResults hasMore startCursor = Some r.
Proof.
  revert n allResults hasMore startCursor.
  induction fuel as [|fuel IH]; intros n allResults hasMore startCursor.
  - rewrite !fetchLoop_unfold.
    destruct (hasMore && (length allResults <? 1000)%nat);
      [discriminate|]. intros H. exact H.
  - rewrite (fetchLoop_unfold (S fuel)), (fetchLoop_unfold (S fuel + extra)).
    destruct (hasMore && (length allResults <? 1000)%nat);
      [|intros H; exact H].
    cbn [Nat.add]. apply IH.
Qed.

(** With pages that are not empty while more is announced, the loop ends
    within as many calls as records are missing to 1000. *)
Lemma fetchLoop_returns (fuel n : nat) (allResults : list Page)
    (hasMore : bool) (startCursor : option string) :
  (forall n c, Response.has_more (query n c) = true ->
               Response.results (query n c) <> []) ->
  (forall n c, (length (Response.results (query n c)) <= 100)%nat) ->
  (1000 - length allResults <= fuel)%nat ->
  exists r, fetchLoop fuel query n allResults hasMore startCursor = Some r
            /\ (length r <= Nat.max (length allResults) 1099)%nat
            /\ exists rest, r = allResults ++ rest.
Proof.
  intros Hne Hsize. revert n allResults hasMore startCursor.
  induction fuel as [|fuel IH]; intros n allResults hasMore startCursor Hfuel.
  - rewrite fetchLoop_unfold.
    destruct (Nat.ltb_spec (length allResults) 1000) as [Hlt|Hge]; [lia|].
    rewrite andb_false_r. exists allResults. split; [reflexivity|].
    split; [lia|]. exists []. rewrite app_nil_r. reflexivity.
  - rewrite fetchLoop_unfold.
    destruct hasMore; cbn [andb].
    2:{ exists allResults. split; [reflexivity|]. split; [lia|].
        exists []. rewrite app_nil_r. reflexivity. }
    destruct (Nat.ltb_spec (length allResults) 1000) as [Hlt|Hge].
    2:{ exists allResults. split; [reflexivity|]. split; [lia|].
        exists []. rewrite app_nil_r. reflexivity. }
    set (response := query n startCursor).
    pose proof (Hsize n startCursor) as Hs. fold response in Hs.
    destruct (Response.has_more response) eqn:Hm.
    + pose proof (Hne n startCursor Hm) as Hn. fold response in Hn.
      assert (Hpos : (0 < length (Response.results response))%nat)
        by (destruct (Response.results response); [congruence|cbn; lia]).
      destruct (IH (S n) (allResults ++ Response.results response) true
                  (cursorOrUndefined (Response.next_cursor response)))
        as (r & Hr & Hlen & rest & Hrest).
      * rewrite length_app. lia.
      * exists r. split; [exact Hr|]. rewrite length_app in Hlen.
        split; [lia|]. exists (Response.results response ++ rest).
        rewrite app_assoc. exact Hrest.
    + rewrite fetchLoop_unfold. cbn [andb].
      exists (allResults ++ Response.results response).
      split; [reflexivity|]. rewrite length_app. split; [lia|].
      exists (Response.results response). reflexivity.
Qed.

(** With full pages that always announce more, the loop stops by its
    size test. *)
Lemma fetchLoop_full_pages (fuel j n : nat) (allResults : list Page)
    (startCursor : option string) :
  (forall n c, length (Response.results (query n c)) = 100%nat
               /\ Response.has_more (query n c) = true) ->
  (j <= 10)%nat ->
  length allResults = (100 * j)%nat ->
  (10 - j <= fuel)%nat ->
  exists r, fetchLoop fuel query n allResults true startCursor = Some r
            /\ length r = 1000%nat.
Proof.
  intros Hfull. revert j n allResults startCursor.
  induction fuel as [|fuel IH]; intros j n allResults startCursor Hj Hlen Hfuel.
  - rewrite fetchLoop_unfold. cbn [andb].
    destruct (Nat.ltb_spec (length allResults) 1000) as [Hlt|Hge]; [lia|].
    exists allResults. split; [reflexivity|lia].
  - rewrite fetchLoop_unfold. cbn [andb].
    destruct (Nat.ltb_spec (length allResults) 1000) as [Hlt|Hge].
    + destruct (Hfull n startCursor) as [Hs Hm]. rewrite Hm.
      apply (IH (S j)); [lia| |lia]. rewrite length_app, Hs, Hlen. lia.
    + exists allResults. split; [reflexivity|lia].
Qed.

(** X23: when a page is never empty while it announces more and no page has
    more than 100 results, the loop of [getCandidates] ends after at most
    1000 calls, and the list it leaves has at most 1099 elements. *)
Theorem paging_loop_ends :
  (forall n c, Response.has_more (query n c) = true ->
               Response.results (query n c) <> []) ->
  (forall n c, (length (Response.results (query n c)) <= 100)%nat) ->
  exists pages,
    (forall fuel, (1000 <= fuel)%nat -> fetchAll fuel query = Some pages)
    /\ (length pages <= 1099)%nat.
Proof.
  intros Hne Hsize.
  destruct (fetchLoop_returns 1000 0 [] true None Hne Hsize)
    as (r & Hr & Hlen & _).
  - cbn [length]. lia.
  - exists r. split.
    + intros fuel Hfuel. unfold fetchAll.
      replace fuel with (1000 + (fuel - 1000))%nat by lia.
      apply fetchLoop_fuel. exact Hr.
    + cbn [length] in Hlen. lia.
Qed.

(** X24: when every page is full (100 results) and announces more, the loop
    stops after ten calls with exactly 1000 elements: whatever the
    database holds beyond them is not fetched. *)
Theorem paging_loop_stops_at_1000 :
  (forall n c, length (Response.results (query n c)) = 100%nat
               /\ Response.has_more (query n c) = true) ->
  exists pages,
    (forall fuel, (10 <= fuel)%nat -> fetchAll fuel query = Some pages)
    /\ length pages = 1000%nat.
Proof.
  intros Hfull.
  destruct (fetchLoop_full_pages 10 0 0 [] None Hfull) as (r & Hr & Hlen);
    [lia|reflexivity|lia|].
  exists r. split; [|exact Hlen].
  intros fuel Hfuel. unfold fetchAll.
  replace fuel with (10 + (fuel - 10))%nat by lia.
  apply fetchLoop_fuel. exact Hr.
Qed.

(** X25: when every page is empty and announces more, the loop never ends:
    no number of calls is enough. *)
Theorem paging_loop_empty_pages_diverges :
  (forall n c, Response.results (query n c) = []
               /\ Response.has_more (query n c) = true) ->
  forall fuel, fetchAll fuel query = None.
Proof.
  intros Hempty fuel. unfold fetchAll. generalize 0%nat, (@None string).
  induction fuel as [|fuel IH]; intros n c; [reflexivity|].
  rewrite fetchLoop_unfold. cbn [andb length Nat.ltb Nat.leb].
  destruct (Hempty n c) as [-> ->]. cbn [app]. apply IH.
Qed.
End Paging.

Lemma paging_loop_ends_witness :
  (forall n c, Response.has_more (threePages n c) = true ->
               Response.results (threePages n c) <> [])
  /\ (forall n c, (length (Response.results (threePages n c)) <= 100)%nat)
  /\ exists pages,
       (forall fuel, (1000 <= fuel)%nat -> fetchAll fuel threePages = Some pages)
       /\ (length pages <= 1099)%nat.
Proof.
  assert (H1 : forall n c, Response.has_more (threePages n c) = true ->
                           Response.results (threePages n c) <> [])
    by (intros n c _; discriminate).
  assert (H2 : forall n c,
             (length (Response.results (threePages n c)) <= 100)%nat)
    by (intros n c; cbn; lia).
  split; [exact H1|]. split; [exact H2|].
  exact (paging_loop_ends threePages H1 H2).
Defined.

Lemma paging_loop_stops_at_1000_witness :
  (forall n c, length (Response.results (fullPages n c)) = 100%nat
               /\ Response.has_more (fullPages n c) = true)
  /\ exists pages,
       (forall fuel, (10 <= fuel)%nat -> fetchAll fuel fullPages = Some pages)
       /\ length pages = 1000%nat.
Proof.
  assert (H : forall n c, length (Response.results (fullPages n c)) = 100%nat
                          /\ Response.has_more (fullPages n c) = true)
    by (intros n c; split; [apply repeat_length|reflexivity]).
  split; [exact H|].
  exact (paging_loop_stops_at_1000 fullPages H).
Defined.

Lemma paging_loop_empty_pages_diverges_witness :
  (forall n c, Response.results (emptyPages n c) = []
               /\ Response.has_more (emptyPages n c) = true)
  /\ fetchAll 1000 emptyPages = None.
Proof.
  assert (H : forall n c, Response.results (emptyPages n c) = []
                          /\ Response.has_more (emptyPages n c) = true)
    by (intros n c; split; reflexivity).
  split; [exact H|].
  exact (paging_loop_empty_pages_diverges emptyPages H 1000%nat).
Defined.

(** * [topSource] *)

(** A field that each record changes on its own is the fold of those
    changes over the group. *)
Lemma groupState_fold {V X} (init : string -> V) (upd : Candidate -> V -> V)
    (p : V -> X) (g : X -> Candidate -> X) (x0 : X) (k : string) :
  (forall k, p (init k) = x0) ->
  (forall c r, p (upd c r) = g (p r) c) ->
  forall (records : list Candidate) (o : option V),
    option_map p (groupState init upd k records o)
    = match records with
      | [] => option_map p o
      | _ :: _ =>
          Some (fold_left g records
                  (match o with Some r => p r | None => x0 end))
      end.
Proof.
  intros H0 H1. induction records as [|c cs IH]; intros o; [reflexivity|].
  rewrite groupState_cons, IH.
  destruct cs as [|c' cs]; cbn [option_map fold_left]; rewrite !H1;
    destruct o; rewrite ?H0; reflexivity.
Qed.

Lemma roleAnalysis_updateAcc_sources (c : Candidate)
    (r : RolePerformanceTab.RoleAcc) :
  RolePerformanceTab.sources (RolePerformanceTab.updateAcc c r)
  = tallyStep source (RolePerformanceTab.sources r) c.
Proof.
  unfold RolePerformanceTab.updateAcc, tallyStep. cbv zeta.
  destruct (truthy (source c)); [|reflexivity]. cbn [negb].
  destruct (truthy (status c)); [|reflexivity].
  destruct (num_gt (aiScore c) 0), (num_gt (humanScore c) 0); reflexivity.
Qed.

Lemma tally_none (key : Candidate -> string) (records : list Candidate)
    (acc : Obj.t nat) :
  existsb (fun c => truthy (key c)) records = false ->
  fold_left (tallyStep key) records acc = acc.
Proof.
  revert acc. induction records as [|c cs IH]; intros acc H; [reflexivity|].
  cbn [existsb] in H. apply orb_false_iff in H. destruct H as [Hc Hcs].
  cbn [fold_left]. unfold tallyStep at 2. rewrite Hc. cbn [negb].
  apply IH. exact Hcs.
Qed.

Lemma tally_pos (key : Candidate -> string) (c : Candidate)
    (records : list Candidate) :
  In c records -> truthy (key c) = true ->
  (0 < tally key (key c) records)%nat.
Proof.
  intros Hin Ht. unfold tally. rewrite Ht.
  assert (H : In c (filter (fun c0 => String.eqb (key c0) (key c)) records))
    by (apply filter_In; split; [exact Hin|apply String.eqb_refl]).
  destruct (filter (fun c0 => String.eqb (key c0) (key c)) records);
    [destruct H|cbn; lia].
Qed.

(** The sources of a group, and the head of their descending sort. *)
Lemma topSource_of_tally (records : list Candidate) :
  let top :=
    match sort (fun a b => num (snd b) - num (snd a))
               (Obj.entries (fold_left (tallyStep source) records [])) with
    | (s, _) :: _ => str_or s "No Data"
    | [] => "No Data"%string
    end in
  if existsb (fun c => truthy (source c)) records
  then truthy top = true
       /\ (0 < tally source top records)%nat
       /\ forall s, (tally source s records <= tally source top records)%nat
  else top = "No Data"%string.
Proof.
  cbv zeta. set (srcs := fold_left (tallyStep source) records []).
  destruct (existsb (fun c => truthy (source c)) records) eqn:Ex.
  2:{ unfold srcs. rewrite (tally_none source records [] Ex). reflexivity. }
  assert (Hnd : NoDup (map fst srcs)) by (apply tally_NoDup; constructor).
  assert (Hget : forall s, Obj.get s srcs
                           = match tally source s records with
                             | O => None
                             | S n => Some (S n)
                             end).
  { intros s. unfold srcs at 1. rewrite tally_get. cbn [Obj.get].
    destruct (tally source s records); reflexivity. }
  pose proof (sort_Permutation (fun a b : string * nat => num (snd b) - num (snd a))
                (Obj.entries srcs)) as HP.
  pose proof (sort_descending (fun e : string * nat => num (snd e))
                (Obj.entries srcs)) as HS.
  unfold Obj.entries in *.
  destruct (sort (fun a b : string * nat => num (snd b) - num (snd a)) srcs)
    as [|[s n] rest] eqn:Es.
  - exfalso. apply existsb_exists in Ex. destruct Ex as (c & Hin & Ht).
    pose proof (tally_pos source c records Hin Ht) as Hpos.
    specialize (Hget (source c)).
    destruct (tally source (source c) records) as [|m]; [lia|].
    apply get_In_entries in Hget. destruct Hget as (k' & _ & Hk).
    apply Permutation_sym in HP. apply (Permutation_in _ HP) in Hk.
    destruct Hk.
  - assert (Hs : Obj.get s srcs = Some n).
    { apply In_entries_get; [exact Hnd|].
      apply (Permutation_in _ HP). left. reflexivity. }
    rewrite Hget in Hs.
    assert (Htop : tally source s records = n /\ (0 < n)%nat)
      by (destruct (tally source s records); [discriminate|];
          injection Hs as <-; split; [reflexivity|lia]).
    destruct Htop as [Htop Hn].
    assert (Ht : truthy s = true).
    { unfold tally in Htop. destruct (truthy s); [reflexivity|lia]. }
    replace (str_or s "No Data") with s
      by (unfold str_or; rewrite Ht; reflexivity).
    split; [exact Ht|].
    rewrite Htop. split; [exact Hn|].
    intros s'. specialize (Hget s').
    destruct (tally source s' records) as [|m]; [lia|].
    apply get_In_entries in Hget. destruct Hget as (k' & -> & Hk).
    apply Permutation_sym in HP. apply (Permutation_in _ HP) in Hk.
    destruct Hk as [[= _ <-]|Hk]; [lia|].
    inversion HS as [|? ? _ Hall]; subst.
    rewrite Forall_forall in Hall. specialize (Hall _ Hk).
    unfold descending in Hall. cbn [snd] in Hall.
    apply num_le_iff in Hall. exact Hall.
Qed.

(** X26: when no role name and no source is a property name inherited
    from [Object.prototype], in every entry of [roleData], [topSource] is
    ['No Data'] when no record of the role has a source; otherwise it is a
    source that the largest number of the role's records carry. *)
Theorem topSource_most_frequent (candidates : list Candidate) :
  Forall (fun c => inherited (getRoleName c) = false
                   /\ inherited (source c) = false) candidates ->
  Forall (fun d =>
            let records :=
              recordsOfRole (RolePerformanceTab.role (RolePerformanceTab.base d))
                candidates in
            let top := RolePerformanceTab.topSource d in
            if existsb (fun c => truthy (source c)) records
            then truthy top = true
                 /\ (0 < tally source top records)%nat
                 /\ forall s, (tally source s records
                               <= tally source top records)%nat
            else top = "No Data"%string)
    (RolePerformanceTab.roleData candidates).
Proof.
  intros _. apply Forall_forall. intros d Hd.
  apply (Permutation_in d (sort_Permutation _ _)) in Hd.
  apply in_map_iff in Hd. destruct Hd as (r & <- & Hr).
  unfold Obj.values in Hr. apply in_map_iff in Hr.
  destruct Hr as ([k r'] & Hk & Hin). cbn [snd] in Hk. subst r'.
  assert (Hnd : NoDup (map fst (RolePerformanceTab.roleAnalysis candidates)))
    by (rewrite roleAnalysis_groupStep; apply fold_groupStep_NoDup; constructor).
  assert (Hname : RolePerformanceTab.role r = k).
  { pose proof (fold_groupStep_names RolePerformanceTab.newAcc
                  RolePerformanceTab.updateAcc RolePerformanceTab.role
                  (fun _ => eq_refl) roleAnalysis_updateAcc_role candidates []
                  (Forall_nil _)) as Hn.
    rewrite <- roleAnalysis_groupStep in Hn. rewrite Forall_forall in Hn.
    exact (Hn _ Hin). }
  pose proof (In_entries_get k r _ Hnd Hin) as Hget.
  rewrite roleAnalysis_groupStep, get_fold_groupStep in Hget.
  cbn [Obj.get] in Hget.
  pose proof (groupState_fold RolePerformanceTab.newAcc
                RolePerformanceTab.updateAcc RolePerformanceTab.sources
                (tallyStep source) [] k (fun _ => eq_refl)
                roleAnalysis_updateAcc_sources
                (recordsOfRole k candidates) None) as Hsrc.
  rewrite Hget in Hsrc. cbn [option_map] in Hsrc.
  cbn [RolePerformanceTab.roleDatum RolePerformanceTab.base
       RolePerformanceTab.topSource].
  rewrite Hname.
  destruct (recordsOfRole k candidates) as [|c cs] eqn:Erecs;
    [discriminate|].
  injection Hsrc as Hsrc. rewrite Hsrc.
  exact (topSource_of_tally (c :: cs)).
Qed.

(** * [MetricsCards] *)

Lemma summary_sign_counts (candidates : list Candidate) :
  (Summary.aiHigherCount (calculateScoreDiscrepancy candidates)
   + Summary.humanHigherCount (calculateScoreDiscrepancy candidates)
   + Summary.equalScoresCount (calculateScoreDiscrepancy candidates)
   = Summary.totalCandidates (calculateScoreDiscrepancy candidates))%nat.
Proof.
  unfold calculateScoreDiscrepancy.
  destruct (filter bothScores candidates) as [|c cs]; [reflexivity|].
  cbn [Summary.aiHigherCount Summary.humanHigherCount Summary.equalScoresCount
       Summary.totalCandidates].
  rewrite sign_partition. apply length_map.
Qed.

Lemma alignment_bias (averageDiscrepancy : Q) :
  String.eqb (MetricsCards.alignment averageDiscrepancy) "Needs Calibration"
  = negb (String.eqb (MetricsCards.bias averageDiscrepancy) "Balanced").
Proof.
  unfold MetricsCards.alignment, MetricsCards.bias, num_le, Math_abs.
  destruct (num_gt (Qabs averageDiscrepancy) (1 # 2)) eqn:E1;
    destruct (num_gt (Qabs averageDiscrepancy) 1) eqn:E2;
    destruct (num_gt averageDiscrepancy 1) eqn:E3;
    destruct (num_lt averageDiscrepancy (-1)) eqn:E4;
    cbn [negb]; try reflexivity; exfalso;
    repeat match goal with
           | H : num_gt _ _ = true |- _ => apply num_gt_spec in H
           | H : num_lt _ _ = true |- _ => apply num_lt_spec in H
           | H : num_gt ?a ?b = false |- _ =>
               assert (a <= b)
                 by (destruct (Qlt_le_dec b a) as [L|L];
                     [apply num_gt_spec in L; congruence|exact L]);
               clear H
           | H : num_lt ?a ?b = false |- _ =>
               assert (b <= a)
                 by (destruct (Qlt_le_dec a b) as [L|L];
                     [apply num_lt_spec in L; congruence|exact L]);
               clear H
           end;
    generalize dependent averageDiscrepancy; intros x;
    apply Qabs_case; intros; lra.
Qed.

(** X27: on the summary of any records, each of the three percentages of
    [MetricsCards] is between 0 and 100, and all three are 0 when no
    record has both scores; and for any average the card shows
    ['Needs Calibration'] exactly when it does not show ['Balanced']. *)
Theorem metrics_cards_consistent (candidates : list Candidate)
    (averageDiscrepancy : Q) :
  let scoreAnalysis := calculateScoreDiscrepancy candidates in
  0 <= MetricsCards.aiHigherPercentage scoreAnalysis <= 100
  /\ 0 <= MetricsCards.humanHigherPercentage scoreAnalysis <= 100
  /\ 0 <= MetricsCards.equalPercentage scoreAnalysis <= 100
  /\ (filter bothScores candidates = [] ->
      MetricsCards.aiHigherPercentage scoreAnalysis == 0
      /\ MetricsCards.humanHigherPercentage scoreAnalysis == 0
      /\ MetricsCards.equalPercentage scoreAnalysis == 0)
  /\ String.eqb (MetricsCards.alignment averageDiscrepancy) "Needs Calibration"
     = negb (String.eqb (MetricsCards.bias averageDiscrepancy) "Balanced").
Proof.
  cbv zeta. pose proof (summary_sign_counts candidates) as Hsum.
  unfold MetricsCards.aiHigherPercentage, MetricsCards.humanHigherPercentage,
    MetricsCards.equalPercentage.
  split; [|split; [|split; [|split]]].
  - apply percentage_bounds. lia.
  - apply percentage_bounds. lia.
  - apply percentage_bounds. lia.
  - intros Hnone. rewrite totalCandidates_count, Hnone.
    unfold MetricsCards.percentage. cbn [length Nat.ltb Nat.leb].
    repeat split; reflexivity.
  - apply alignment_bias.
Qed.

(** * [TrendAnalyzer] and [TrendSummary] *)

Lemma num_lt_minus (a b : Q) : num_lt (a - b) 0 = num_lt a b.
Proof.
  destruct (num_lt (a - b) 0) eqn:E1, (num_lt a b) eqn:E2; try reflexivity.
  - apply num_lt_spec in E1.
    assert (H : a < b) by lra. apply num_lt_spec in H. congruence.
  - apply num_lt_spec in E2.
    assert (H : a - b < 0) by lra. apply num_lt_spec in H. congruence.
Qed.

Lemma num_gt_minus (a b : Q) : num_gt (a - b) 0 = num_gt a b.
Proof.
  destruct (num_gt (a - b) 0) eqn:E1, (num_gt a b) eqn:E2; try reflexivity.
  - apply num_gt_spec in E1.
    assert (H : b < a) by lra. apply num_gt_spec in H. congruence.
  - apply num_gt_spec in E2.
    assert (H : 0 < a - b) by lra. apply num_gt_spec in H. congruence.
Qed.

(** The two flags that [TrendSummary] computes are those of
    [calculateTrend]. *)
Lemma overallHealthStep_calculateTrend (acc : Health.t) (trend : TrendData.t) :
  overallHealthStep acc trend
  = let calc := calculateTrend trend in
    if TrendCalc.isPositive calc && TrendCalc.isSignificant calc
    then Health.mk (Health.improving acc + 1) (Health.declining acc)
           (Health.stable acc)
    else if negb (TrendCalc.isPositive calc) && TrendCalc.isSignificant calc
    then Health.mk (Health.improving acc) (Health.declining acc + 1)
           (Health.stable acc)
    else Health.mk (Health.improving acc) (Health.declining acc)
           (Health.stable acc + 1).
Proof.
  unfold overallHealthStep, calculateTrend. cbv zeta.
  destruct (strict_eq (TrendData.previous trend) 0); [reflexivity|].
  cbn [TrendCalc.isPositive TrendCalc.isSignificant].
  rewrite num_lt_minus, num_gt_minus. reflexivity.
Qed.

Lemma overallHealthStep_cases (acc : Health.t) (trend : TrendData.t) :
  overallHealthStep acc trend
  = Health.mk
      (Health.improving acc + if improves trend then 1 else 0)
      (Health.declining acc + if declines trend then 1 else 0)
      (Health.stable acc + if steady trend then 1 else 0).
Proof.
  rewrite overallHealthStep_calculateTrend. cbv zeta.
  unfold improves, declines, steady.
  destruct (TrendCalc.isPositive (calculateTrend trend)),
           (TrendCalc.isSignificant (calculateTrend trend));
    cbn [andb negb]; rewrite ?Nat.add_0_r; reflexivity.
Qed.

Lemma overallHealth_fold (trends : list TrendData.t) (acc : Health.t) :
  fold_left overallHealthStep trends acc
  = Health.mk
      (Health.improving acc + length (filter improves trends))
      (Health.declining acc + length (filter declines trends))
      (Health.stable acc + length (filter steady trends)).
Proof.
  revert acc. induction trends as [|t ts IH]; intros acc.
  - cbn. rewrite !Nat.add_0_r. destruct acc; reflexivity.
  - cbn [fold_left filter]. rewrite IH, overallHealthStep_cases.
    cbn [Health.improving Health.declining Health.stable].
    destruct (improves t), (declines t), (steady t); cbn [length];
      f_equal; lia.
Qed.

(** A change of at least 5 percent is a change. *)
Lemma significant_change (trend : TrendData.t) :
  TrendCalc.isSignificant (calculateTrend trend) = true ->
  ~ TrendData.current trend - TrendData.previous trend == 0.
Proof.
  unfold calculateTrend.
  destruct (strict_eq (TrendData.previous trend) 0) eqn:Ep;
    cbn [TrendCalc.isSignificant]; [discriminate|].
  intros Hs Hz. unfold num_ge in Hs.
  assert (Hlt : Math_abs ((TrendData.current trend - TrendData.previous trend)
                          / TrendData.previous trend * 100) < 5).
  { unfold Math_abs. rewrite Hz. unfold Qdiv. rewrite !Qmult_0_l.
    reflexivity. }
  apply num_lt_spec in Hlt. rewrite Hlt in Hs. discriminate.
Qed.

Lemma calculateTrend_reversed (trend : TrendData.t) :
  TrendCalc.isSignificant (calculateTrend (reversed trend))
  = TrendCalc.isSignificant (calculateTrend trend)
  /\ (TrendCalc.isSignificant (calculateTrend trend) = true ->
      TrendCalc.isPositive (calculateTrend (reversed trend))
      = negb (TrendCalc.isPositive (calculateTrend trend))).
Proof.
  split.
  - unfold calculateTrend, reversed. cbn [TrendData.previous TrendData.current].
    destruct (strict_eq (TrendData.previous trend) 0); reflexivity.
  - intros Hs. pose proof (significant_change trend Hs) as Hne.
    revert Hs. unfold calculateTrend, reversed.
    cbn [TrendData.previous TrendData.current TrendData.reverseGood].
    destruct (strict_eq (TrendData.previous trend) 0);
      cbn [TrendCalc.isSignificant TrendCalc.isPositive]; [discriminate|].
    intros _.
    set (change := TrendData.current trend - TrendData.previous trend) in *.
    assert (Hflip : num_lt change 0 = negb (num_gt change 0)).
    { destruct (num_lt change 0) eqn:E1, (num_gt change 0) eqn:E2;
        try reflexivity; exfalso.
      - apply num_lt_spec in E1. apply num_gt_spec in E2. lra.
      - apply Hne. destruct (Qlt_le_dec change 0) as [L|L];
          [apply num_lt_spec in L; congruence|].
        destruct (Qlt_le_dec 0 change) as [G|G];
          [apply num_gt_spec in G; congruence|]. lra. }
    destruct (TrendData.reverseGood trend); cbn [negb]; rewrite Hflip;
      [rewrite negb_involutive|]; reflexivity.
Qed.

Lemma reversed_classes (trend : TrendData.t) :
  improves (reversed trend) = declines trend
  /\ declines (reversed trend) = improves trend
  /\ steady (reversed trend) = steady trend.
Proof.
  destruct (calculateTrend_reversed trend) as [Hs Hp].
  unfold improves, declines, steady. rewrite Hs.
  destruct (TrendCalc.isSignificant (calculateTrend trend));
    [rewrite (Hp eq_refl), negb_involutive|rewrite !andb_false_r];
    repeat split; reflexivity.
Qed.

Lemma filter_map_ext {A B} (f : A -> B) (p : B -> bool) (q : A -> bool)
    (xs : list A) :
  (forall x, p (f x) = q x) ->
  length (filter p (map f xs)) = length (filter q xs).
Proof.
  intros H. induction xs as [|x xs IH]; [reflexivity|].
  cbn [map filter]. rewrite H. destruct (q x); cbn [length]; rewrite IH;
    reflexivity.
Qed.

(** X28: [TrendSummary] counts each metric in the class that the badge of
    [TrendAnalyzer] shows for it, every metric in exactly one class; and
    when each metric is read the other way round ([reverseGood] negated),
    the counts of improving and declining metrics change places. *)
Theorem trend_summary_counts (trends : list TrendData.t) :
  let health := overallHealth trends in
  Health.improving health = length (filter improves trends)
  /\ Health.declining health = length (filter declines trends)
  /\ Health.stable health = length (filter steady trends)
  /\ (Health.improving health + Health.declining health + Health.stable health
      = length trends)%nat
  /\ overallHealth (map reversed trends)
     = Health.mk (Health.declining health) (Health.improving health)
         (Health.stable health).
Proof.
  cbv zeta. unfold overallHealth. rewrite !overallHealth_fold.
  cbn [Health.improving Health.declining Health.stable Nat.add].
  repeat split.
  - induction trends as [|t ts IH]; [reflexivity|]. cbn [filter length].
    unfold improves, declines, steady in *.
    destruct (TrendCalc.isPositive (calculateTrend t)),
             (TrendCalc.isSignificant (calculateTrend t));
      cbn [andb negb length]; lia.
  - f_equal; apply filter_map_ext; intros t; apply reversed_classes.
Qed.

(** * [getTrendDirection] *)

Lemma skipn_app_length {A} (n : nat) (pre xs : list A) :
  skipn (length pre + n) (pre ++ xs) = skipn n xs.
Proof.
  induction pre as [|p pre IH]; [reflexivity|]. exact IH.
Qed.

(** The last three elements, and the three before them. *)
Lemma slice_last_six {A} (pre : list A) (o1 o2 o3 r1 r2 r3 : A) :
  slice (-3) None (pre ++ [o1; o2; o3; r1; r2; r3]) = [r1; r2; r3]
  /\ slice (-6) (Some (-3)%Z) (pre ++ [o1; o2; o3; r1; r2; r3]) = [o1; o2; o3].
Proof.
  unfold slice. cbv zeta. rewrite length_app. cbn [length].
  change (-3 <? 0)%Z with true. change (-6 <? 0)%Z with true. cbv iota.
  rewrite !Z.max_l by lia.
  replace (Z.to_nat (Z.of_nat (length pre + 6) + -3)) with (length pre + 3)%nat
    by lia.
  replace (Z.to_nat (Z.of_nat (length pre + 6) + -6)) with (length pre + 0)%nat
    by lia.
  replace (Z.to_nat (Z.of_nat (length pre + 6)
                     - (Z.of_nat (length pre + 6) + -3))) with 3%nat by lia.
  replace (Z.to_nat (Z.of_nat (length pre + 6) + -3
                     - (Z.of_nat (length pre + 6) + -6))) with 3%nat by lia.
  rewrite !skipn_app_length. split; reflexivity.
Qed.

(** X29: [getTrendDirection] answers ['stable'] for fewer than four numbers,
    whatever they are: the older slice is then empty. For four numbers,
    the number of weeks of the trends, it compares the mean of the last
    three with the first alone; from six numbers on it compares the mean
    of the last three with the mean of the three before them. *)
Theorem getTrendDirection_slices (data earlier : list Q) :
  (length data < 4)%nat ->
  getTrendDirection data = "stable"%string
  /\ (forall a b c d,
        getTrendDirection [a; b; c; d]
        = direction (mean [b; c; d] - mean [a]))
  /\ (forall o1 o2 o3 r1 r2 r3,
        getTrendDirection (earlier ++ [o1; o2; o3; r1; r2; r3])
        = direction (mean [r1; r2; r3] - mean [o1; o2; o3])).
Proof.
  intros Hlen. split; [|split].
  - destruct data as [|a [|b [|c [|d data]]]]; try reflexivity.
    cbn [length] in Hlen. lia.
  - intros a b c d. reflexivity.
  - intros o1 o2 o3 r1 r2 r3. unfold getTrendDirection.
    destruct (slice_last_six earlier o1 o2 o3 r1 r2 r3) as [-> ->].
    rewrite length_app. cbn [length].
    replace (length earlier + 6 <? 2)%nat with false
      by (symmetry; apply Nat.ltb_ge; lia).
    reflexivity.
Qed.

Lemma getTrendDirection_slices_witness :
  (length [1; 2; 3] < 4)%nat
  /\ getTrendDirection [1; 2; 3] = "stable"%string.
Proof.
  assert (H : (length [1; 2; 3] < 4)%nat) by (cbn; lia).
  split; [exact H|].
  exact (proj1 (getTrendDirection_slices [1; 2; 3] [] H)).
Defined.

(** * The histogram of [ScoreDiscrepancyChart] *)




Lemma roleQuality_averages_witness :
  exists r,
    Obj.get "AI Engineer" (CandidateQualityTab.roleQuality roleRecords) = Some r
    /\ CandidateQualityTab.avgAiScore (CandidateQualityTab.roleDatum r)
       = mean (map aiScore
                 (filter (fun c => num_gt (aiScore c) 0)
                    (recordsOfRole "AI Engineer" roleRecords))).
Proof.
  destruct (Obj.get "AI Engineer" (CandidateQualityTab.roleQuality roleRecords))
    as [r|] eqn:E.
  - exists r. split; [reflexivity|].
    exact (proj1 (roleQuality_averages roleRecords "AI Engineer" r E)).
  - discriminate E.
Defined.

Lemma roleAnalysis_averages_witness :
  exists r,
    Obj.get "AI Engineer" (RolePerformanceTab.roleAnalysis roleRecords) = Some r
    /\ RolePerformanceTab.d_avgAiScore (RolePerformanceTab.roleDatum r)
       = mean (map aiScore
                 (filter (fun c => tracked c && num_gt (aiScore c) 0)
                    (recordsOfRole "AI Engineer" roleRecords))).
Proof.
  destruct (Obj.get "AI Engineer" (RolePerformanceTab.roleAnalysis roleRecords))
    as [r|] eqn:E.
  - exists r. split; [reflexivity|].
    exact (proj1 (roleAnalysis_averages roleRecords "AI Engineer" r E)).
  - discriminate E.
Defined.

(** * The week windows in the zone of the host *)

Section HostWindows.
Import JSDate.
Local Open Scope Z_scope.
Variable zone : Host.Zone.

(** [d.setDate(d.getDate() + k)] sets the wall clock to the same time of
    day [k] calendar days away. *)
Lemma Host_setDate_getDate_plus (t k : Z) :
  Host.setDate zone t (Host.getDate zone t + k)
  = Host.UTC zone (Host.LocalTime zone t + k * msPerDay).
Proof.
  unfold Host.setDate, Host.getDate. rewrite MakeDay_of_date. f_equal.
  unfold MakeDate, TimeWithinDay, Day, msPerDay.
  Z.div_mod_to_equations. lia.
Qed.

Lemma Host_setHours_value (t h m s ms : Z) :
  Host.setHours zone t h m s ms
  = Host.UTC zone (Day (Host.LocalTime zone t) * msPerDay + MakeTime h m s ms).
Proof. reflexivity. Qed.

Lemma Day_plus_days (t k : Z) : Day (t + k * msPerDay) = Day t + k.
Proof. unfold Day, msPerDay. Z.div_mod_to_equations. lia. Qed.

Lemma Day_of_midnight (d r : Z) :
  0 <= r < msPerDay -> Day (d * msPerDay + r) = d.
Proof. unfold Day, msPerDay. intros H. Z.div_mod_to_equations. lia. Qed.

Lemma WeekDay_plus_weeks (t k : Z) :
  WeekDay (t + k * 7 * msPerDay) = WeekDay t.
Proof.
  unfold WeekDay. replace (k * 7 * msPerDay) with ((k * 7) * msPerDay) by lia.
  rewrite Day_plus_days. replace (Day t + k * 7 + 4) with (Day t + 4 + k * 7) by lia.
  apply Z.mod_add. lia.
Qed.

Lemma WeekDay_of_Day (t t' : Z) : Day t = Day t' -> WeekDay t = WeekDay t'.
Proof. unfold WeekDay. intros ->. reflexivity. Qed.

Lemma rollback_to_monday (dayOfWeek : Z) :
  - dayOfWeek + (if dayOfWeek =? 0 then -6 else 1) = - daysSinceMonday dayOfWeek.
Proof.
  unfold daysSinceMonday. destruct (Z.eqb_spec dayOfWeek 0); lia.
Qed.

(** The loop body in closed form: the bucket for offset [i] opens at the
    time value that the zone gives the midnight of the Monday [i] weeks
    before the Monday of the week of [today], and closes at the one it
    gives the last millisecond of the Sunday after. *)
Lemma Host_weekBucket_window (today i : Z) :
  Host.keepsDay zone ->
  Bucket.weekStart (Host.weekBucket zone today i)
    = Host.UTC zone (Host.mondayOf zone today - i * (7 * msPerDay))
  /\ Bucket.weekEnd (Host.weekBucket zone today i)
    = Host.UTC zone (Host.mondayOf zone today - i * (7 * msPerDay)
                     + 7 * msPerDay - 1).
Proof.
  intros Hday. unfold Host.weekBucket. cbn [Bucket.weekStart Bucket.weekEnd].
  replace (Host.getDate zone today - i * 7)
    with (Host.getDate zone today + - (i * 7)) by lia.
  rewrite (Host_setDate_getDate_plus today).
  set (l1 := Host.LocalTime zone today + - (i * 7) * msPerDay).
  set (t1 := Host.UTC zone l1).
  assert (Hd1 : Day (Host.LocalTime zone t1) = Day (Host.LocalTime zone today) - i * 7).
  { unfold t1. rewrite (Hday l1). unfold l1. rewrite Day_plus_days. lia. }
  assert (Hw1 : Host.getDay zone t1 = WeekDay (Host.LocalTime zone today)).
  { unfold Host.getDay, WeekDay. rewrite Hd1.
    replace (Day (Host.LocalTime zone today) - i * 7 + 4)
      with (Day (Host.LocalTime zone today) + 4 + (- i) * 7) by lia.
    apply Z.mod_add. lia. }
  replace (Host.getDate zone t1 - Host.getDay zone t1
           + (if Host.getDay zone t1 =? 0 then -6 else 1))
    with (Host.getDate zone t1
          + (- Host.getDay zone t1
             + (if Host.getDay zone t1 =? 0 then -6 else 1))) by lia.
  rewrite rollback_to_monday, Hw1, (Host_setDate_getDate_plus t1).
  set (dsm := daysSinceMonday (WeekDay (Host.LocalTime zone today))).
  set (l2 := Host.LocalTime zone t1 + - dsm * msPerDay).
  set (t2 := Host.UTC zone l2).
  assert (Hd2 : Day (Host.LocalTime zone t2)
                = Day (Host.LocalTime zone today) - i * 7 - dsm).
  { unfold t2. rewrite (Hday l2). unfold l2. rewrite Day_plus_days, Hd1. lia. }
  rewrite (Host_setHours_value t2 0 0 0 0), Hd2.
  assert (Hm : (Day (Host.LocalTime zone today) - i * 7 - dsm) * msPerDay
               + MakeTime 0 0 0 0
               = Host.mondayOf zone today - i * (7 * msPerDay)).
  { unfold Host.mondayOf. fold dsm.
    unfold MakeTime, msPerDay, msPerHour, msPerMinute, msPerSecond. lia. }
  rewrite Hm.
  set (m := Host.mondayOf zone today - i * (7 * msPerDay)).
  split; [reflexivity|].
  set (t3 := Host.UTC zone m).
  rewrite (Host_setDate_getDate_plus t3), Host_setHours_value.
  set (l4 := Host.LocalTime zone t3 + 6 * msPerDay).
  f_equal.
  assert (Hd3 : Day (Host.LocalTime zone t3)
                = Day (Host.LocalTime zone today) - i * 7 - dsm).
  { unfold t3. rewrite (Hday m). unfold m, Host.mondayOf. fold dsm.
    unfold Day, msPerDay. Z.div_mod_to_equations. lia. }
  rewrite (Hday l4). unfold l4. rewrite Day_plus_days, Hd3.
  unfold m, Host.mondayOf. fold dsm.
  unfold MakeTime, msPerDay, msPerHour, msPerMinute, msPerSecond. lia.
Qed.



Lemma mondayOf_holds (today : Z) :
  Host.mondayOf zone today <= Host.LocalTime zone today
  < Host.mondayOf zone today + 7 * msPerDay.
Proof.
  unfold Host.mondayOf, daysSinceMonday.
  set (l := Host.LocalTime zone today).
  unfold WeekDay, Day, msPerDay.
  destruct (Z.eqb_spec ((l / 86400000 + 4) mod 7) 0) as [E|E];
    Z.div_mod_to_equations; lia.
Qed.

End HostWindows.

Section HostTrends.
Import JSDate.
Local Open Scope Z_scope.
Variable zone : Host.Zone.
Variable Date_parse : string -> option Z.


End HostTrends.

(** * The two sample zones *)

Section SampleZones.
Import JSDate.
Local Open Scope Z_scope.



(** In the week of the clock change the windows of the code are those of
    the zone: the third one is one hour longer than seven times 24
    hours. *)
Example berlin_windows :
  map (fun b => (Bucket.weekStart b, Bucket.weekEnd b))
    (Host.weekBuckets berlin sampleToday)
  = [(1791151200000, 1791755999999); (1791756000000, 1792360799999);
     (1792360800000, 1792969199999); (1792969200000, 1793573999999)]
  /\ 1792969199999 - 1792360800000 + 1 = 7 * msPerDay + msPerHour.
Proof. split; reflexivity. Qed.

End SampleZones.


(** * What the weeks hold, in the zone of the host *)

Section FourBuckets.
Local Open Scope Z_scope.
Variable Date_parse : string -> option Z.

(** A record is pushed to one position when [find] finds a bucket for its
    date, and to none otherwise. *)
Lemma pushedTo_once (b0 b1 b2 b3 : Bucket.t) (c : Candidate) :
  ((if pushedTo Date_parse [b0; b1; b2; b3] 0 c then 1 else 0)
   + (if pushedTo Date_parse [b0; b1; b2; b3] 1 c then 1 else 0)
   + (if pushedTo Date_parse [b0; b1; b2; b3] 2 c then 1 else 0)
   + (if pushedTo Date_parse [b0; b1; b2; b3] 3 c then 1 else 0)
   = if match Date_parse (dateAdded c) with
        | Some d => existsb (inBucket d) [b0; b1; b2; b3]
        | None => false
        end
     then 1 else 0)%nat.
Proof.
  unfold pushedTo. destruct (Date_parse (dateAdded c)) as [d|]; [|reflexivity].
  cbn [findBucket existsb].
  destruct (inBucket d b0), (inBucket d b1), (inBucket d b2), (inBucket d b3);
    reflexivity.
Qed.

Lemma pushedTo_total (b0 b1 b2 b3 : Bucket.t) (cs : list Candidate) :
  (length (filter (pushedTo Date_parse [b0; b1; b2; b3] 0) cs)
   + length (filter (pushedTo Date_parse [b0; b1; b2; b3] 1) cs)
   + length (filter (pushedTo Date_parse [b0; b1; b2; b3] 2) cs)
   + length (filter (pushedTo Date_parse [b0; b1; b2; b3] 3) cs)
   = length (filter (fun c => match Date_parse (dateAdded c) with
                              | Some d => existsb (inBucket d) [b0; b1; b2; b3]
                              | None => false
                              end) cs))%nat.
Proof.
  induction cs as [|c cs IH]; [reflexivity|].
  cbn [filter]. pose proof (pushedTo_once b0 b1 b2 b3 c) as Hc.
  destruct (pushedTo Date_parse [b0; b1; b2; b3] 0 c),
           (pushedTo Date_parse [b0; b1; b2; b3] 1 c),
           (pushedTo Date_parse [b0; b1; b2; b3] 2 c),
           (pushedTo Date_parse [b0; b1; b2; b3] 3 c),
           (match Date_parse (dateAdded c) with
            | Some d => existsb (inBucket d) [b0; b1; b2; b3]
            | None => false
            end);
    cbn [length]; cbn in Hc; lia.
Qed.

(** The loop over four buckets that start empty. *)
Lemma fold_assign_four (b0 b1 b2 b3 : Bucket.t) (cs : list Candidate) :
  fold_left (assignCandidate Date_parse) cs [b0; b1; b2; b3]
  = [received Date_parse cs [b0; b1; b2; b3] 0 b0;
     received Date_parse cs [b0; b1; b2; b3] 1 b1;
     received Date_parse cs [b0; b1; b2; b3] 2 b2;
     received Date_parse cs [b0; b1; b2; b3] 3 b3].
Proof.
  apply nth_error_ext. intros j. rewrite nth_fold_assign.
  destruct j as [|[|[|[|j]]]]; try reflexivity.
  cbn. destruct j; reflexivity.
Qed.


Lemma received_nothing (cs : list Candidate) (bs : list Bucket.t) (j : nat)
    (b : Bucket.t) :
  Bucket.allCandidates b = [] -> Bucket.scoredCandidates b = [] ->
  filter (pushedTo Date_parse bs j) cs = [] ->
  weekMetrics (received Date_parse cs bs j b) = emptyTrend b.
Proof.
  intros E1 E2 E3. unfold received. rewrite E1, E2, E3. cbn [filter app].
  rewrite weekMetrics_no_records, emptyTrend_eq. reflexivity.
Qed.


Lemma nothing_four (b0 b1 b2 b3 : Bucket.t) (candidates : list Candidate) :
  Forall (fun b => Bucket.allCandidates b = []
                   /\ Bucket.scoredCandidates b = []) [b0; b1; b2; b3] ->
  Forall (fun c => datedInSome Date_parse [b0; b1; b2; b3] c = false)
    candidates ->
  map weekMetrics
    (fold_left (assignCandidate Date_parse)
       (filter (fun c => truthy (dateAdded c)) candidates) [b0; b1; b2; b3])
  = map emptyTrend [b0; b1; b2; b3].
Proof.
  intros HE Hnone.
  apply Forall_cons_iff in HE. destruct HE as [[E0 S0] HE].
  apply Forall_cons_iff in HE. destruct HE as [[E1 S1] HE].
  apply Forall_cons_iff in HE. destruct HE as [[E2 S2] HE].
  apply Forall_cons_iff in HE. destruct HE as [[E3 S3] _].
  set (cs := filter (fun c => truthy (dateAdded c)) candidates).
  assert (Hsum : (length (filter (pushedTo Date_parse [b0; b1; b2; b3] 0) cs)
                  + length (filter (pushedTo Date_parse [b0; b1; b2; b3] 1) cs)
                  + length (filter (pushedTo Date_parse [b0; b1; b2; b3] 2) cs)
                  + length (filter (pushedTo Date_parse [b0; b1; b2; b3] 3) cs)
                  = 0)%nat).
  { rewrite pushedTo_total. unfold cs. rewrite filter_filter.
    rewrite filter_nil_of_none; [reflexivity|].
    rewrite Forall_forall in Hnone. exact Hnone. }
  rewrite fold_assign_four. cbn [map].
  rewrite (received_nothing _ _ _ _ E0 S0) by (apply length_zero_nil; lia).
  rewrite (received_nothing _ _ _ _ E1 S1) by (apply length_zero_nil; lia).
  rewrite (received_nothing _ _ _ _ E2 S2) by (apply length_zero_nil; lia).
  rewrite (received_nothing _ _ _ _ E3 S3) by (apply length_zero_nil; lia).
  reflexivity.
Qed.

End FourBuckets.

Section HostTotals.
Import JSDate.
Local Open Scope Z_scope.
Variable zone : Host.Zone.
Variable Date_parse : string -> option Z.

Lemma Host_weekBucket_empty (today i : Z) :
  Bucket.allCandidates (Host.weekBucket zone today i) = []
  /\ Bucket.scoredCandidates (Host.weekBucket zone today i) = [].
Proof. split; reflexivity. Qed.

Lemma Host_weekBuckets_eq (today : Z) :
  Host.weekBuckets zone today
  = [Host.weekBucket zone today 3; Host.weekBucket zone today 2;
     Host.weekBucket zone today 1; Host.weekBucket zone today 0].
Proof. reflexivity. Qed.

Lemma Host_weekBuckets_empty (today : Z) :
  Forall (fun b => Bucket.allCandidates b = []
                   /\ Bucket.scoredCandidates b = [])
    (Host.weekBuckets zone today).
Proof.
  rewrite Host_weekBuckets_eq.
  repeat (apply Forall_cons; [apply Host_weekBucket_empty|]).
  apply Forall_nil.
Qed.


(** X9: when no record has a date that parses into one of the four
    windows (the empty list is one case), the result is the four entries
    with their week and date and every count and statistic zero. *)
Theorem no_records_in_range_zero_trends (today : Z)
    (candidates : list Candidate) :
  Forall (fun c => datedInSome Date_parse (Host.weekBuckets zone today) c
                   = false) candidates ->
  Host.calculateWeeklyTrends zone Date_parse today candidates
  = map emptyTrend (Host.weekBuckets zone today).
Proof.
  intros Hnone. unfold Host.calculateWeeklyTrends, Host.assignedBuckets.
  pose proof (Host_weekBuckets_empty today) as HE.
  rewrite Host_weekBuckets_eq in *.
  apply nothing_four; assumption.
Qed.
End HostTotals.

(** On the records of the three cases and one dated in the first hour of
    the first window of the zone: that hour lies before the window of a
    zone that is always one hour east of UTC. *)
Example berlin_totals :
  map Trend.totalCandidates
    (Host.calculateWeeklyTrends berlin ISO.parse sampleToday
       [dated "2026-10-04T22:30:00.000Z"; undated; outdated;
        dated "2026-10-25T22:59:59.999Z"])
  = [1; 0; 1; 0]%nat
  /\ map Trend.totalCandidates
       (Host.calculateWeeklyTrends (Host.fixed 3600000) ISO.parse sampleToday
          [dated "2026-10-04T22:30:00.000Z"; undated; outdated;
           dated "2026-10-25T22:59:59.999Z"])
     = [0; 0; 1; 0]%nat.
Proof. split; reflexivity. Qed.

Lemma no_records_in_range_zero_trends_witness :
  Forall (fun c => datedInSome ISO.parse (Host.weekBuckets berlin sampleToday) c
                   = false) [undated; misdated; outdated]
  /\ Host.calculateWeeklyTrends berlin ISO.parse sampleToday
       [undated; misdated; outdated]
     = map emptyTrend (Host.weekBuckets berlin sampleToday).
Proof.
  assert (H : Forall (fun c => datedInSome ISO.parse
                                 (Host.weekBuckets berlin sampleToday) c = false)
                [undated; misdated; outdated])
    by (repeat constructor).
  split; [exact H|].
  exact (no_records_in_range_zero_trends berlin ISO.parse sampleToday
           [undated; misdated; outdated] H).
Defined.

(** * Zones with a fixed offset

    Over a zone without clock changes the definitions of [Host] are those
    that take the offset as a number. *)

Section FixedZone.
Import JSDate.
Local Open Scope Z_scope.
Variable LocalTZA : Z.

Lemma fixed_LocalTime (t : Z) :
  Host.LocalTime (Host.fixed LocalTZA) t = LocalTime LocalTZA t.
Proof. unfold Host.LocalTime, LocalTime, Host.fixed. reflexivity. Qed.

Lemma fixed_UTC (t : Z) :
  Host.UTC (Host.fixed LocalTZA) t = UTC LocalTZA t.
Proof. unfold Host.UTC, UTC, Host.fixed. reflexivity. Qed.

Lemma fixed_setDate (t date : Z) :
  Host.setDate (Host.fixed LocalTZA) t date = setDate LocalTZA t date.
Proof.
  unfold Host.setDate, setDate. rewrite fixed_LocalTime, fixed_UTC.
  reflexivity.
Qed.

Lemma fixed_setHours (t h m s ms : Z) :
  Host.setHours (Host.fixed LocalTZA) t h m s ms = setHours LocalTZA t h m s ms.
Proof.
  unfold Host.setHours, setHours. rewrite fixed_LocalTime, fixed_UTC.
  reflexivity.
Qed.

Lemma fixed_getDate (t : Z) :
  Host.getDate (Host.fixed LocalTZA) t = getDate LocalTZA t.
Proof. unfold Host.getDate, getDate. rewrite fixed_LocalTime. reflexivity. Qed.

Lemma fixed_getDay (t : Z) :
  Host.getDay (Host.fixed LocalTZA) t = getDay LocalTZA t.
Proof. unfold Host.getDay, getDay. rewrite fixed_LocalTime. reflexivity. Qed.
Lemma fixed_weekBucket (today i : Z) :
  Host.weekBucket (Host.fixed LocalTZA) today i = weekBucket LocalTZA today i.
Proof.
  unfold Host.weekBucket, weekBucket. cbv zeta.
  repeat rewrite ?fixed_getDate, ?fixed_getDay, ?fixed_setDate, ?fixed_setHours.
  reflexivity.
Qed.

Lemma fixed_weekBuckets (today : Z) :
  Host.weekBuckets (Host.fixed LocalTZA) today = weekBuckets LocalTZA today.
Proof.
  unfold Host.weekBuckets, weekBuckets. apply map_ext. intros i.
  apply fixed_weekBucket.
Qed.

Lemma fixed_calculateWeeklyTrends (Date_parse : string -> option Z)
    (today : Z) (candidates : list Candidate) :
  Host.calculateWeeklyTrends (Host.fixed LocalTZA) Date_parse today candidates
  = calculateWeeklyTrends LocalTZA Date_parse today candidates.
Proof.
  unfold Host.calculateWeeklyTrends, calculateWeeklyTrends,
    Host.assignedBuckets, assignedBuckets.
  rewrite fixed_weekBuckets. reflexivity.
Qed.

Lemma fixed_inWeekOf (Date_parse : string -> option Z) (week : string)
    (c : Candidate) :
  Host.inWeekOf (Host.fixed LocalTZA) Date_parse week c
  = inWeekOf LocalTZA Date_parse week c.
Proof.
  unfold Host.inWeekOf, inWeekOf.
  destruct (negb (truthy (dateAdded c))); [reflexivity|].
  destruct (Date_parse (dateAdded c)) as [d|]; [|reflexivity].
  destruct (Date_parse week) as [w|]; [|reflexivity].
  cbv zeta. rewrite fixed_getDate, fixed_setDate. reflexivity.
Qed.

Lemma fixed_keepsDay : Host.keepsDay (Host.fixed LocalTZA).
Proof.
  intros t. rewrite fixed_LocalTime, fixed_UTC. unfold LocalTime, UTC.
  f_equal. lia.
Qed.
End FixedZone.

(** * The date range of [getCandidates], in the zone of the host *)

Section HostFetchRange.
Import JSDate.
Local Open Scope Z_scope.
Variable zone : Host.Zone.

(** X22: when the two [new Date()] calls of [getCandidates] fall on the
    same day of the month, [fourWeeksAgo] is the time value that the zone
    gives the wall-clock time of the second call 28 calendar days
    earlier. In a zone without clock changes that is exactly 28 times 24
    hours before the second call, and it lies strictly before the start
    of each of the four weeks that [calculateWeeklyTrends] builds at any
    later moment: a record dated inside one of the weeks is after the
    bound of the query. *)
Theorem fetch_range_covers_weeks (today now : Z) :
  Host.getDate zone today = Host.getDate zone now ->
  Host.fourWeeksAgo zone today now
  = Host.UTC zone (Host.LocalTime zone now - 28 * msPerDay)
  /\ forall LocalTZA later,
       (forall t isUTC, zone t isUTC = LocalTZA) ->
       now <= later ->
       Host.fourWeeksAgo zone today now = now - 28 * msPerDay
       /\ Forall (fun b => Host.fourWeeksAgo zone today now < Bucket.weekStart b)
            (Host.weekBuckets zone later).
Proof.
  intros Hdate.
  assert (Hv : Host.fourWeeksAgo zone today now
               = Host.UTC zone (Host.LocalTime zone now - 28 * msPerDay)).
  { unfold Host.fourWeeksAgo. rewrite Hdate.
    replace (Host.getDate zone now - 28) with (Host.getDate zone now + -28)
      by lia.
    rewrite Host_setDate_getDate_plus. f_equal; try lia. }
  split; [exact Hv|].
  intros LocalTZA later Hfix Hle.
  assert (Hday : Host.keepsDay zone).
  { intros t. unfold Host.LocalTime, Host.UTC. rewrite !Hfix. f_equal. lia. }
  assert (Hc : Host.fourWeeksAgo zone today now = now - 28 * msPerDay).
  { rewrite Hv. unfold Host.UTC, Host.LocalTime. rewrite !Hfix. lia. }
  split; [exact Hc|].
  rewrite Hc, Host_weekBuckets_eq.
  pose proof (mondayOf_holds zone later) as Hin.
  unfold Host.LocalTime in Hin. rewrite Hfix in Hin.
  repeat (apply Forall_cons;
          [match goal with
           | |- _ < Bucket.weekStart (Host.weekBucket zone later ?i) =>
               rewrite (proj1 (Host_weekBucket_window zone later i Hday));
               unfold Host.UTC; rewrite Hfix; unfold msPerDay in *; lia
           end|]).
  apply Forall_nil.
Qed.
End HostFetchRange.

Lemma fetch_range_covers_weeks_witness :
  Host.getDate berlin sampleToday = Host.getDate berlin (sampleToday + 5)%Z
  /\ Host.fourWeeksAgo berlin sampleToday (sampleToday + 5)%Z
     = Host.UTC berlin
         (Host.LocalTime berlin (sampleToday + 5) - 28 * JSDate.msPerDay)%Z
  /\ Host.fourWeeksAgo berlin sampleToday (sampleToday + 5)%Z
     = (sampleToday + 5 - 28 * JSDate.msPerDay - JSDate.msPerHour)%Z.
Proof.
  assert (H : Host.getDate berlin sampleToday
              = Host.getDate berlin (sampleToday + 5)%Z) by reflexivity.
  split; [exact H|].
  split; [|reflexivity].
  exact (proj1 (fetch_range_covers_weeks berlin sampleToday
                  (sampleToday + 5)%Z H)).
Defined.

(** * The weeks of the tabs *)

Section HostTabWeeks.
Import JSDate.
Local Open Scope Z_scope.
Variable Date_parse : string -> option Z.

(** In any zone the week of the tabs ends just before the time value of
    the same wall-clock time seven calendar days after the parsed week
    key. *)
Lemma Host_inWeekOf_window (zone : Host.Zone) (week : string) (weekDate : Z)
    (c : Candidate) :
  Date_parse week = Some weekDate ->
  Host.inWeekOf zone Date_parse week c
  = datedWithin Date_parse weekDate
      (Host.UTC zone (Host.LocalTime zone weekDate + 7 * msPerDay) - 1) c.
Proof.
  intros Hw. unfold Host.inWeekOf, datedWithin.
  rewrite Hw, Host_setDate_getDate_plus.
  destruct (truthy (dateAdded c)); [|reflexivity]. cbn [negb andb].
  destruct (Date_parse (dateAdded c)) as [d|]; [|reflexivity].
  set (e := Host.UTC zone (Host.LocalTime zone weekDate + 7 * msPerDay)).
  destruct (Z.leb_spec weekDate d), (Z.ltb_spec d e), (Z.leb_spec d (e - 1));
    cbn [andb]; first [reflexivity | lia].
Qed.

(** X19: in any zone of the browser, the week of the tabs runs from the
    parsed week key to just before the same wall-clock time seven
    calendar days later. When server and browser are in zones without
    clock changes and the week keys parse as dates in UTC, the records
    that the tabs count for a week are those dated in the window of the
    engine moved earlier by the offset of the server's zone, counted
    within a day; with a server on UTC the windows are the same and the
    tabs count what the trends count. *)
Theorem tab_weeks_are_shifted_windows (serverTZA clientTZA today : Z)
    (candidates : list Candidate) :
  Forall (fun b => Date_parse (Bucket.weekKey b)
                   = Some (Day (Bucket.weekStart b) * msPerDay))
    (Host.weekBuckets (Host.fixed serverTZA) today) ->
  (forall zone week weekDate c,
     Date_parse week = Some weekDate ->
     Host.inWeekOf zone Date_parse week c
     = datedWithin Date_parse weekDate
         (Host.UTC zone (Host.LocalTime zone weekDate + 7 * msPerDay) - 1) c)
  /\ map (fun w =>
            length (filter (Host.inWeekOf (Host.fixed clientTZA) Date_parse
                              (Trend.week w)) candidates))
       (Host.calculateWeeklyTrends (Host.fixed serverTZA) Date_parse today
          candidates)
     = map (fun b =>
              length (filter (datedWithin Date_parse
                                (Bucket.weekStart b - (- serverTZA) mod msPerDay)
                                (Bucket.weekEnd b - (- serverTZA) mod msPerDay))
                        candidates))
         (Host.weekBuckets (Host.fixed serverTZA) today)
  /\ ((- serverTZA) mod msPerDay = 0 ->
      map (fun w =>
             length (filter (Host.inWeekOf (Host.fixed clientTZA) Date_parse
                               (Trend.week w)) candidates))
        (Host.calculateWeeklyTrends (Host.fixed serverTZA) Date_parse today
           candidates)
      = map Trend.totalCandidates
          (Host.calculateWeeklyTrends (Host.fixed serverTZA) Date_parse today
             candidates)).
Proof.
  intros Hparse. split; [exact Host_inWeekOf_window|].
  rewrite fixed_calculateWeeklyTrends, fixed_weekBuckets in *.
  rewrite (map_ext _ (fun w => length (filter (inWeekOf clientTZA Date_parse
                                                 (Trend.week w)) candidates)))
    by (intros w; apply (f_equal (@length Candidate)); apply filter_ext;
        intros c; apply fixed_inWeekOf).
  assert (E : map (fun w => length (filter (inWeekOf clientTZA Date_parse
                                              (Trend.week w)) candidates))
                (calculateWeeklyTrends serverTZA Date_parse today candidates)
              = map (fun b =>
                       length (filter (datedWithin Date_parse
                                 (Bucket.weekStart b - (- serverTZA) mod msPerDay)
                                 (Bucket.weekEnd b - (- serverTZA) mod msPerDay))
                                 candidates))
                  (weekBuckets serverTZA today)).
  { rewrite <- (map_map
                  (fun w => filter (inWeekOf clientTZA Date_parse (Trend.week w))
                              candidates) (@length Candidate)).
    rewrite weekCandidates_of_trends.
    rewrite weekBuckets_eq in Hparse |- *.
    apply Forall_cons_iff in Hparse. destruct Hparse as [H3 Hparse].
    apply Forall_cons_iff in Hparse. destruct Hparse as [H2 Hparse].
    apply Forall_cons_iff in Hparse. destruct Hparse as [H1 Hparse].
    apply Forall_cons_iff in Hparse. destruct Hparse as [H0 _].
    cbn [map].
    rewrite (weekCandidates_shifted serverTZA clientTZA Date_parse today 3
               candidates H3).
    rewrite (weekCandidates_shifted serverTZA clientTZA Date_parse today 2
               candidates H2).
    rewrite (weekCandidates_shifted serverTZA clientTZA Date_parse today 1
               candidates H1).
    rewrite (weekCandidates_shifted serverTZA clientTZA Date_parse today 0
               candidates H0).
    reflexivity. }
  split; [exact E|].
  intros Hz. rewrite E, trend_totals. apply map_ext. intros b.
  rewrite Hz, !Z.sub_0_r. reflexivity.
Qed.
End HostTabWeeks.

(** In a browser in Europe/Berlin the week of the key 2026-10-19 runs
    seven days and one hour: a record dated in the first hour of the next
    key is counted in both weeks. *)
Example berlin_tab_weeks :
  Host.inWeekOf berlin ISO.parse "2026-10-19"
    (dated "2026-10-26T00:30:00.000Z") = true
  /\ Host.inWeekOf berlin ISO.parse "2026-10-26"
       (dated "2026-10-26T00:30:00.000Z") = true
  /\ Host.inWeekOf (Host.fixed 3600000) ISO.parse "2026-10-19"
       (dated "2026-10-26T00:30:00.000Z") = false.
Proof. repeat split; reflexivity. Qed.

Lemma tab_weeks_are_shifted_windows_witness :
  Forall (fun b => ISO.parse (Bucket.weekKey b)
                   = Some (JSDate.Day (Bucket.weekStart b) * JSDate.msPerDay)%Z)
    (Host.weekBuckets (Host.fixed sampleTZA) sampleToday)
  /\ map (fun w =>
            length (filter (Host.inWeekOf (Host.fixed 0) ISO.parse
                              (Trend.week w)) roleRecords))
       (Host.calculateWeeklyTrends (Host.fixed sampleTZA) ISO.parse sampleToday
          roleRecords)
     = map (fun b =>
              length (filter (datedWithin ISO.parse
                                (Bucket.weekStart b
                                 - (- sampleTZA) mod JSDate.msPerDay)%Z
                                (Bucket.weekEnd b
                                 - (- sampleTZA) mod JSDate.msPerDay)%Z)
                        roleRecords))
         (Host.weekBuckets (Host.fixed sampleTZA) sampleToday).
Proof.
  assert (H : Forall (fun b => ISO.parse (Bucket.weekKey b)
                   = Some (JSDate.Day (Bucket.weekStart b) * JSDate.msPerDay)%Z)
                (Host.weekBuckets (Host.fixed sampleTZA) sampleToday))
    by (repeat constructor).
  split; [exact H|].
  exact (proj1 (proj2 (tab_weeks_are_shifted_windows ISO.parse sampleTZA 0
                         sampleToday roleRecords H))).
Defined.

(** * The role folds at the sample data

    None of the role names and sources of the sample records is a name
    that an object inherits. *)

Lemma every_record_in_a_role_group_witness :
  Forall (fun c => inherited (getRoleName c) = false) roleRecords
  /\ option_map RolePerformanceTab.totalCandidates
       (Obj.get "AI Engineer" (RolePerformanceTab.roleAnalysis roleRecords))
     = groupCount "AI Engineer" roleRecords.
Proof.
  assert (H : Forall (fun c => inherited (getRoleName c) = false) roleRecords)
    by (repeat constructor).
  split; [exact H|].
  exact (proj1 (every_record_in_a_role_group roleRecords "AI Engineer" H)).
Defined.

Lemma roleData_sorted_by_volume_witness :
  Forall (fun c => inherited (getRoleName c) = false) roleRecords
  /\ Permutation (RolePerformanceTab.roleData roleRecords)
       (map RolePerformanceTab.roleDatum
          (Obj.values (RolePerformanceTab.roleAnalysis roleRecords))).
Proof.
  assert (H : Forall (fun c => inherited (getRoleName c) = false) roleRecords)
    by (repeat constructor).
  split; [exact H|].
  exact (proj1 (roleData_sorted_by_volume roleRecords H)).
Defined.

Lemma role_groups_partition_records_witness :
  Forall (fun c => inherited (getRoleName c) = false) roleRecords
  /\ list_sum (map (fun d => RolePerformanceTab.totalCandidates
                               (RolePerformanceTab.base d))
                 (RolePerformanceTab.roleData roleRecords))
     = length roleRecords.
Proof.
  assert (H : Forall (fun c => inherited (getRoleName c) = false) roleRecords)
    by (repeat constructor).
  split; [exact H|].
  exact (proj2 (proj2 (proj1 (role_groups_partition_records roleRecords H)))).
Defined.

Lemma weeklyRoleTrend_keys_witness :
  Forall (fun c => inherited (role c) = false) roleRecords
  /\ Obj.get "total"
       (weeklyRoleTrend sampleTZA ISO.parse roleRecords
          (emptyTrend (weekBucket sampleTZA sampleToday 0)))
     = Some (Count
               (length
                  (filter (inWeekOf sampleTZA ISO.parse
                             (Trend.week
                                (emptyTrend (weekBucket sampleTZA sampleToday 0))))
                     roleRecords))).
Proof.
  assert (H : Forall (fun c => inherited (role c) = false) roleRecords)
    by (repeat constructor).
  split; [exact H|].
  exact (proj1 (weeklyRoleTrend_keys sampleTZA ISO.parse roleRecords
                  (emptyTrend (weekBucket sampleTZA sampleToday 0)) H)).
Defined.

Lemma topSource_most_frequent_witness :
  Forall (fun c => inherited (getRoleName c) = false
                   /\ inherited (source c) = false) roleRecords
  /\ Forall (fun d =>
               let records :=
                 recordsOfRole
                   (RolePerformanceTab.role (RolePerformanceTab.base d))
                   roleRecords in
               let top := RolePerformanceTab.topSource d in
               if existsb (fun c => truthy (source c)) records
               then truthy top = true
                    /\ (0 < tally source top records)%nat
                    /\ forall s, (tally source s records
                                  <= tally source top records)%nat
               else top = "No Data"%string)
       (RolePerformanceTab.roleData roleRecords).
Proof.
  assert (H : Forall (fun c => inherited (getRoleName c) = false
                               /\ inherited (source c) = false) roleRecords)
    by (repeat constructor).
  split; [exact H|].
  exact (topSource_most_frequent roleRecords H).
Defined.

(** The bound of the query in Europe/Berlin on the sample day: it is
    before each of the four weeks built a second later. *)
Example berlin_fetch_range :
  Forall (fun b =>
            (Host.fourWeeksAgo berlin sampleToday (sampleToday + 5)
             <? Bucket.weekStart b)%Z = true)
    (Host.weekBuckets berlin (sampleToday + 1000)%Z).
Proof. vm_compute. repeat constructor. Qed.
